(** * NIC configuration operator: the host manager (pkg/host/host.go)

    A shallow embedding of [hostManager] and of its four operations
    ([DiscoverNicDevices], [ValidateDeviceNvSpec], [ApplyDeviceNvSpec],
    [ApplyDeviceRuntimeSpec]), followed by the properties of the
    reconciliation engine that the specification states about them.

    The host utilities and the configuration validation are Go interfaces
    injected into the manager; they are records of functions here.  Host
    calls thread an abstract host state and are recorded, in order, in the
    list of events a run returns, so that "which calls were issued" is a
    statement about that list.  A Go panic is an outcome of its own. *)

From Stdlib Require Import ZArith Ascii String.
From stdpp Require Import gmap strings list fin_maps.

Local Open Scope string_scope.
Local Open Scope Z_scope.
Local Open Scope list_scope.

(* ===================================================================== *)
(** ** Go values used by the package *)
(* ===================================================================== *)

(** Go's [error] interface.  [types.IncorrectSpecError] builds the error
    that marks a mistake in the user's spec; every other error value comes
    from the host utilities. *)
Inductive error : Type :=
  | IncorrectSpecError (msg : string)
  | HostError (msg : string).

Definition isIncorrectSpecError (e : error) : bool :=
  match e with IncorrectSpecError _ => true | HostError _ => false end.

(** [types.NvConfigQuery]: the three parameter maps of one query. *)
Record NvConfigQuery : Type := mkNvConfigQuery {
  CurrentConfig : gmap string string;
  NextBootConfig : gmap string string;
  DefaultConfig : gmap string string
}.

(** The fields of ghw's [pci.Device] that discovery reads
    ([device.Vendor.ID], [device.Class.ID], [device.Product.ID],
    [device.Product.Name], [device.Address]), with the [Vendor], [Class]
    and [Product] pointers followed.  The listing with the pointers
    themselves, which may be nil, is [ListedDevice] below;
    [DiscoverListedDevices_refines] relates discovery on the two. *)
Record PCIDevice : Type := mkPCIDevice {
  Address : string;
  Vendor_ID : string;
  Class_ID : string;
  Product_ID : string;
  Product_Name : string
}.

(** [v1alpha1.NicDevicePortSpec]. *)
Record NicDevicePortSpec : Type := mkPort {
  PCI : string;
  NetworkInterface : string;
  RdmaInterface : string
}.

(** [v1alpha1.NicDeviceStatus]. *)
Record NicDeviceStatus : Type := mkStatus {
  Node : string;
  Type_ : string;
  SerialNumber : string;
  PartNumber : string;
  PSID : string;
  FirmwareVersion : string;
  Ports : list NicDevicePortSpec
}.

(** [v1alpha1.NicDevice], with the part of its spec the manager reads
    itself ([Spec.Configuration.ResetToDefault]); the template is only
    read by the configuration validation, so its type is left open. *)
Record NicDeviceConfigurationSpec (Template : Type) : Type := mkConfiguration {
  ResetToDefault : bool;
  ConfigTemplate : Template
}.
Arguments mkConfiguration {Template}.
Arguments ResetToDefault {Template}.
Arguments ConfigTemplate {Template}.

Record NicDevice (Template : Type) : Type := mkNicDevice {
  Name : string;
  Configuration : NicDeviceConfigurationSpec Template;
  Status : NicDeviceStatus
}.
Arguments mkNicDevice {Template}.
Arguments Name {Template}.
Arguments Configuration {Template}.
Arguments Status {Template}.

(** The constants of [pkg/consts] that host.go names. *)
Record Consts : Type := mkConsts {
  MellanoxVendor : string;
  NetClass : Z;
  AdvancedPCISettingsParam : string;
  NvParamTrue : string
}.

(* ===================================================================== *)
(** ** strconv.ParseInt(s, 16, 64) *)
(* ===================================================================== *)

Module Strconv.

Definition byte (c : ascii) : Z := Z.of_N (N_of_ascii c).

(** [lower(c) = c | ('x' - 'X')]. *)
Definition lower (c : ascii) : Z := Z.lor (byte c) 32.

(** The digit value of one byte, as the switch of [ParseUint] has it. *)
Definition digit (c : ascii) : option Z :=
  if (48 <=? byte c) && (byte c <=? 57) then Some (byte c - 48)
  else if (97 <=? lower c) && (lower c <=? 122) then Some (lower c - 97 + 10)
  else None.

Definition maxUint64 : Z := 2 ^ 64 - 1.

(** The loop of [ParseUint] for base 16 and bit size 64: [None] stands
    for either of its errors (syntax or range). *)
Fixpoint parseUintLoop (s : string) (n : Z) : option Z :=
  match s with
  | EmptyString => Some n
  | String c s' =>
      match digit c with
      | None => None
      | Some d =>
          if 16 <=? d then None
          else if maxUint64 / 16 + 1 <=? n then None
          else
            let n := n * 16 in
            let n1 := (n + d) mod 2 ^ 64 in
            if (n1 <? n) || (maxUint64 <? n1) then None
            else parseUintLoop s' n1
      end
  end.

Definition ParseUint (s : string) : option Z :=
  match s with
  | EmptyString => None
  | _ => parseUintLoop s 0
  end.

(** [ParseInt(s, 16, 64)]: an optional sign, then [ParseUint], then the
    range check against [1 << 63]. *)
Definition ParseInt (s : string) : option Z :=
  match s with
  | EmptyString => None
  | String c rest =>
      let neg := Ascii.eqb c "-"%char in
      let s1 := if Ascii.eqb c "+"%char || neg then rest else s in
      match ParseUint s1 with
      | None => None
      | Some un =>
          let cutoff := 2 ^ 63 in
          if negb neg && (cutoff <=? un) then None
          else if neg && (cutoff <? un) then None
          else Some (if neg then - un else un)
      end
  end.

End Strconv.

(* ===================================================================== *)
(** ** Host calls, their record, and the monad of the manager *)
(* ===================================================================== *)

(** One call of the manager into the host utilities, with its arguments
    and what it returned. *)
Inductive Event : Type :=
  | EvGetPCIDevices (err : option error)
  | EvIsSriovVF (addr : string) (vf : bool)
  | EvGetPartAndSerialNumber (addr partNumber serialNumber : string) (err : option error)
  | EvGetFirmwareVersionAndPSID (addr firmwareVersion psid : string) (err : option error)
  | EvGetInterfaceName (addr name : string)
  | EvGetRDMADeviceName (addr name : string)
  | EvQueryNvConfig (addr : string) (err : option error)
  | EvSetNvConfigParameter (addr param value : string) (err : option error)
  | EvResetNvConfig (addr : string) (err : option error)
  | EvResetNicFirmware (addr : string) (err : option error)
  | EvSetMaxReadRequestSize (addr : string) (size : Z) (err : option error)
  | EvSetTrustAndPFC (iface trust pfc : string) (err : option error).

Definition isSetNvConfigParameter (ev : Event) : bool :=
  match ev with EvSetNvConfigParameter _ _ _ _ => true | _ => false end.

Definition isSetMaxReadRequestSize (ev : Event) : bool :=
  match ev with EvSetMaxReadRequestSize _ _ _ => true | _ => false end.

(** What a run of a manager operation ends in. *)
Inductive Outcome (St A : Type) : Type :=
  | Panic
  | Returned (a : A) (s : St) (evs : list Event).
Arguments Panic {St A}.
Arguments Returned {St A}.

(** The three range loops of host.go over a Go map; the order in which a
    Go [range] visits a map is not fixed by the language. *)
Inductive Site : Type := RangeValidate | RangeDesired | RangeApply.

Record RangeOrder : Type := mkRangeOrder {
  range_map : Site → gmap string string → list (string * string);
  range_perm : ∀ site m, range_map site m ≡ₚ map_to_list m
}.

(** A range loop with early return: the body either goes on with a new
    loop state or leaves the function with a result. *)
Fixpoint range_pure {A S R : Type} (body : A → S → S + R) (l : list A) (s : S) : S + R :=
  match l with
  | [] => inl s
  | a :: l' =>
      match body a s with
      | inl s' => range_pure body l' s'
      | inr r => inr r
      end
  end.

(** The monad of the manager: a run starts from a host state and either
    panics or returns a value, the new host state and the host calls it
    made, oldest first. *)
Definition M (St A : Type) : Type := St → Outcome St A.

Definition M_ret {St A : Type} (a : A) : M St A := fun s => Returned a s [].

Definition M_bind {St A B : Type} (f : A → M St B) (m : M St A) : M St B :=
  fun s =>
    match m s with
    | Panic => Panic
    | Returned a s1 evs1 =>
        match f a s1 with
        | Panic => Panic
        | Returned b s2 evs2 => Returned b s2 (evs1 ++ evs2)
        end
    end.

#[global] Instance M_MRet (St : Type) : MRet (M St) := @M_ret St.
#[global] Instance M_MBind (St : Type) : MBind (M St) := @M_bind St.

(** A host call: run the utility on the host state and record the call. *)
Definition call {St A : Type} (f : St → A * St) (ev : A → Event) : M St A :=
  fun s => let '(a, s') := f s in Returned a s' [ev a].

(** A call of the configuration validation that reads the host: it is
    not one of the manager's own host calls, so it records nothing. *)
Definition effect {St A : Type} (f : St → A * St) : M St A :=
  fun s => let '(a, s') := f s in Returned a s' [].

(** Go's [v, found := m[k]]: the zero value when the key is absent. *)
Definition lookupOk (m : gmap string string) (k : string) : string * bool :=
  match m !! k with Some v => (v, true) | None => ("", false) end.

(** [l[i]] of Go: an index out of range panics. *)
Definition index {St A : Type} (l : list A) (i : nat) : M St A :=
  fun s => match l !! i with Some a => Returned a s [] | None => Panic end.

(** A range loop with early return whose body makes host calls. *)
Fixpoint range_loop {St A S R : Type} (body : A → S → M St (S + R))
    (l : list A) (s : S) : M St (S + R) :=
  match l with
  | [] => mret (inl s)
  | a :: l' =>
      r ← body a s;
      match r with
      | inl s' => range_loop body l' s'
      | inr r => mret (inr r)
      end
  end.

(** The [HostUtils] interface, as far as the manager calls it.  A Go
    method returning [(value, error)] returns the pair here as well. *)
Record HostUtils (St Ctx : Type) : Type := mkHostUtils {
  GetPCIDevices : St → (list PCIDevice * option error) * St;
  IsSriovVF : string → St → bool * St;
  GetPartAndSerialNumber : string → St → (string * string * option error) * St;
  GetFirmwareVersionAndPSID : string → St → (string * string * option error) * St;
  GetInterfaceName : string → St → string * St;
  GetRDMADeviceName : string → St → string * St;
  QueryNvConfig : Ctx → string → St → (NvConfigQuery * option error) * St;
  SetNvConfigParameter : string → string → string → St → option error * St;
  ResetNvConfig : string → St → option error * St;
  ResetNicFirmware : Ctx → string → St → option error * St;
  SetMaxReadRequestSize : string → Z → St → option error * St;
  SetTrustAndPFC : string → string → string → St → option error * St
}.
Arguments mkHostUtils {St Ctx}.
Arguments GetPCIDevices {St Ctx}.
Arguments IsSriovVF {St Ctx}.
Arguments GetPartAndSerialNumber {St Ctx}.
Arguments GetFirmwareVersionAndPSID {St Ctx}.
Arguments GetInterfaceName {St Ctx}.
Arguments GetRDMADeviceName {St Ctx}.
Arguments QueryNvConfig {St Ctx}.
Arguments SetNvConfigParameter {St Ctx}.
Arguments ResetNvConfig {St Ctx}.
Arguments ResetNicFirmware {St Ctx}.
Arguments SetMaxReadRequestSize {St Ctx}.
Arguments SetTrustAndPFC {St Ctx}.

(** The [configValidation] interface.  The desired-config builder, the
    reset-to-default check, the gate test and the desired runtime values
    are computed from their arguments; [RuntimeConfigApplied] compares
    against the live host, so it reads the host state. *)
Record configValidation (St Template : Type) : Type := mkConfigValidation {
  ConstructNvParamMapFromTemplate :
    NicDevice Template → gmap string string → gmap string string * option error;
  ValidateResetToDefault : NvConfigQuery → bool * bool * option error;
  AdvancedPCISettingsEnabled : gmap string string → bool;
  RuntimeConfigApplied : NicDevice Template → St → (bool * option error) * St;
  CalculateDesiredRuntimeConfig : NicDevice Template → Z * string * string
}.
Arguments mkConfigValidation {St Template}.
Arguments ConstructNvParamMapFromTemplate {St Template}.
Arguments ValidateResetToDefault {St Template}.
Arguments AdvancedPCISettingsEnabled {St Template}.
Arguments RuntimeConfigApplied {St Template}.
Arguments CalculateDesiredRuntimeConfig {St Template}.

(** [type hostManager struct]. *)
Record hostManager (St Ctx Template : Type) : Type := mkHostManager {
  nodeName : string;
  hostUtils : HostUtils St Ctx;
  configValidation_ : configValidation St Template
}.
Arguments mkHostManager {St Ctx Template}.
Arguments nodeName {St Ctx Template}.
Arguments hostUtils {St Ctx Template}.
Arguments configValidation_ {St Ctx Template}.

(** The error both NV loops raise for a parameter the device lacks:
    [fmt.Sprintf("Parameter %s unsupported for device %s", ...)]. *)
Definition unsupportedParameter (parameter deviceName : string) : error :=
  IncorrectSpecError
    ("Parameter " +:+ parameter +:+ " unsupported for device " +:+ deviceName).

(* ===================================================================== *)
(** ** The four operations of the host manager *)
(* ===================================================================== *)

Section Manager.
Context {St Ctx Template : Type}.
Variable consts : Consts.
Variable order : RangeOrder.
Variable h : hostManager St Ctx Template.

Let hu := hostUtils h.
Let cv := configValidation_ h.

(** *** DiscoverNicDevices (host.go, lines 55-132) *)

(** The body of the loop over the PCI devices: [inl] goes on to the next
    device with the map so far, [inr] is a [return]. *)
Definition discoverDevice (device : PCIDevice) (devices : gmap string NicDeviceStatus)
    : M St (gmap string NicDeviceStatus
            + option (gmap string NicDeviceStatus) * option error) :=
  if negb (String.eqb (Vendor_ID device) (MellanoxVendor consts)) then mret (inl devices)
  else match Strconv.ParseInt (Class_ID device) with
  | None => mret (inl devices)
  | Some devClass =>
  if negb (devClass =? NetClass consts) then mret (inl devices)
  else
    vf ← call (IsSriovVF hu (Address device)) (EvIsSriovVF (Address device));
    if (vf : bool) then mret (inl devices)
    else
      '(partNumber, serialNumber, err) ←
        call (GetPartAndSerialNumber hu (Address device))
             (λ '(pn, sn, err), EvGetPartAndSerialNumber (Address device) pn sn err);
      match err with
      | Some e => mret (inr (None, Some e))
      | None =>
        found ←
          match devices !! serialNumber with
          | Some deviceStatus => mret (inl (deviceStatus, devices))
          | None =>
            '(firmwareVersion, psid, err) ←
              call (GetFirmwareVersionAndPSID hu (Address device))
                   (λ '(fw, ps, err),
                      EvGetFirmwareVersionAndPSID (Address device) fw ps err);
            match err with
            | Some e => mret (inr e)
            | None =>
              let deviceStatus :=
                {| Node := ""; Type_ := Product_ID device;
                   SerialNumber := serialNumber; PartNumber := partNumber;
                   PSID := psid; FirmwareVersion := firmwareVersion;
                   Ports := [] |} in
              mret (inl (deviceStatus, <[serialNumber := deviceStatus]> devices))
            end
          end;
        match found with
        | inr e => mret (inr (None, Some e))
        | inl (deviceStatus, devices) =>
          networkInterface ←
            call (GetInterfaceName hu (Address device)) (EvGetInterfaceName (Address device));
          rdmaInterface ←
            call (GetRDMADeviceName hu (Address device)) (EvGetRDMADeviceName (Address device));
          let deviceStatus :=
            {| Node := nodeName h; Type_ := Type_ deviceStatus;
               SerialNumber := SerialNumber deviceStatus;
               PartNumber := PartNumber deviceStatus;
               PSID := PSID deviceStatus;
               FirmwareVersion := FirmwareVersion deviceStatus;
               Ports := Ports deviceStatus ++
                        [ {| PCI := Address device;
                             NetworkInterface := networkInterface;
                             RdmaInterface := rdmaInterface |} ] |} in
          mret (inl (<[SerialNumber deviceStatus := deviceStatus]> devices))
        end
      end
  end.

Definition DiscoverNicDevices
    : M St (option (gmap string NicDeviceStatus) * option error) :=
  '(pciDevices, err) ← call (GetPCIDevices hu) (λ r, EvGetPCIDevices r.2);
  match err with
  | Some e => mret (None, Some e)
  | None =>
    r ← range_loop discoverDevice pciDevices ∅;
    match r with
    | inl devices => mret (Some devices, None)
    | inr result => mret result
    end
  end.

(** *** ValidateDeviceNvSpec (host.go, lines 141-186) *)

(** The body of the loop over the desired parameters (lines 166-183). *)
Definition validateParameter (nvConfig : NvConfigQuery)
    (advancedPciSettingsEnabled : bool) (deviceName : string)
    (entry : string * string) (flags : bool * bool) : bool * bool + error :=
  let '(parameter, desiredValue) := entry in
  let '(configUpdateNeeded, rebootNeeded) := flags in
  let '(currentValue, foundInCurrent) := lookupOk (CurrentConfig nvConfig) parameter in
  let '(nextValue, foundInNextBoot) := lookupOk (NextBootConfig nvConfig) parameter in
  if advancedPciSettingsEnabled && negb foundInCurrent
  then inr (unsupportedParameter parameter deviceName)
  else if foundInNextBoot && String.eqb nextValue desiredValue
  then
    if negb foundInCurrent || negb (String.eqb currentValue desiredValue)
    then inl (configUpdateNeeded, true)
    else inl (configUpdateNeeded, rebootNeeded)
  else inl (true, true).

Definition ValidateDeviceNvSpec (ctx : Ctx) (device : NicDevice Template)
    : M St (bool * bool * option error) :=
  port0 ← index (Ports (Status device)) 0;
  '(nvConfig, err) ← call (QueryNvConfig hu ctx (PCI port0))
                          (λ r, EvQueryNvConfig (PCI port0) r.2);
  match err with
  | Some e => mret (false, false, Some e)
  | None =>
    if ResetToDefault (Configuration device)
    then mret (ValidateResetToDefault cv nvConfig)
    else
      let '(desiredConfig, err) :=
        ConstructNvParamMapFromTemplate cv device (DefaultConfig nvConfig) in
      match err with
      | Some e => mret (false, false, Some e)
      | None =>
        let advancedPciSettingsEnabled :=
          AdvancedPCISettingsEnabled cv (CurrentConfig nvConfig) in
        match range_pure
                (validateParameter nvConfig advancedPciSettingsEnabled (Name device))
                (range_map order RangeValidate desiredConfig) (false, false) with
        | inr e => mret (false, false, Some e)
        | inl (configUpdateNeeded, rebootNeeded) =>
            mret (configUpdateNeeded, rebootNeeded, None)
        end
      end
  end.

(** *** ApplyDeviceNvSpec (host.go, lines 191-275) *)

(** The reset-to-default branch (lines 196-211). *)
Definition resetToDefault (pciAddr : string) : M St (bool * option error) :=
  err ← call (ResetNvConfig hu pciAddr) (EvResetNvConfig pciAddr);
  match err with
  | Some e => mret (false, Some e)
  | None =>
    err ← call (SetNvConfigParameter hu pciAddr (AdvancedPCISettingsParam consts)
                  (NvParamTrue consts))
               (EvSetNvConfigParameter pciAddr (AdvancedPCISettingsParam consts)
                  (NvParamTrue consts));
    match err with
    | Some e => mret (false, Some e)
    | None => mret (true, err)
    end
  end.

(** The query of the NV config and, when the gate is off, its bootstrap:
    enable the gate, reset the firmware, query again (lines 213-239).
    [inr] is the error the function returns with. *)
Definition queryNvConfigWithBootstrap (ctx : Ctx) (device : NicDevice Template)
    (pciAddr : string) : M St (NvConfigQuery + error) :=
  port0 ← index (Ports (Status device)) 0;
  '(nvConfig, err) ← call (QueryNvConfig hu ctx (PCI port0))
                          (λ r, EvQueryNvConfig (PCI port0) r.2);
  match err with
  | Some e => mret (inr e)
  | None =>
    if negb (AdvancedPCISettingsEnabled cv (CurrentConfig nvConfig))
    then
      err ← call (SetNvConfigParameter hu pciAddr (AdvancedPCISettingsParam consts)
                    (NvParamTrue consts))
                 (EvSetNvConfigParameter pciAddr (AdvancedPCISettingsParam consts)
                    (NvParamTrue consts));
      match err with
      | Some e => mret (inr e)
      | None =>
        err ← call (ResetNicFirmware hu ctx pciAddr) (EvResetNicFirmware pciAddr);
        match err with
        | Some e => mret (inr e)
        | None =>
          port0 ← index (Ports (Status device)) 0;
          '(nvConfig, err) ← call (QueryNvConfig hu ctx (PCI port0))
                                  (λ r, EvQueryNvConfig (PCI port0) r.2);
          match err with
          | Some e => mret (inr e)
          | None => mret (inl nvConfig)
          end
        end
      end
    else mret (inl nvConfig)
  end.

(** The body of the loop that collects the write set (lines 249-260). *)
Definition collectParameter (nvConfig : NvConfigQuery) (deviceName : string)
    (entry : string * string) (paramsToApply : gmap string string)
    : gmap string string + error :=
  let '(param, value) := entry in
  let '(nextVal, found) := lookupOk (NextBootConfig nvConfig) param in
  if negb found then inr (unsupportedParameter param deviceName)
  else if negb (String.eqb nextVal value) then inl (<[param := value]> paramsToApply)
  else inl paramsToApply.

(** The body of the loop that writes the write set (lines 264-270). *)
Definition applyParameter (pciAddr : string) (entry : string * string) (_ : unit)
    : M St (unit + error) :=
  let '(param, value) := entry in
  err ← call (SetNvConfigParameter hu pciAddr param value)
             (EvSetNvConfigParameter pciAddr param value);
  match err with
  | Some e => mret (inr e)
  | None => mret (inl ())
  end.

Definition ApplyDeviceNvSpec (ctx : Ctx) (device : NicDevice Template)
    : M St (bool * option error) :=
  port0 ← index (Ports (Status device)) 0;
  let pciAddr := PCI port0 in
  if ResetToDefault (Configuration device)
  then resetToDefault pciAddr
  else
    queried ← queryNvConfigWithBootstrap ctx device pciAddr;
    match queried with
    | inr e => mret (false, Some e)
    | inl nvConfig =>
      let '(desiredConfig, err) :=
        ConstructNvParamMapFromTemplate cv device (DefaultConfig nvConfig) in
      match err with
      | Some e => mret (false, Some e)
      | None =>
        match range_pure (collectParameter nvConfig (Name device))
                (range_map order RangeDesired desiredConfig) ∅ with
        | inr e => mret (false, Some e)
        | inl paramsToApply =>
          written ← range_loop (applyParameter pciAddr)
                      (range_map order RangeApply paramsToApply) ();
          match written with
          | inr e => mret (false, Some e)
          | inl _ => mret (true, None)
          end
        end
      end
    end.

(** *** ApplyDeviceRuntimeSpec (host.go, lines 279-325) *)

(** The max-read-request-size block (lines 296-309); [Some e] is the
    error the function returns with. *)
Definition applyMaxReadRequestSize (ports : list NicDevicePortSpec)
    (desiredMaxReadReqSize : Z) : M St (option error) :=
  if negb (desiredMaxReadReqSize =? 0)
  then
    port0 ← index ports 0;
    err ← call (SetMaxReadRequestSize hu (PCI port0) desiredMaxReadReqSize)
               (EvSetMaxReadRequestSize (PCI port0) desiredMaxReadReqSize);
    match err with
    | Some e => mret (Some e)
    | None =>
      if Nat.eqb (length ports) 2
      then
        port1 ← index ports 1;
        call (SetMaxReadRequestSize hu (PCI port1) desiredMaxReadReqSize)
             (EvSetMaxReadRequestSize (PCI port1) desiredMaxReadReqSize)
      else mret None
    end
  else mret None.

(** The trust and PFC block (lines 311-322). *)
Definition applyTrustAndPFC (ports : list NicDevicePortSpec)
    (desiredTrust desiredPfc : string) : M St (option error) :=
  port0 ← index ports 0;
  err ← call (SetTrustAndPFC hu (NetworkInterface port0) desiredTrust desiredPfc)
             (EvSetTrustAndPFC (NetworkInterface port0) desiredTrust desiredPfc);
  match err with
  | Some e => mret (Some e)
  | None =>
    if Nat.eqb (length ports) 2
    then
      port1 ← index ports 1;
      call (SetTrustAndPFC hu (NetworkInterface port1) desiredTrust desiredPfc)
           (EvSetTrustAndPFC (NetworkInterface port1) desiredTrust desiredPfc)
    else mret None
  end.

Definition ApplyDeviceRuntimeSpec (device : NicDevice Template) : M St (option error) :=
  '(alreadyApplied, err) ← effect (RuntimeConfigApplied cv device);
  (* [err] is logged when it is not nil, and not looked at again *)
  if (alreadyApplied : bool) then mret None
  else
    let '(desiredMaxReadReqSize, desiredTrust, desiredPfc) :=
      CalculateDesiredRuntimeConfig cv device in
    let ports := Ports (Status device) in
    err ← applyMaxReadRequestSize ports desiredMaxReadReqSize;
    match err with
    | Some e => mret (Some e)
    | None => applyTrustAndPFC ports desiredTrust desiredPfc
    end.

End Manager.

(* ===================================================================== *)
(** ** The PCI listing with ghw's pointers *)
(* ===================================================================== *)

(** ghw's [pci.Device] as the listing holds it: the listing is a slice of
    pointers to devices, and [Vendor], [Class] and [Product] of a device
    are pointers too; [None] is a nil pointer.  [PciVendor] and
    [PciClass] stand for what the pointer leads to as far as discovery
    reads it (the ID), [PciProduct] for the ID and the Name.
    [PCIDevice] above is such a device with its pointers followed. *)
Record ListedDevice : Type := mkListedDevice {
  PciAddress : string;
  PciVendor : option string;
  PciClass : option string;
  PciProduct : option (string * string)
}.

(** Following a pointer: a nil pointer panics. *)
Definition deref {St A : Type} (pointer : option A) : M St A :=
  fun s => match pointer with Some a => Returned a s [] | None => Panic end.

Section Listing.
Context {St Ctx Template : Type}.
Variable consts : Consts.
Variable h : hostManager St Ctx Template.

Let hu := hostUtils h.

(** The body of the loop of DiscoverNicDevices (host.go, lines 67-129)
    on an element of the listing, with the pointers it follows:
    [device.Vendor] at line 68, [device.Class] at line 72 and
    [device.Product] at line 88 (in the arguments of the log call) and
    at line 107. *)
Definition discoverListedDevice (listed : option ListedDevice)
    (devices : gmap string NicDeviceStatus)
    : M St (gmap string NicDeviceStatus
            + option (gmap string NicDeviceStatus) * option error) :=
  device ← deref listed;
  vendor ← deref (PciVendor device);
  if negb (String.eqb vendor (MellanoxVendor consts)) then mret (inl devices)
  else
    class ← deref (PciClass device);
    match Strconv.ParseInt class with
    | None => mret (inl devices)
    | Some devClass =>
    if negb (devClass =? NetClass consts) then mret (inl devices)
    else
      vf ← call (IsSriovVF hu (PciAddress device)) (EvIsSriovVF (PciAddress device));
      if (vf : bool) then mret (inl devices)
      else
        product ← deref (PciProduct device);
        '(partNumber, serialNumber, err) ←
          call (GetPartAndSerialNumber hu (PciAddress device))
               (λ '(pn, sn, err), EvGetPartAndSerialNumber (PciAddress device) pn sn err);
        match err with
        | Some e => mret (inr (None, Some e))
        | None =>
          found ←
            match devices !! serialNumber with
            | Some deviceStatus => mret (inl (deviceStatus, devices))
            | None =>
              '(firmwareVersion, psid, err) ←
                call (GetFirmwareVersionAndPSID hu (PciAddress device))
                     (λ '(fw, ps, err),
                        EvGetFirmwareVersionAndPSID (PciAddress device) fw ps err);
              match err with
              | Some e => mret (inr e)
              | None =>
                let deviceStatus :=
                  {| Node := ""; Type_ := product.1;
                     SerialNumber := serialNumber; PartNumber := partNumber;
                     PSID := psid; FirmwareVersion := firmwareVersion;
                     Ports := [] |} in
                mret (inl (deviceStatus, <[serialNumber := deviceStatus]> devices))
              end
            end;
          match found with
          | inr e => mret (inr (None, Some e))
          | inl (deviceStatus, devices) =>
            networkInterface ←
              call (GetInterfaceName hu (PciAddress device))
                   (EvGetInterfaceName (PciAddress device));
            rdmaInterface ←
              call (GetRDMADeviceName hu (PciAddress device))
                   (EvGetRDMADeviceName (PciAddress device));
            let deviceStatus :=
              {| Node := nodeName h; Type_ := Type_ deviceStatus;
                 SerialNumber := SerialNumber deviceStatus;
                 PartNumber := PartNumber deviceStatus;
                 PSID := PSID deviceStatus;
                 FirmwareVersion := FirmwareVersion deviceStatus;
                 Ports := Ports deviceStatus ++
                          [ {| PCI := PciAddress device;
                               NetworkInterface := networkInterface;
                               RdmaInterface := rdmaInterface |} ] |} in
            mret (inl (<[SerialNumber deviceStatus := deviceStatus]> devices))
          end
        end
    end.

(** DiscoverNicDevices (host.go, lines 55-132) on a host whose listing
    ([GetPCIDevices], given here with ghw's pointers) may hold nil
    pointers. *)
Definition DiscoverListedDevices
    (listing : St → (list (option ListedDevice) * option error) * St)
    : M St (option (gmap string NicDeviceStatus) * option error) :=
  '(pciDevices, err) ← call listing (λ r, EvGetPCIDevices r.2);
  match err with
  | Some e => mret (None, Some e)
  | None =>
    r ← range_loop discoverListedDevice pciDevices ∅;
    match r with
    | inl devices => mret (Some devices, None)
    | inr result => mret result
    end
  end.

End Listing.

(* ===================================================================== *)
(** ** A simulated host, for running the operations on concrete inputs *)
(* ===================================================================== *)

Module Sim.

(** Values for the constants of pkg/consts. *)
Definition consts : Consts :=
  {| MellanoxVendor := "15b3"; NetClass := 2;
     AdvancedPCISettingsParam := "ADVANCED_PCI_SETTINGS"; NvParamTrue := "1" |}.

(** A range order: the one of [map_to_list], at every loop. *)
Definition order : RangeOrder :=
  {| range_map := λ _ m, map_to_list m;
     range_perm := λ _ m, reflexivity (map_to_list m) |}.

(** The host state is the NV configuration of the one card of the host.
    A write stages the value for the next boot, a firmware reset makes
    the staged values current, a factory reset stages the defaults.  The
    knobs are what discovery finds and which calls fail. *)
Record Knobs : Type := mkKnobs {
  pciDevices : list PCIDevice;
  partAndSerial : string → string * string * option error;
  firmwareAndPSID : string → string * string * option error;
  virtualFunction : string → bool;
  queryError : option error;
  resetError : option error;
  maxReadRequestSizeError : string → option error
}.

Definition utils (k : Knobs) : HostUtils NvConfigQuery unit :=
  {| GetPCIDevices := λ s, ((pciDevices k, None), s);
     IsSriovVF := λ addr s, (virtualFunction k addr, s);
     GetPartAndSerialNumber := λ addr s, (partAndSerial k addr, s);
     GetFirmwareVersionAndPSID := λ addr s, (firmwareAndPSID k addr, s);
     GetInterfaceName := λ addr s, ("eth-" +:+ addr, s);
     GetRDMADeviceName := λ addr s, ("mlx5-" +:+ addr, s);
     QueryNvConfig := λ _ _ s, ((s, queryError k), s);
     SetNvConfigParameter := λ _ param value s,
       (None, {| CurrentConfig := CurrentConfig s;
                 NextBootConfig := <[param := value]> (NextBootConfig s);
                 DefaultConfig := DefaultConfig s |});
     ResetNvConfig := λ _ s,
       (resetError k,
        match resetError k with
        | Some _ => s
        | None => {| CurrentConfig := CurrentConfig s;
                     NextBootConfig := DefaultConfig s;
                     DefaultConfig := DefaultConfig s |}
        end);
     ResetNicFirmware := λ _ _ s,
       (None, {| CurrentConfig := NextBootConfig s;
                 NextBootConfig := NextBootConfig s;
                 DefaultConfig := DefaultConfig s |});
     SetMaxReadRequestSize := λ addr _ s, (maxReadRequestSizeError k addr, s);
     SetTrustAndPFC := λ _ _ _ s, (None, s) |}.

(** A configuration validation whose desired config is the device's
    template itself, whose gate test reads the gate parameter, and whose
    runtime answers are given. *)
Definition validation (applied : bool * option error) (runtime : Z * string * string)
    : configValidation NvConfigQuery (gmap string string) :=
  {| ConstructNvParamMapFromTemplate := λ device _,
       (ConfigTemplate (Configuration device), None);
     ValidateResetToDefault := λ nvConfig,
       let differs := negb (bool_decide (CurrentConfig nvConfig = DefaultConfig nvConfig)) in
       (differs, differs, None);
     AdvancedPCISettingsEnabled := λ currentConfig,
       bool_decide (currentConfig !! AdvancedPCISettingsParam consts
                    = Some (NvParamTrue consts));
     RuntimeConfigApplied := λ _ s, (applied, s);
     CalculateDesiredRuntimeConfig := λ _, runtime |}.

Definition manager (k : Knobs) (applied : bool * option error)
    (runtime : Z * string * string)
    : hostManager NvConfigQuery unit (gmap string string) :=
  {| nodeName := "node-1"; hostUtils := utils k;
     configValidation_ := validation applied runtime |}.

Definition port (n : string) : NicDevicePortSpec :=
  {| PCI := "0000:03:00." +:+ n; NetworkInterface := "eth" +:+ n;
     RdmaInterface := "mlx5_" +:+ n |}.

Definition device (reset : bool) (desired : gmap string string)
    (ports : list NicDevicePortSpec) : NicDevice (gmap string string) :=
  {| Name := "nic";
     Configuration := {| ResetToDefault := reset; ConfigTemplate := desired |};
     Status := {| Node := "node-1"; Type_ := "101d"; SerialNumber := "SN1";
                  PartNumber := "PN1"; PSID := "MT_1"; FirmwareVersion := "22.31";
                  Ports := ports |} |}.

(** NV configurations of the card, all with the gate on.  The desired
    config of the examples is [P1 = 1]. *)
Definition gateOn : gmap string string := {[ "ADVANCED_PCI_SETTINGS" := "1" ]}.

Definition desired : gmap string string := {[ "P1" := "1" ]}.

Definition nvOf (current next : gmap string string) : NvConfigQuery :=
  {| CurrentConfig := current ∪ gateOn; NextBootConfig := next ∪ gateOn;
     DefaultConfig := {[ "P1" := "0" ]} ∪ gateOn |}.

(** [P1] is 1 now and after the next boot. *)
Definition nvSettled : NvConfigQuery := nvOf {[ "P1" := "1" ]} {[ "P1" := "1" ]}.

(** [P1] is 0 now and staged as 1. *)
Definition nvPending : NvConfigQuery := nvOf {[ "P1" := "0" ]} {[ "P1" := "1" ]}.

(** [P1] is 1 now and staged as 0. *)
Definition nvStale : NvConfigQuery := nvOf {[ "P1" := "1" ]} {[ "P1" := "0" ]}.

(** The current config does not show [P1]; the next-boot config has it
    as 0. *)
Definition nvHidden : NvConfigQuery := nvOf ∅ {[ "P1" := "0" ]}.

(** Neither config knows [P1]. *)
Definition nvUnknown : NvConfigQuery := nvOf ∅ ∅.

(** A host with a two-port card, one device whose class code does not
    parse, and one device of another vendor. *)
Definition pci (address vendor class : string) : PCIDevice :=
  {| Address := address; Vendor_ID := vendor; Class_ID := class;
     Product_ID := "101d"; Product_Name := "ConnectX-6 Dx" |}.

Definition card : Knobs :=
  {| pciDevices := [ pci "0000:03:00.0" "15b3" "02";
                     pci "0000:05:00.0" "15b3" "0x02";
                     pci "0000:03:00.1" "15b3" "02";
                     pci "0000:00:1f.6" "8086" "02" ];
     partAndSerial := λ _, ("MCX623106AC-CDA", "MT2116X09299", None);
     firmwareAndPSID := λ _, ("22.31.1014", "MT_0000000436", None);
     virtualFunction := λ _, false;
     queryError := None;
     resetError := None;
     maxReadRequestSizeError := λ _, None |}.

(** Runtime values: a non-zero and a zero max read request size. *)
Definition sized : Z * string * string := (4096, "dscp", "0,0,0,1,0,0,0,0").
Definition unsized : Z * string * string := (0, "dscp", "0,0,0,1,0,0,0,0").

(** The manager whose runtime check reports "not applied", without and
    with an error, and the devices of the examples. *)
Definition plain : hostManager NvConfigQuery unit (gmap string string) :=
  manager card (false, None) sized.

Definition onePort : NicDevice (gmap string string) := device false desired [port "0"].
Definition twoPorts : NicDevice (gmap string string) :=
  device false desired [port "0"; port "1"].
Definition noPorts : NicDevice (gmap string string) := device false desired [].
Definition toReset : NicDevice (gmap string string) := device true desired [port "0"].

End Sim.

(** Further hosts and inputs: a second range order, a device with two
    desired parameters, a card whose gate is off, and a host on which the
    writes of one parameter fail. *)
Module SimMore.

Definition reversed : RangeOrder :=
  {| range_map := λ _ m, reverse (map_to_list m);
     range_perm := λ _ m, reverse_Permutation (map_to_list m) |}.

Definition desiredTwo : gmap string string := {[ "P1" := "1"; "P2" := "8" ]}.

Definition twoParams : NicDevice (gmap string string) :=
  Sim.device false desiredTwo [Sim.port "0"].

(** Both parameters are 0 now and after the next boot. *)
Definition nvTwo : NvConfigQuery :=
  Sim.nvOf {[ "P1" := "0"; "P2" := "0" ]} {[ "P1" := "0"; "P2" := "0" ]}.

(** The gate parameter is nowhere yet; [P1] is 0. *)
Definition nvGateOff : NvConfigQuery :=
  {| CurrentConfig := {[ "P1" := "0" ]}; NextBootConfig := {[ "P1" := "0" ]};
     DefaultConfig := {[ "P1" := "0" ]} |}.

Definition failingWrites (failing : string) (hu : HostUtils NvConfigQuery unit)
    : HostUtils NvConfigQuery unit :=
  {| GetPCIDevices := GetPCIDevices hu;
     IsSriovVF := IsSriovVF hu;
     GetPartAndSerialNumber := GetPartAndSerialNumber hu;
     GetFirmwareVersionAndPSID := GetFirmwareVersionAndPSID hu;
     GetInterfaceName := GetInterfaceName hu;
     GetRDMADeviceName := GetRDMADeviceName hu;
     QueryNvConfig := QueryNvConfig hu;
     SetNvConfigParameter := λ addr param value s,
       if String.eqb param failing then (Some (HostError "write failed"), s)
       else SetNvConfigParameter hu addr param value s;
     ResetNvConfig := ResetNvConfig hu;
     ResetNicFirmware := ResetNicFirmware hu;
     SetMaxReadRequestSize := SetMaxReadRequestSize hu;
     SetTrustAndPFC := SetTrustAndPFC hu |}.

Definition faulty (failing : string)
    : hostManager NvConfigQuery unit (gmap string string) :=
  {| nodeName := "node-1";
     hostUtils := failingWrites failing (Sim.utils Sim.card);
     configValidation_ := Sim.validation (false, None) Sim.sized |}.

End SimMore.

(** Listings with ghw's pointers: the two-port card, and the same with a
    device whose [Vendor] is nil. *)
Module SimListed.

Definition listed (address vendor class : string) : option ListedDevice :=
  Some {| PciAddress := address; PciVendor := Some vendor; PciClass := Some class;
          PciProduct := Some ("101d", "ConnectX-6 Dx") |}.

Definition nilVendor : option ListedDevice :=
  Some {| PciAddress := "0000:07:00.0"; PciVendor := None; PciClass := Some "02";
          PciProduct := Some ("101d", "ConnectX-6 Dx") |}.

Definition card : list (option ListedDevice) :=
  [ listed "0000:03:00.0" "15b3" "02"; listed "0000:05:00.0" "15b3" "0x02";
    listed "0000:03:00.1" "15b3" "02"; listed "0000:00:1f.6" "8086" "02" ].

Definition listing (devices : list (option ListedDevice))
    : NvConfigQuery → (list (option ListedDevice) * option error) * NvConfigQuery :=
  λ s, ((devices, None), s).

(** A host on which the part and serial number of the second port cannot
    be read, and one on which the firmware version cannot. *)
Definition noSerial : Sim.Knobs :=
  {| Sim.pciDevices := Sim.pciDevices Sim.card;
     Sim.partAndSerial := λ addr,
       if String.eqb addr "0000:03:00.1" then ("", "", Some (HostError "vpd failed"))
       else ("MCX623106AC-CDA", "MT2116X09299", None);
     Sim.firmwareAndPSID := Sim.firmwareAndPSID Sim.card;
     Sim.virtualFunction := λ _, false;
     Sim.queryError := None;
     Sim.resetError := None;
     Sim.maxReadRequestSizeError := λ _, None |}.

Definition noFirmware : Sim.Knobs :=
  {| Sim.pciDevices := Sim.pciDevices Sim.card;
     Sim.partAndSerial := Sim.partAndSerial Sim.card;
     Sim.firmwareAndPSID := λ _, ("", "", Some (HostError "flint failed"));
     Sim.virtualFunction := λ _, false;
     Sim.queryError := None;
     Sim.resetError := None;
     Sim.maxReadRequestSizeError := λ _, None |}.

End SimListed.

(* ===================================================================== *)
(** ** Vocabulary of the properties *)
(* ===================================================================== *)

(** The write set of an apply, as the specification words it: the desired
    parameters whose next-boot value is not the desired one. *)
Definition writeSet (nvConfig : NvConfigQuery) (desiredConfig : gmap string string)
    : gmap string string :=
  filter (λ entry, NextBootConfig nvConfig !! entry.1 ≠ Some entry.2) desiredConfig.

(** Every write of a list of parameters succeeds when issued in turn from
    a host state. *)
Fixpoint writesSucceed {St Ctx : Type} (hu : HostUtils St Ctx) (pciAddr : string)
    (writes : list (string * string)) (s : St) : Prop :=
  match writes with
  | [] => True
  | (param, value) :: writes' =>
      (SetNvConfigParameter hu pciAddr param value s).1 = None ∧
      writesSucceed hu pciAddr writes' (SetNvConfigParameter hu pciAddr param value s).2
  end.

(** The host state after a list of writes. *)
Fixpoint afterWrites {St Ctx : Type} (hu : HostUtils St Ctx) (pciAddr : string)
    (writes : list (string * string)) (s : St) : St :=
  match writes with
  | [] => s
  | (param, value) :: writes' =>
      afterWrites hu pciAddr writes' (SetNvConfigParameter hu pciAddr param value s).2
  end.

(** The events of a list of successful writes. *)
Definition writeEvents (pciAddr : string) (writes : list (string * string)) : list Event :=
  (λ entry, EvSetNvConfigParameter pciAddr entry.1 entry.2 None) <$> writes.

(** The error of a failed fetch of a device's identity (part and serial
    number, or firmware version and PSID), if the event is one. *)
Definition identityFailure (ev : Event) : option error :=
  match ev with
  | EvGetPartAndSerialNumber _ _ _ err => err
  | EvGetFirmwareVersionAndPSID _ _ _ err => err
  | _ => None
  end.

(** The PCI address an identity fetch was made for, if the event is one. *)
Definition identityFetch (ev : Event) : option string :=
  match ev with
  | EvGetPartAndSerialNumber addr _ _ _ => Some addr
  | EvGetFirmwareVersionAndPSID addr _ _ _ => Some addr
  | _ => None
  end.

(** A PCI device passes the vendor and class filters of discovery. *)
Definition passedFilters (consts : Consts) (device : PCIDevice) : Prop :=
  Vendor_ID device = MellanoxVendor consts ∧
  Strconv.ParseInt (Class_ID device) = Some (NetClass consts).

(** The PCI addresses, in order, of the devices that discovery retained
    and whose serial number was read as [serialNumber]. *)
Definition retainedAddresses (serialNumber : string) (evs : list Event) : list string :=
  omap (λ ev, match ev with
              | EvGetPartAndSerialNumber addr _ sn None =>
                  if decide (sn = serialNumber) then Some addr else None
              | _ => None
              end) evs.

(** What discovery maintains between two PCI devices: every entry of the
    map sits under its own serial number, belongs to the node, and has
    one port per retained device read with that serial number so far (so
    at least one); a serial number without entry was not read at all. *)
Definition discovered (node : string) (devices : gmap string NicDeviceStatus)
    (evs : list Event) : Prop :=
  ∀ sn,
    match devices !! sn with
    | Some status =>
        SerialNumber status = sn ∧ Node status = node ∧ Ports status ≠ [] ∧
        PCI <$> Ports status = retainedAddresses sn evs
    | None => retainedAddresses sn evs = []
    end.

(** The error a host call returned, if it returned one. *)
Definition eventError (ev : Event) : option error :=
  match ev with
  | EvGetPCIDevices err => err
  | EvIsSriovVF _ _ => None
  | EvGetPartAndSerialNumber _ _ _ err => err
  | EvGetFirmwareVersionAndPSID _ _ _ err => err
  | EvGetInterfaceName _ _ => None
  | EvGetRDMADeviceName _ _ => None
  | EvQueryNvConfig _ err => err
  | EvSetNvConfigParameter _ _ _ err => err
  | EvResetNvConfig _ err => err
  | EvResetNicFirmware _ err => err
  | EvSetMaxReadRequestSize _ _ err => err
  | EvSetTrustAndPFC _ _ _ err => err
  end.

(** Every host call of a run succeeded. *)
Definition allSucceeded (evs : list Event) : Prop :=
  Forall (λ ev, eventError ev = None) evs.

(** The last host call of a run failed with [e], and it is the only one
    that failed. *)
Definition failedLast (evs : list Event) (e : error) : Prop :=
  ∃ before ev, evs = before ++ [ev] ∧ allSucceeded before ∧ eventError ev = Some e.

Definition isSetTrustAndPFC (ev : Event) : bool :=
  match ev with EvSetTrustAndPFC _ _ _ _ => true | _ => false end.

Definition isGetFirmwareVersionAndPSID (ev : Event) : bool :=
  match ev with EvGetFirmwareVersionAndPSID _ _ _ _ => true | _ => false end.

(** The parameter writes of a run: address, parameter and value of each,
    in order. *)
Definition writtenParameters (evs : list Event) : list (string * string * string) :=
  omap (λ ev, match ev with
              | EvSetNvConfigParameter addr param value _ => Some (addr, param, value)
              | _ => None
              end) evs.

(** The NV config after the host has staged a set of writes for the next
    boot. *)
Definition staged (writes : gmap string string) (nvConfig : NvConfigQuery)
    : NvConfigQuery :=
  {| CurrentConfig := CurrentConfig nvConfig;
     NextBootConfig := writes ∪ NextBootConfig nvConfig;
     DefaultConfig := DefaultConfig nvConfig |}.

(** What discovery also maintains, given the PCI devices it has gone
    through: the part number, firmware version, PSID and type of an entry
    are those read for its first port, and the interface names of each
    port are those the host gave for the port's address. *)
Definition described (seen : list PCIDevice) (devices : gmap string NicDeviceStatus)
    (evs : list Event) : Prop :=
  ∀ sn status,
    devices !! sn = Some status →
    (∃ first pciDevice,
       head (Ports status) = Some first ∧
       EvGetPartAndSerialNumber (PCI first) (PartNumber status) sn None ∈ evs ∧
       EvGetFirmwareVersionAndPSID (PCI first) (FirmwareVersion status) (PSID status) None
         ∈ evs ∧
       pciDevice ∈ seen ∧ Address pciDevice = PCI first ∧
       Type_ status = Product_ID pciDevice) ∧
    (∀ port, port ∈ Ports status →
       EvGetInterfaceName (PCI port) (NetworkInterface port) ∈ evs ∧
       EvGetRDMADeviceName (PCI port) (RdmaInterface port) ∈ evs).

(** A listed device with its pointers followed; a nil pointer gives the
    empty string. *)
Definition dereferenced (listed : option ListedDevice) : PCIDevice :=
  match listed with
  | Some device =>
      {| Address := PciAddress device;
         Vendor_ID := default "" (PciVendor device);
         Class_ID := default "" (PciClass device);
         Product_ID := default "" (fst <$> PciProduct device);
         Product_Name := default "" (snd <$> PciProduct device) |}
  | None =>
      {| Address := ""; Vendor_ID := ""; Class_ID := ""; Product_ID := "";
         Product_Name := "" |}
  end.

(** No pointer of a listed device is nil. *)
Definition pointersSet (listed : option ListedDevice) : Prop :=
  ∃ device, listed = Some device ∧ is_Some (PciVendor device) ∧
            is_Some (PciClass device) ∧ is_Some (PciProduct device).

(* ===================================================================== *)
(** ** Properties *)
(* ===================================================================== *)

(** *** Running the monad *)

Lemma run_bind {St A B : Type} (m : M St A) (f : A → M St B) (s : St) :
  (m ≫= f) s =
  match m s with
  | Panic => Panic
  | Returned a s1 evs1 =>
      match f a s1 with
      | Panic => Panic
      | Returned b s2 evs2 => Returned b s2 (evs1 ++ evs2)
      end
  end.
Proof. reflexivity. Qed.

Lemma run_ret {St A : Type} (a : A) (s : St) : (mret a : M St A) s = Returned a s [].
Proof. reflexivity. Qed.

Lemma run_call {St A : Type} (f : St → A * St) (ev : A → Event) (s : St) :
  call f ev s = Returned (f s).1 (f s).2 [ev (f s).1].
Proof. unfold call. by destruct (f s). Qed.

Lemma run_index {St A : Type} (l : list A) (i : nat) (a : A) (s : St) :
  l !! i = Some a → index l i s = Returned a s [].
Proof. intros Hl. unfold index. by rewrite Hl. Qed.

Ltac run_monad :=
  repeat first
    [ progress unfold mbind, M_MBind, M_bind, mret, M_MRet, M_ret, call, index, effect
    | progress cbn beta iota zeta
    | match goal with
      | H : ?l !! ?i = Some _ |- context [?l !! ?i] => rewrite H
      end ];
  simpl.

(** *** strconv.ParseInt *)

Example ParseInt_network_class : Strconv.ParseInt "02" = Some 2.
Proof. reflexivity. Qed.

Example ParseInt_rejects_prefix : Strconv.ParseInt "0x02" = None.
Proof. reflexivity. Qed.

Example ParseInt_rejects_empty : Strconv.ParseInt "" = None ∧ Strconv.ParseInt "-" = None.
Proof. split; reflexivity. Qed.

Example ParseInt_bounds :
  Strconv.ParseInt "7fffffffffffffff" = Some (2 ^ 63 - 1) ∧
  Strconv.ParseInt "8000000000000000" = None ∧
  Strconv.ParseInt "-8000000000000000" = Some (- 2 ^ 63).
Proof. split_and!; reflexivity. Qed.

Lemma parseUintLoop_nonneg (s : string) (n m : Z) :
  0 ≤ n → Strconv.parseUintLoop s n = Some m → 0 ≤ m.
Proof.
  revert n. induction s as [|c s IH]; intros n Hn; simpl.
  - by intros [= <-].
  - destruct (Strconv.digit c) as [d|]; [|done].
    destruct (16 <=? d); [done|].
    destruct (Strconv.maxUint64 / 16 + 1 <=? n); [done|].
    destruct (_ || _); [done|]. apply IH. by apply Z.mod_pos_bound.
Qed.

(** A parsed class code is an int64. *)
Lemma ParseInt_int64 (s : string) (n : Z) :
  Strconv.ParseInt s = Some n → - 2 ^ 63 ≤ n < 2 ^ 63.
Proof.
  unfold Strconv.ParseInt. destruct s as [|c rest]; [done|].
  cbv zeta.
  set (s1 := if Ascii.eqb c "+" || Ascii.eqb c "-" then rest else String c rest).
  destruct (Strconv.ParseUint s1) as [un|] eqn:Hun; [|done].
  assert (0 ≤ un) as Hpos.
  { unfold Strconv.ParseUint in Hun. destruct s1; [done|].
    by apply (parseUintLoop_nonneg _ 0 un) in Hun. }
  destruct (Ascii.eqb c "-"); simpl.
  - destruct (Z.ltb_spec (2 ^ 63) un); [done|]. intros [= <-]. lia.
  - destruct (Z.leb_spec (2 ^ 63) un); [done|]. intros [= <-]. lia.
Qed.

(** *** Go map lookups and range orders *)

Lemma lookupOk_found (m : gmap string string) (k : string) :
  (lookupOk m k).2 = bool_decide (is_Some (m !! k)).
Proof. unfold lookupOk. by destruct (m !! k). Qed.

Lemma lookupOk_equal (m : gmap string string) (k v : string) :
  (lookupOk m k).2 && String.eqb (lookupOk m k).1 v = bool_decide (m !! k = Some v).
Proof.
  unfold lookupOk. destruct (m !! k) as [w|] eqn:E; simpl; [|done].
  destruct (String.eqb_spec w v) as [->|Hne]; symmetry.
  - by apply bool_decide_eq_true_2.
  - apply bool_decide_eq_false_2. congruence.
Qed.

Lemma elem_of_range_map (order : RangeOrder) (site : Site)
    (m : gmap string string) (p v : string) :
  (p, v) ∈ range_map order site m ↔ m !! p = Some v.
Proof. rewrite (range_perm order site m). apply elem_of_map_to_list. Qed.

Lemma NoDup_range_map_keys (order : RangeOrder) (site : Site) (m : gmap string string) :
  NoDup (range_map order site m).*1.
Proof. rewrite (range_perm order site m). apply NoDup_fst_map_to_list. Qed.

(** *** The loop of ValidateDeviceNvSpec *)

(** One round of the loop, in terms of the three maps. *)
Lemma validateParameter_spec (nv : NvConfigQuery) (adv : bool) (name p v : string)
    (u r : bool) :
  validateParameter nv adv name (p, v) (u, r) =
  if adv && bool_decide (CurrentConfig nv !! p = None)
  then inr (unsupportedParameter p name)
  else
    let staged := bool_decide (NextBootConfig nv !! p = Some v) in
    let active := bool_decide (CurrentConfig nv !! p = Some v) in
    inl (u || negb staged, r || negb staged || negb active).
Proof.
  unfold validateParameter, lookupOk.
  destruct (CurrentConfig nv !! p) as [c|], (NextBootConfig nv !! p) as [n|]; simpl;
    repeat case_bool_decide;
    repeat match goal with
           | |- context [String.eqb ?a ?b] => destruct (String.eqb_spec a b)
           end;
    simplify_eq; destruct adv, u, r; simpl; done.
Qed.

(** The whole loop: it returns with the error exactly when the gate is on
    and some entry is absent from the current config; otherwise the two
    flags are the disjunctions over the entries. *)
Lemma validate_loop_spec (nv : NvConfigQuery) (adv : bool) (name : string)
    (l : list (string * string)) (u r : bool) :
  match range_pure (validateParameter nv adv name) l (u, r) with
  | inr e =>
      adv = true ∧
      ∃ p v, (p, v) ∈ l ∧ CurrentConfig nv !! p = None ∧ e = unsupportedParameter p name
  | inl (u', r') =>
      (adv = true → ∀ p v, (p, v) ∈ l → CurrentConfig nv !! p ≠ None) ∧
      (u' = true ↔
         u = true ∨ ∃ p v, (p, v) ∈ l ∧ NextBootConfig nv !! p ≠ Some v) ∧
      (r' = true ↔
         r = true ∨ ∃ p v, (p, v) ∈ l ∧
           (NextBootConfig nv !! p ≠ Some v ∨ CurrentConfig nv !! p ≠ Some v))
  end.
Proof.
  revert u r. induction l as [|[p v] l IH]; intros u r; cbn [range_pure].
  - split_and!; [intros _ ? ? ?%elem_of_nil; done | |];
      (split; [by left | intros [?|(? & ? & ?%elem_of_nil & _)]; done]).
  - rewrite validateParameter_spec.
    destruct (adv && bool_decide (CurrentConfig nv !! p = None)) eqn:Hgate.
    + cbn beta iota. apply andb_true_iff in Hgate as [-> Hnone%bool_decide_eq_true].
      split; [done|]. exists p, v. split_and!; [left | done | done].
    + cbn beta iota zeta.
      match goal with
      | |- context [range_pure ?f l (?a, ?b)] =>
          specialize (IH a b); destruct (range_pure f l (a, b)) as [[u' r']|e]
      end.
      * cbn beta iota in *. destruct IH as (IHa & IHu & IHr). split_and!.
        -- intros Hadv q w [Heq|Hin]%elem_of_cons; [|by eapply IHa].
           simplify_eq. simpl in Hgate. by apply bool_decide_eq_false in Hgate.
        -- rewrite IHu, orb_true_iff, negb_true_iff, bool_decide_eq_false.
           split.
           ++ intros [[?|?]|(q & w & ? & ?)]; [by left | right; exists p, v | right; exists q, w];
                (split; [|done]); [left | by right].
           ++ intros [?|(q & w & [Heq|?]%elem_of_cons & ?)]; simplify_eq;
                [by left; left | by left; right | right; by exists q, w].
        -- rewrite IHr, !orb_true_iff, !negb_true_iff, !bool_decide_eq_false.
           split.
           ++ intros [[[?|?]|?]|(q & w & ? & ?)];
                [by left | right; exists p, v | right; exists p, v | right; exists q, w];
                (split; [|by eauto]); [left | left | by right].
           ++ intros [?|(q & w & [Heq|?]%elem_of_cons & Hd)]; simplify_eq;
                [by left; left; left | | right; by exists q, w].
              destruct Hd; [left; left; by right | left; by right].
      * cbn beta iota in *. destruct IH as (-> & q & w & ? & ? & ->). split; [done|].
        exists q, w. split_and!; [by right | done | done].
Qed.

(** *** ValidateDeviceNvSpec on its comparison path

    The device has a first port, the query of its NV config succeeds,
    reset-to-default is not requested and the desired config is built. *)

Section Validate.
Context {St Ctx Template : Type}.
Variables (order : RangeOrder) (h : hostManager St Ctx Template) (ctx : Ctx).
Variables (device : NicDevice Template) (port0 : NicDevicePortSpec).
Variables (s s1 : St) (nvConfig : NvConfigQuery) (desiredConfig : gmap string string).

Hypothesis Hport : Ports (Status device) !! 0%nat = Some port0.
Hypothesis Hquery :
  QueryNvConfig (hostUtils h) ctx (PCI port0) s = ((nvConfig, None), s1).
Hypothesis Hreset : ResetToDefault (Configuration device) = false.
Hypothesis Hdesired :
  ConstructNvParamMapFromTemplate (configValidation_ h) device (DefaultConfig nvConfig)
  = (desiredConfig, None).

Lemma ValidateDeviceNvSpec_compare :
  ValidateDeviceNvSpec order h ctx device s =
  Returned
    match range_pure
            (validateParameter nvConfig
               (AdvancedPCISettingsEnabled (configValidation_ h) (CurrentConfig nvConfig))
               (Name device))
            (range_map order RangeValidate desiredConfig) (false, false) with
    | inr e => (false, false, Some e)
    | inl (configUpdateNeeded, rebootNeeded) => (configUpdateNeeded, rebootNeeded, None)
    end
    s1 [EvQueryNvConfig (PCI port0) None].
Proof.
  unfold ValidateDeviceNvSpec. run_monad. rewrite Hquery. simpl.
  rewrite Hreset, Hdesired.
  destruct (range_pure _ _ _) as [[u r]|e]; by run_monad.
Qed.

(** With the gate on, a desired parameter that the current config lacks
    makes the validation fail with a spec error, after the query alone. *)
Lemma ValidateDeviceNvSpec_unsupported :
  AdvancedPCISettingsEnabled (configValidation_ h) (CurrentConfig nvConfig) = true →
  (∃ p v, desiredConfig !! p = Some v ∧ CurrentConfig nvConfig !! p = None) →
  ∃ e, ValidateDeviceNvSpec order h ctx device s
       = Returned (false, false, Some e) s1 [EvQueryNvConfig (PCI port0) None]
       ∧ isIncorrectSpecError e = true.
Proof.
  intros Hadv (p & v & Hp & Hcur). rewrite ValidateDeviceNvSpec_compare.
  pose proof (validate_loop_spec nvConfig
    (AdvancedPCISettingsEnabled (configValidation_ h) (CurrentConfig nvConfig))
    (Name device) (range_map order RangeValidate desiredConfig) false false) as Hloop.
  destruct (range_pure _ _ _) as [[u r]|e].
  - destruct Hloop as (Hall & _). exfalso.
    apply (Hall Hadv p v); [by apply elem_of_range_map | done].
  - destruct Hloop as (_ & q & w & _ & _ & ->). by eexists.
Qed.

(** C1, as the code has it: on the comparison path the validation returns
    [(false, false)] and no error if and only if every desired parameter
    has the desired value both in the current and in the next-boot
    config. *)
Theorem ValidateDeviceNvSpec_settled_iff :
  ∃ u r err,
    ValidateDeviceNvSpec order h ctx device s
    = Returned (u, r, err) s1 [EvQueryNvConfig (PCI port0) None]
    ∧ ((u, r, err) = (false, false, None) ↔
       ∀ p v, desiredConfig !! p = Some v →
              CurrentConfig nvConfig !! p = Some v ∧
              NextBootConfig nvConfig !! p = Some v).
Proof.
  rewrite ValidateDeviceNvSpec_compare.
  pose proof (validate_loop_spec nvConfig
    (AdvancedPCISettingsEnabled (configValidation_ h) (CurrentConfig nvConfig))
    (Name device) (range_map order RangeValidate desiredConfig) false false) as Hloop.
  destruct (range_pure _ _ _) as [[u r]|e]; do 3 eexists; (split; [reflexivity|]).
  - destruct Hloop as (_ & Hu & Hr). split.
    + intros [= -> ->] p v Hp%(elem_of_range_map order RangeValidate).
      destruct (decide (NextBootConfig nvConfig !! p = Some v)) as [Hn|Hn];
        [destruct (decide (CurrentConfig nvConfig !! p = Some v)) as [Hc|Hc]; [done|]|];
        exfalso; assert (false = true) as Habs; try done; apply Hr; right;
        exists p, v; eauto.
    + intros Hall.
      assert (r = false) as ->.
      { destruct r; [|done]. destruct Hr as [Hr _].
        destruct (Hr eq_refl) as [?|(p & v & Hp%elem_of_range_map & Hd)]; [done|].
        destruct (Hall p v Hp). by destruct Hd. }
      assert (u = false) as ->; [|done].
      destruct u; [|done]. destruct Hu as [Hu _].
      destruct (Hu eq_refl) as [?|(p & v & Hp%elem_of_range_map & Hd)]; [done|].
      by destruct (Hall p v Hp).
  - destruct Hloop as (_ & p & v & Hp%elem_of_range_map & Hcur & _). split; [done|].
    intros Hall. destruct (Hall p v Hp) as [Hc _]. congruence.
Qed.

(** C2: on the comparison path, when no error is raised, the validation
    returns [(true, true)] if and only if some desired parameter's
    next-boot value is not the desired one (absent counts as different). *)
Theorem ValidateDeviceNvSpec_update_iff :
  ∃ u r err,
    ValidateDeviceNvSpec order h ctx device s
    = Returned (u, r, err) s1 [EvQueryNvConfig (PCI port0) None]
    ∧ (err = None →
       ((u, r) = (true, true) ↔
        ∃ p v, desiredConfig !! p = Some v ∧ NextBootConfig nvConfig !! p ≠ Some v)).
Proof.
  rewrite ValidateDeviceNvSpec_compare.
  pose proof (validate_loop_spec nvConfig
    (AdvancedPCISettingsEnabled (configValidation_ h) (CurrentConfig nvConfig))
    (Name device) (range_map order RangeValidate desiredConfig) false false) as Hloop.
  destruct (range_pure _ _ _) as [[u r]|e]; do 3 eexists; (split; [reflexivity|]);
    [|done].
  intros _. destruct Hloop as (_ & Hu & Hr). split.
  - intros [= -> ->]. destruct Hu as [Hu _].
    destruct (Hu eq_refl) as [?|(p & v & Hp%elem_of_range_map & Hd)]; [done|eauto].
  - intros (p & v & Hp%(elem_of_range_map order RangeValidate) & Hn).
    assert (u = true) as -> by (apply Hu; right; eauto).
    assert (r = true) as -> by (apply Hr; right; eauto 6). done.
Qed.

End Validate.

(** *** The loops of ApplyDeviceNvSpec *)

Lemma collectParameter_spec (nv : NvConfigQuery) (name p v : string)
    (acc : gmap string string) :
  collectParameter nv name (p, v) acc =
  match NextBootConfig nv !! p with
  | None => inr (unsupportedParameter p name)
  | Some n => if decide (n = v) then inl acc else inl (<[p := v]> acc)
  end.
Proof.
  unfold collectParameter, lookupOk.
  destruct (NextBootConfig nv !! p) as [n|]; simpl; [|done].
  destruct (String.eqb_spec n v); case_decide; done.
Qed.

(** A desired parameter that the next-boot config lacks ends the
    collection with a spec error, wherever the loop meets it. *)
Lemma collect_loop_error (nv : NvConfigQuery) (name : string)
    (l : list (string * string)) (acc : gmap string string) (p v : string) :
  (p, v) ∈ l → NextBootConfig nv !! p = None →
  ∃ e, range_pure (collectParameter nv name) l acc = inr e
       ∧ isIncorrectSpecError e = true.
Proof.
  revert acc. induction l as [|[q w] l IH]; intros acc Hin Hnone.
  - by apply elem_of_nil in Hin.
  - cbn [range_pure]. rewrite collectParameter_spec.
    apply elem_of_cons in Hin as [Heq|Hin].
    + simplify_eq. rewrite Hnone. by eexists.
    + destruct (NextBootConfig nv !! q) as [n|]; [|by eexists].
      case_decide; by apply IH.
Qed.

(** When the next-boot config knows every entry, the collection ends with
    the entries whose next-boot value differs, added to what it started
    from. *)
Lemma collect_loop_ok (nv : NvConfigQuery) (name : string)
    (l : list (string * string)) (acc : gmap string string) :
  NoDup l.*1 →
  (∀ p, p ∈ l.*1 → acc !! p = None) →
  (∀ p v, (p, v) ∈ l → is_Some (NextBootConfig nv !! p)) →
  ∃ m, range_pure (collectParameter nv name) l acc = inl m
       ∧ ∀ p v, m !! p = Some v ↔
                ((p, v) ∈ l ∧ NextBootConfig nv !! p ≠ Some v) ∨ acc !! p = Some v.
Proof.
  revert acc. induction l as [|[q w] l IH]; intros acc Hnd Hfresh Hknown.
  - exists acc. split; [done|]. intros p v. split; [by right|].
    intros [[?%elem_of_nil _]|?]; done.
  - cbn [range_pure]. rewrite collectParameter_spec.
    rewrite fmap_cons in Hnd, Hfresh. simpl in Hnd, Hfresh.
    apply NoDup_cons in Hnd as [Hq Hnd].
    destruct (Hknown q w) as [n Hn]; [left|]. rewrite Hn.
    assert (acc !! q = None) as Hqacc by (apply Hfresh; left).
    assert (∀ p v, (p, v) ∈ l → p ≠ q) as Hne.
    { intros p v Hin ->. apply Hq. apply list_elem_of_fmap. by exists (q, v). }
    case_decide as Hnw.
    + subst n. destruct (IH acc) as (m & -> & Hm); [done | | |].
      { intros p Hp. apply Hfresh. by right. }
      { intros p v Hp. apply (Hknown p v). by right. }
      exists m. split; [done|]. intros p v. rewrite Hm, elem_of_cons.
      split.
      * intros [[? ?]|?]; [left|right]; eauto.
      * intros [[[Heq|?] Hd]|?]; [|left|right]; eauto.
        by simplify_eq.
    + destruct (IH (<[q := w]> acc)) as (m & -> & Hm); [done | | |].
      { intros p Hp. rewrite lookup_insert_ne; [apply Hfresh; by right|].
        intros ->. done. }
      { intros p v Hp. apply (Hknown p v). by right. }
      exists m. split; [done|]. intros p v. rewrite Hm, elem_of_cons.
      split.
      * intros [[? ?]|Hins]; [left; eauto|].
        apply lookup_insert_Some in Hins as [[<- <-]|[? ?]]; [left|right; done].
        split; [by left|congruence].
      * intros [[[Heq|?] Hd]|Hacc]; [|left; eauto|].
        -- simplify_eq. right. apply lookup_insert_eq.
        -- right. rewrite lookup_insert_ne; [done|]. intros ->. congruence.
Qed.

(** Over the desired config, in whatever order, the collection computes
    the write set. *)
Lemma collect_desired (order : RangeOrder) (site : Site) (nv : NvConfigQuery)
    (name : string) (desired : gmap string string) :
  (∀ p, is_Some (desired !! p) → is_Some (NextBootConfig nv !! p)) →
  range_pure (collectParameter nv name) (range_map order site desired) ∅
  = inl (writeSet nv desired).
Proof.
  intros Hknown.
  destruct (collect_loop_ok nv name (range_map order site desired) ∅)
    as (m & -> & Hm).
  - apply NoDup_range_map_keys.
  - intros p _. apply lookup_empty.
  - intros p v Hp%elem_of_range_map. apply Hknown. eauto.
  - f_equal. apply map_eq. intros p. apply option_eq. intros v.
    unfold writeSet. rewrite Hm, map_lookup_filter_Some, elem_of_range_map, lookup_empty.
    simpl. split; [intros [[? ?]|?]; done | intros [? ?]; by left].
Qed.

(** The write set is empty exactly when the next-boot config already has
    every desired value. *)
Lemma writeSet_empty (nv : NvConfigQuery) (desired : gmap string string) :
  writeSet nv desired = ∅ ↔
  ∀ p v, desired !! p = Some v → NextBootConfig nv !! p = Some v.
Proof.
  unfold writeSet. rewrite map_empty_filter. unfold map_Forall. simpl.
  split; intros H p v Hp; specialize (H p v Hp).
  - by destruct (decide (NextBootConfig nv !! p = Some v)).
  - by intros ?.
Qed.

Lemma range_map_empty (order : RangeOrder) (site : Site) :
  range_map order site ∅ = [].
Proof.
  apply Permutation_nil_r. by rewrite (range_perm order site ∅), map_to_list_empty.
Qed.

Section ApplyLoop.
Context {St Ctx Template : Type}.
Variable h : hostManager St Ctx Template.

(** One round of the write loop. *)
Lemma run_applyParameter (pciAddr p v : string) (s : St) :
  applyParameter h pciAddr (p, v) () s =
  Returned
    match (SetNvConfigParameter (hostUtils h) pciAddr p v s).1 with
    | Some e => inr e
    | None => inl ()
    end
    (SetNvConfigParameter (hostUtils h) pciAddr p v s).2
    [EvSetNvConfigParameter pciAddr p v
       (SetNvConfigParameter (hostUtils h) pciAddr p v s).1].
Proof.
  unfold applyParameter. run_monad.
  by destruct (SetNvConfigParameter (hostUtils h) pciAddr p v s) as [[e|] s'].
Qed.

(** The write loop over writes that all succeed. *)
Lemma apply_loop_ok (pciAddr : string) (writes : list (string * string)) (s : St) :
  writesSucceed (hostUtils h) pciAddr writes s →
  range_loop (applyParameter h pciAddr) writes () s
  = Returned (inl ()) (afterWrites (hostUtils h) pciAddr writes s)
      (writeEvents pciAddr writes).
Proof.
  revert s. induction writes as [|[p v] writes IH]; intros s Hok; [done|].
  destruct Hok as [Hp Hrest]. cbn [range_loop afterWrites].
  rewrite run_bind, run_applyParameter, Hp, (IH _ Hrest). done.
Qed.

(** The write loop never panics. *)
Lemma apply_loop_returns (pciAddr : string) (writes : list (string * string)) (s : St) :
  ∃ r s' evs, range_loop (applyParameter h pciAddr) writes () s = Returned r s' evs.
Proof.
  revert s. induction writes as [|[p v] writes IH]; intros s; [by do 3 eexists|].
  cbn [range_loop]. rewrite run_bind, run_applyParameter.
  destruct (SetNvConfigParameter (hostUtils h) pciAddr p v s) as [[e|] s']; simpl.
  - by do 3 eexists.
  - destruct (IH s') as (r & s'' & evs & ->). by do 3 eexists.
Qed.

End ApplyLoop.

(** *** ApplyDeviceNvSpec *)

Section ApplyNv.
Context {St Ctx Template : Type}.
Variables (consts : Consts) (order : RangeOrder) (h : hostManager St Ctx Template).
Variables (ctx : Ctx) (device : NicDevice Template) (port0 : NicDevicePortSpec).

Hypothesis Hport : Ports (Status device) !! 0%nat = Some port0.

Let gate := AdvancedPCISettingsParam consts.
Let on := NvParamTrue consts.

(** The reset-to-default branch, call by call. *)
Lemma run_resetToDefault (pciAddr : string) (s : St) :
  resetToDefault consts h pciAddr s =
  let reset := ResetNvConfig (hostUtils h) pciAddr s in
  match reset.1 with
  | Some e => Returned (false, Some e) reset.2 [EvResetNvConfig pciAddr (Some e)]
  | None =>
      let set := SetNvConfigParameter (hostUtils h) pciAddr gate on reset.2 in
      Returned (match set.1 with Some e => (false, Some e) | None => (true, None) end)
        set.2
        [EvResetNvConfig pciAddr None; EvSetNvConfigParameter pciAddr gate on set.1]
  end.
Proof.
  unfold resetToDefault. run_monad.
  destruct (ResetNvConfig (hostUtils h) pciAddr s) as [[e|] s1]; run_monad; [done|].
  by destruct (SetNvConfigParameter (hostUtils h) pciAddr _ _ s1) as [[e|] s2].
Qed.

(** When the reset or the write of the gate fails, the branch returns the
    error of that call and has issued nothing after it. *)
Lemma ApplyDeviceNvSpec_reset_failure (s s1 : St) (e : error) :
  ResetToDefault (Configuration device) = true →
  ResetNvConfig (hostUtils h) (PCI port0) s = (Some e, s1) →
  ApplyDeviceNvSpec consts order h ctx device s
  = Returned (false, Some e) s1 [EvResetNvConfig (PCI port0) (Some e)].
Proof.
  intros Hreset Hcall. unfold ApplyDeviceNvSpec. run_monad.
  by rewrite Hreset, run_resetToDefault, Hcall.
Qed.

Lemma ApplyDeviceNvSpec_reset_gate_failure (s s1 s2 : St) (e : error) :
  ResetToDefault (Configuration device) = true →
  ResetNvConfig (hostUtils h) (PCI port0) s = (None, s1) →
  SetNvConfigParameter (hostUtils h) (PCI port0) gate on s1 = (Some e, s2) →
  ApplyDeviceNvSpec consts order h ctx device s
  = Returned (false, Some e) s2
      [EvResetNvConfig (PCI port0) None;
       EvSetNvConfigParameter (PCI port0) gate on (Some e)].
Proof.
  intros Hreset Hcall Hset. unfold ApplyDeviceNvSpec. run_monad.
  rewrite Hreset, run_resetToDefault, Hcall. simpl. by rewrite Hset.
Qed.

(** C5: with reset-to-default requested, whatever the host state and the
    configuration validation, the apply issues one [ResetNvConfig], then
    one [SetNvConfigParameter] that turns the advanced-PCI-settings gate
    on, and nothing else; when both calls succeed it returns
    [(true, nil)]. *)
Theorem ApplyDeviceNvSpec_reset_to_default (s s1 s2 : St) :
  ResetToDefault (Configuration device) = true →
  ResetNvConfig (hostUtils h) (PCI port0) s = (None, s1) →
  SetNvConfigParameter (hostUtils h) (PCI port0)
    (AdvancedPCISettingsParam consts) (NvParamTrue consts) s1 = (None, s2) →
  ApplyDeviceNvSpec consts order h ctx device s
  = Returned (true, None) s2
      [EvResetNvConfig (PCI port0) None;
       EvSetNvConfigParameter (PCI port0)
         (AdvancedPCISettingsParam consts) (NvParamTrue consts) None].
Proof.
  intros Hreset Hcall Hset. unfold ApplyDeviceNvSpec. run_monad.
  rewrite Hreset, run_resetToDefault, Hcall. simpl. unfold gate, on. by rewrite Hset.
Qed.

(** The query with the gate already on: one query, no bootstrap. *)
Lemma run_query_gate_on (s s1 : St) (nvConfig : NvConfigQuery) :
  QueryNvConfig (hostUtils h) ctx (PCI port0) s = ((nvConfig, None), s1) →
  AdvancedPCISettingsEnabled (configValidation_ h) (CurrentConfig nvConfig) = true →
  queryNvConfigWithBootstrap consts h ctx device (PCI port0) s
  = Returned (inl nvConfig) s1 [EvQueryNvConfig (PCI port0) None].
Proof.
  intros Hquery Hadv. unfold queryNvConfigWithBootstrap. run_monad.
  rewrite Hquery. simpl. by rewrite Hadv.
Qed.

(** The apply from the diff on, once the NV config is there. *)
Lemma ApplyDeviceNvSpec_diff_and_write (s s1 : St) (evs1 : list Event)
    (nvConfig : NvConfigQuery) (desiredConfig : gmap string string) :
  ResetToDefault (Configuration device) = false →
  queryNvConfigWithBootstrap consts h ctx device (PCI port0) s
  = Returned (inl nvConfig) s1 evs1 →
  ConstructNvParamMapFromTemplate (configValidation_ h) device (DefaultConfig nvConfig)
  = (desiredConfig, None) →
  ApplyDeviceNvSpec consts order h ctx device s =
  match range_pure (collectParameter nvConfig (Name device))
          (range_map order RangeDesired desiredConfig) ∅ with
  | inr e => Returned (false, Some e) s1 evs1
  | inl paramsToApply =>
      match range_loop (applyParameter h (PCI port0))
              (range_map order RangeApply paramsToApply) () s1 with
      | Panic => Panic
      | Returned written s2 evs2 =>
          Returned match written with
                   | inr e => (false, Some e)
                   | inl _ => (true, None)
                   end s2 (evs1 ++ evs2)
      end
  end.
Proof.
  intros Hreset Hquery Hdesired. unfold ApplyDeviceNvSpec. run_monad.
  rewrite Hreset, Hquery. run_monad. rewrite Hdesired.
  destruct (range_pure _ _ _) as [params|e]; run_monad.
  - destruct (range_loop _ _ _ s1) as [|[[]|e] s2 evs2]; run_monad;
      by rewrite ?app_nil_r.
  - by rewrite app_nil_r.
Qed.

(** With the gate on, a desired parameter that the next-boot config lacks
    makes the apply fail with a spec error, after the query alone. *)
Lemma ApplyDeviceNvSpec_unsupported (s s1 : St)
    (nvConfig : NvConfigQuery) (desiredConfig : gmap string string) :
  ResetToDefault (Configuration device) = false →
  QueryNvConfig (hostUtils h) ctx (PCI port0) s = ((nvConfig, None), s1) →
  AdvancedPCISettingsEnabled (configValidation_ h) (CurrentConfig nvConfig) = true →
  ConstructNvParamMapFromTemplate (configValidation_ h) device (DefaultConfig nvConfig)
  = (desiredConfig, None) →
  (∃ p v, desiredConfig !! p = Some v ∧ NextBootConfig nvConfig !! p = None) →
  ∃ e, ApplyDeviceNvSpec consts order h ctx device s
       = Returned (false, Some e) s1 [EvQueryNvConfig (PCI port0) None]
       ∧ isIncorrectSpecError e = true.
Proof.
  intros Hreset Hquery Hadv Hdesired (p & v & Hp & Hnone).
  rewrite (ApplyDeviceNvSpec_diff_and_write s s1 _ nvConfig desiredConfig Hreset
             (run_query_gate_on s s1 nvConfig Hquery Hadv) Hdesired).
  destruct (collect_loop_error nvConfig (Name device)
              (range_map order RangeDesired desiredConfig) ∅ p v) as (e & -> & He);
    [by apply elem_of_range_map | done |].
  by exists e.
Qed.

(** C4: without reset-to-default, once the apply has the NV config (after
    the bootstrap, if there was one), has built the desired config and
    finds every desired parameter in the next-boot config, so that it
    reaches its writes, and every write of the write set succeeds, it
    returns [(true, nil)]; the writes are those of the write set.  With an
    empty write set it issues no write and still returns [(true, nil)]. *)
Theorem ApplyDeviceNvSpec_reboot_after_writes (s s1 : St) (evs1 : list Event)
    (nvConfig : NvConfigQuery) (desiredConfig : gmap string string) :
  ResetToDefault (Configuration device) = false →
  queryNvConfigWithBootstrap consts h ctx device (PCI port0) s
  = Returned (inl nvConfig) s1 evs1 →
  ConstructNvParamMapFromTemplate (configValidation_ h) device (DefaultConfig nvConfig)
  = (desiredConfig, None) →
  (∀ p, is_Some (desiredConfig !! p) → is_Some (NextBootConfig nvConfig !! p)) →
  let writes := range_map order RangeApply (writeSet nvConfig desiredConfig) in
  writesSucceed (hostUtils h) (PCI port0) writes s1 →
  ApplyDeviceNvSpec consts order h ctx device s
  = Returned (true, None) (afterWrites (hostUtils h) (PCI port0) writes s1)
      (evs1 ++ writeEvents (PCI port0) writes)
  ∧ ((∀ p v, desiredConfig !! p = Some v → NextBootConfig nvConfig !! p = Some v) →
     ApplyDeviceNvSpec consts order h ctx device s = Returned (true, None) s1 evs1).
Proof.
  intros Hreset Hquery Hdesired Hknown writes Hwrites.
  rewrite (ApplyDeviceNvSpec_diff_and_write s s1 evs1 nvConfig desiredConfig
             Hreset Hquery Hdesired).
  rewrite (collect_desired order RangeDesired nvConfig (Name device) desiredConfig Hknown).
  fold writes. rewrite (apply_loop_ok h (PCI port0) writes s1 Hwrites).
  split; [done|]. intros Hsame%writeSet_empty.
  unfold writes. rewrite Hsame, range_map_empty. simpl. by rewrite app_nil_r.
Qed.

End ApplyNv.

(** C3, as the code has it: with reset-to-default not requested and the
    gate on in the current config, the validation returns a spec error
    when a desired parameter is absent from the current config, and the
    apply returns a spec error when a desired parameter is absent from the
    next-boot config; either has then issued no host call but the query,
    so no parameter write. *)
Theorem unsupported_parameter_is_spec_error {St Ctx Template : Type}
    (consts : Consts) (order : RangeOrder) (h : hostManager St Ctx Template)
    (ctx : Ctx) (device : NicDevice Template) (port0 : NicDevicePortSpec)
    (s s1 : St) (nvConfig : NvConfigQuery) (desiredConfig : gmap string string) :
  Ports (Status device) !! 0%nat = Some port0 →
  QueryNvConfig (hostUtils h) ctx (PCI port0) s = ((nvConfig, None), s1) →
  ResetToDefault (Configuration device) = false →
  AdvancedPCISettingsEnabled (configValidation_ h) (CurrentConfig nvConfig) = true →
  ConstructNvParamMapFromTemplate (configValidation_ h) device (DefaultConfig nvConfig)
  = (desiredConfig, None) →
  ((∃ p v, desiredConfig !! p = Some v ∧ CurrentConfig nvConfig !! p = None) →
   ∃ e evs, ValidateDeviceNvSpec order h ctx device s
            = Returned (false, false, Some e) s1 evs
            ∧ isIncorrectSpecError e = true
            ∧ Forall (λ ev, isSetNvConfigParameter ev = false) evs)
  ∧
  ((∃ p v, desiredConfig !! p = Some v ∧ NextBootConfig nvConfig !! p = None) →
   ∃ e evs, ApplyDeviceNvSpec consts order h ctx device s
            = Returned (false, Some e) s1 evs
            ∧ isIncorrectSpecError e = true
            ∧ Forall (λ ev, isSetNvConfigParameter ev = false) evs).
Proof.
  intros Hport Hquery Hreset Hadv Hdesired. split; intros Hmissing.
  - destruct (ValidateDeviceNvSpec_unsupported order h ctx device port0 s s1
                nvConfig desiredConfig Hport Hquery Hreset Hdesired Hadv Hmissing)
      as (e & -> & He).
    exists e, [EvQueryNvConfig (PCI port0) None]. split_and!; [done..|].
    by repeat constructor.
  - destruct (ApplyDeviceNvSpec_unsupported consts order h ctx device port0 Hport s s1
                nvConfig desiredConfig Hreset Hquery Hadv Hdesired Hmissing)
      as (e & -> & He).
    exists e, [EvQueryNvConfig (PCI port0) None]. split_and!; [done..|].
    by repeat constructor.
Qed.

(** *** ApplyDeviceRuntimeSpec *)

Section Runtime.
Context {St Ctx Template : Type}.
Variables (h : hostManager St Ctx Template) (device : NicDevice Template).

(** When the runtime config is reported as applied, nothing is called and
    nil is returned, whatever error came with the report. *)
Lemma ApplyDeviceRuntimeSpec_already_applied (s s0 : St) (err : option error) :
  RuntimeConfigApplied (configValidation_ h) device s = ((true, err), s0) →
  ApplyDeviceRuntimeSpec h device s = Returned None s0 [].
Proof. intros Happlied. unfold ApplyDeviceRuntimeSpec. run_monad. by rewrite Happlied. Qed.

(** C8, as the code has it: when the runtime config is not already
    applied, [SetMaxReadRequestSize] is called on no port if the desired
    size is zero; otherwise it is called on port 0 first, and on port 1
    only when the device has exactly two ports and the call on port 0
    succeeded (and then it is). *)
Theorem ApplyDeviceRuntimeSpec_max_read_request_size
    (port0 : NicDevicePortSpec) (s s0 : St) (err0 : option error)
    (size : Z) (trust pfc : string) :
  Ports (Status device) !! 0%nat = Some port0 →
  RuntimeConfigApplied (configValidation_ h) device s = ((false, err0), s0) →
  CalculateDesiredRuntimeConfig (configValidation_ h) device = (size, trust, pfc) →
  ∃ r s' evs,
    ApplyDeviceRuntimeSpec h device s = Returned r s' evs ∧
    (size = 0 → List.filter isSetMaxReadRequestSize evs = []) ∧
    (size ≠ 0 →
     ∃ e0 more,
       List.filter isSetMaxReadRequestSize evs
       = EvSetMaxReadRequestSize (PCI port0) size e0 :: more ∧
       (more = [] ∨
        ∃ port1 e1, Ports (Status device) = [port0; port1] ∧ e0 = None ∧
                    more = [EvSetMaxReadRequestSize (PCI port1) size e1]) ∧
       (e0 = None → length (Ports (Status device)) = 2%nat → more ≠ [])).
Proof.
  intros Hport Happlied Hdesired.
  unfold ApplyDeviceRuntimeSpec, applyMaxReadRequestSize, applyTrustAndPFC.
  run_monad. rewrite Happlied. run_monad. rewrite Hdesired. run_monad.
  destruct (Ports (Status device)) as [|p0 rest] eqn:Hports; [done|].
  injection Hport as ->.
  destruct (Z.eqb_spec size 0) as [->|Hsize]; run_monad.
  - destruct (SetTrustAndPFC (hostUtils h) _ trust pfc s0) as [[e|] s1]; run_monad.
    + do 3 eexists. split; [reflexivity|]. split; [done|]. intros []. done.
    + destruct rest as [|p1 [|p2 rest]]; run_monad;
        try destruct (SetTrustAndPFC (hostUtils h) _ trust pfc s1) as [e1 s2];
        do 3 eexists; (split; [reflexivity|]); (split; [done|]); by intros [].
  - destruct (SetMaxReadRequestSize (hostUtils h) (PCI port0) size s0) as [[e|] s1];
      run_monad.
    + do 3 eexists. split; [reflexivity|]. split; [done|]. intros _.
      exists (Some e), []. split_and!; [done | by left | done].
    + destruct rest as [|p1 [|p2 rest]]; run_monad.
      * destruct (SetTrustAndPFC (hostUtils h) _ trust pfc s1) as [[e|] s2];
          run_monad; do 3 eexists; (split; [reflexivity|]); (split; [done|]);
          intros _; exists None, []; (split_and!; [done | by left | done]).
      * destruct (SetMaxReadRequestSize (hostUtils h) (PCI p1) size s1) as [[e|] s2];
          run_monad.
        -- do 3 eexists. split; [reflexivity|]. split; [done|]. intros _.
           exists None, [EvSetMaxReadRequestSize (PCI p1) size (Some e)].
           split_and!; [done | right; by exists p1, (Some e) | done].
        -- destruct (SetTrustAndPFC (hostUtils h) _ trust pfc s2) as [[e|] s3];
             run_monad;
             [|destruct (SetTrustAndPFC (hostUtils h) _ trust pfc s3) as [e3 s4]];
             do 3 eexists; (split; [reflexivity|]); (split; [done|]); intros _;
             exists None, [EvSetMaxReadRequestSize (PCI p1) size None];
             (split_and!; [done | right; by exists p1, None | done]).
      * destruct (SetTrustAndPFC (hostUtils h) _ trust pfc s1) as [[e|] s2];
          run_monad; do 3 eexists; (split; [reflexivity|]); (split; [done|]);
          intros _; exists None, []; (split_and!; [done | by left | done]).
Qed.

End Runtime.

(** *** DiscoverNicDevices *)

Lemma retainedAddresses_app (sn : string) (evs1 evs2 : list Event) :
  retainedAddresses sn (evs1 ++ evs2)
  = retainedAddresses sn evs1 ++ retainedAddresses sn evs2.
Proof. apply omap_app. Qed.

Section Discover.
Context {St Ctx Template : Type}.
Variables (consts : Consts) (h : hostManager St Ctx Template).

(** A device whose class does not parse leaves the loop as it found it:
    no host call, same map. *)
Lemma discoverDevice_unparsable (device : PCIDevice)
    (devices : gmap string NicDeviceStatus) (s : St) :
  Strconv.ParseInt (Class_ID device) = None →
  discoverDevice consts h device devices s = Returned (inl devices) s [].
Proof.
  intros Hparse. unfold discoverDevice. rewrite Hparse.
  by destruct (negb _).
Qed.

(** One round of the discovery loop.  It never panics.  It goes on only
    when no identity fetch failed, and then keeps [discovered]; it returns
    only with no map and the error of a failed identity fetch, which is
    its last call. *)
Lemma discoverDevice_spec (device : PCIDevice)
    (devices : gmap string NicDeviceStatus) (s : St) :
  ∃ r s' evs,
    discoverDevice consts h device devices s = Returned r s' evs ∧
    match r with
    | inl devices' =>
        Forall (λ ev, identityFailure ev = None) evs ∧
        ∀ evs0, discovered (nodeName h) devices evs0 →
                discovered (nodeName h) devices' (evs0 ++ evs)
    | inr result =>
        ∃ e evs0 ev,
          result = (None, Some e) ∧ evs = evs0 ++ [ev] ∧
          identityFailure ev = Some e ∧
          Forall (λ ev, identityFailure ev = None) evs0
    end.
Proof.
  unfold discoverDevice.
  destruct (negb (String.eqb _ _)).
  { do 3 eexists. split; [reflexivity|]. split; [constructor|].
    intros evs0. by rewrite app_nil_r. }
  destruct (Strconv.ParseInt _) as [devClass|]; cycle 1.
  { do 3 eexists. split; [reflexivity|]. split; [constructor|].
    intros evs0. by rewrite app_nil_r. }
  destruct (negb (devClass =? _)).
  { do 3 eexists. split; [reflexivity|]. split; [constructor|].
    intros evs0. by rewrite app_nil_r. }
  run_monad.
  destruct (IsSriovVF (hostUtils h) (Address device) s) as [[|] s1]; run_monad.
  { do 3 eexists. split; [reflexivity|]. split; [by repeat constructor|].
    intros evs0 Hinv sn. specialize (Hinv sn).
    by rewrite retainedAddresses_app, app_nil_r. }
  destruct (GetPartAndSerialNumber (hostUtils h) (Address device) s1)
    as [[[partNumber serialNumber] [e|]] s2]; run_monad.
  { do 3 eexists. split; [reflexivity|].
    exists e, [EvIsSriovVF (Address device) false],
      (EvGetPartAndSerialNumber (Address device) partNumber serialNumber (Some e)).
    split_and!; [done..|by repeat constructor]. }
  destruct (devices !! serialNumber) as [status|] eqn:Hfound; run_monad.
  - destruct (GetInterfaceName (hostUtils h) (Address device) s2) as [netif s3].
    destruct (GetRDMADeviceName (hostUtils h) (Address device) s3) as [rdma s4].
    run_monad. do 3 eexists. split; [reflexivity|]. split; [by repeat constructor|].
    intros evs0 Hinv.
    pose proof (Hinv serialNumber) as Hhere. rewrite Hfound in Hhere.
    destruct Hhere as (Hsn & Hnode & Hports & Haddrs). rewrite Hsn.
    intros sn. rewrite retainedAddresses_app. simpl.
    destruct (decide (serialNumber = sn)) as [<-|Hne].
    + rewrite lookup_insert_eq. simpl.
      split_and!; [done | done | by destruct (Ports status) |].
      by rewrite fmap_app, Haddrs.
    + rewrite lookup_insert_ne by done. specialize (Hinv sn).
      by rewrite app_nil_r.
  - destruct (GetFirmwareVersionAndPSID (hostUtils h) (Address device) s2)
      as [[[firmwareVersion psid] [e|]] s3]; run_monad.
    { do 3 eexists. split; [reflexivity|].
      exists e, [EvIsSriovVF (Address device) false;
                 EvGetPartAndSerialNumber (Address device) partNumber serialNumber None],
        (EvGetFirmwareVersionAndPSID (Address device) firmwareVersion psid (Some e)).
      split_and!; [done..|by repeat constructor]. }
    destruct (GetInterfaceName (hostUtils h) (Address device) s3) as [netif s4].
    destruct (GetRDMADeviceName (hostUtils h) (Address device) s4) as [rdma s5].
    run_monad. do 3 eexists. split; [reflexivity|]. split; [by repeat constructor|].
    intros evs0 Hinv.
    pose proof (Hinv serialNumber) as Hhere. rewrite Hfound in Hhere.
    intros sn. rewrite retainedAddresses_app. simpl.
    destruct (decide (serialNumber = sn)) as [<-|Hne].
    + rewrite lookup_insert_eq. simpl. by rewrite Hhere.
    + rewrite !lookup_insert_ne by done. specialize (Hinv sn).
      by rewrite app_nil_r.
Qed.

(** The whole loop, by induction on the PCI devices. *)
Lemma discover_loop_spec (pciDevices : list PCIDevice)
    (devices : gmap string NicDeviceStatus) (s : St) :
  ∃ r s' evs,
    range_loop (discoverDevice consts h) pciDevices devices s = Returned r s' evs ∧
    match r with
    | inl devices' =>
        Forall (λ ev, identityFailure ev = None) evs ∧
        ∀ evs0, discovered (nodeName h) devices evs0 →
                discovered (nodeName h) devices' (evs0 ++ evs)
    | inr result =>
        ∃ e evs0 ev,
          result = (None, Some e) ∧ evs = evs0 ++ [ev] ∧
          identityFailure ev = Some e ∧
          Forall (λ ev, identityFailure ev = None) evs0
    end.
Proof.
  revert devices s. induction pciDevices as [|device rest IH]; intros devices s.
  - do 3 eexists. split; [reflexivity|]. split; [constructor|].
    intros evs0. by rewrite app_nil_r.
  - cbn [range_loop]. rewrite run_bind.
    destruct (discoverDevice_spec device devices s) as (r & s1 & evs1 & -> & Hbody).
    destruct r as [devices1|result].
    + destruct Hbody as (Hquiet1 & Hinv1).
      destruct (IH devices1 s1) as (r & s2 & evs2 & -> & Hrest).
      do 3 eexists. split; [reflexivity|]. destruct r as [devices2|result].
      * destruct Hrest as (Hquiet2 & Hinv2). split; [by apply Forall_app|].
        intros evs0 Hinv. rewrite app_assoc. by apply Hinv2, Hinv1.
      * destruct Hrest as (e & evs0 & ev & -> & -> & Hev & Hquiet2).
        exists e, (evs1 ++ evs0), ev. rewrite app_assoc.
        split_and!; [done..|by apply Forall_app].
    + destruct Hbody as (e & evs0 & ev & -> & -> & Hev & Hquiet).
      run_monad. do 3 eexists. split; [reflexivity|].
      exists e, evs0, ev. by rewrite app_nil_r.
Qed.

(** Dropping a device whose class does not parse from the list does not
    change the loop. *)
Lemma discover_loop_skip (before after : list PCIDevice) (device : PCIDevice)
    (devices : gmap string NicDeviceStatus) (s : St) :
  Strconv.ParseInt (Class_ID device) = None →
  range_loop (discoverDevice consts h) (before ++ device :: after) devices s
  = range_loop (discoverDevice consts h) (before ++ after) devices s.
Proof.
  intros Hparse. revert devices s.
  induction before as [|d before IH]; intros devices s; simpl.
  - rewrite run_bind, (discoverDevice_unparsable device devices s Hparse).
    by destruct (range_loop _ after devices s).
  - rewrite !run_bind. destruct (discoverDevice consts h d devices s) as [|[d1|r] s1 evs1];
      [done | by rewrite IH | done].
Qed.

(** An identity fetch in a round is for the device of the round, which
    passed the vendor and class filters and was reported as a physical
    function just before. *)
Lemma discoverDevice_fetches (device : PCIDevice)
    (devices : gmap string NicDeviceStatus) (s : St) :
  match discoverDevice consts h device devices s with
  | Panic => True
  | Returned _ _ evs =>
      ∀ ev addr, ev ∈ evs → identityFetch ev = Some addr →
                 addr = Address device ∧ passedFilters consts device ∧
                 EvIsSriovVF addr false ∈ evs
  end.
Proof.
  unfold discoverDevice, passedFilters.
  destruct (String.eqb_spec (Vendor_ID device) (MellanoxVendor consts)) as [Hvendor|_];
    simpl; [|by intros ev addr ?%elem_of_nil].
  destruct (Strconv.ParseInt _) as [devClass|]; [|by intros ev addr ?%elem_of_nil].
  destruct (Z.eqb_spec devClass (NetClass consts)) as [->|_];
    simpl; [|by intros ev addr ?%elem_of_nil].
  run_monad.
  destruct (IsSriovVF (hostUtils h) (Address device) s) as [[|] s1]; run_monad.
  { intros ev addr ->%list_elem_of_singleton. done. }
  destruct (GetPartAndSerialNumber (hostUtils h) (Address device) s1)
    as [[[partNumber serialNumber] [e|]] s2]; run_monad.
  { intros ev addr Hin Hfetch.
    repeat (apply elem_of_cons in Hin as [->|Hin]); try done;
      [|by apply elem_of_nil in Hin].
    injection Hfetch as <-. split_and!; [done..|left]. }
  destruct (devices !! serialNumber) as [status|]; run_monad.
  - destruct (GetInterfaceName (hostUtils h) (Address device) s2) as [netif s3].
    destruct (GetRDMADeviceName (hostUtils h) (Address device) s3) as [rdma s4].
    run_monad. intros ev addr Hin Hfetch.
    repeat (apply elem_of_cons in Hin as [->|Hin]); try done;
      [|by apply elem_of_nil in Hin].
    injection Hfetch as <-. split_and!; [done..|left].
  - destruct (GetFirmwareVersionAndPSID (hostUtils h) (Address device) s2)
      as [[[firmwareVersion psid] [e|]] s3]; run_monad.
    { intros ev addr Hin Hfetch.
      repeat (apply elem_of_cons in Hin as [->|Hin]); try done;
        [| |by apply elem_of_nil in Hin];
        injection Hfetch as <-; (split_and!; [done..|left]). }
    destruct (GetInterfaceName (hostUtils h) (Address device) s3) as [netif s4].
    destruct (GetRDMADeviceName (hostUtils h) (Address device) s4) as [rdma s5].
    run_monad. intros ev addr Hin Hfetch.
    repeat (apply elem_of_cons in Hin as [->|Hin]); try done;
      [| |by apply elem_of_nil in Hin];
      injection Hfetch as <-; (split_and!; [done..|left]).
Qed.

Lemma discover_loop_fetches (pciDevices : list PCIDevice)
    (devices : gmap string NicDeviceStatus) (s : St) :
  match range_loop (discoverDevice consts h) pciDevices devices s with
  | Panic => True
  | Returned _ _ evs =>
      ∀ ev addr, ev ∈ evs → identityFetch ev = Some addr →
                 ∃ device, device ∈ pciDevices ∧ Address device = addr ∧
                           passedFilters consts device ∧
                           EvIsSriovVF addr false ∈ evs
  end.
Proof.
  revert devices s. induction pciDevices as [|device rest IH]; intros devices s.
  - by intros ev addr ?%elem_of_nil.
  - cbn [range_loop]. rewrite run_bind.
    pose proof (discoverDevice_fetches device devices s) as Hbody.
    destruct (discoverDevice consts h device devices s) as [|[devices1|result] s1 evs1];
      [done| |].
    + specialize (IH devices1 s1).
      destruct (range_loop _ rest devices1 s1) as [|r s2 evs2]; [done|].
      intros ev addr [Hin|Hin]%elem_of_app Hfetch.
      * destruct (Hbody ev addr Hin Hfetch) as (-> & Hpassed & Hvf).
        exists device. split_and!; [left | done | done | apply elem_of_app; by left].
      * destruct (IH ev addr Hin Hfetch) as (d & Hd & <- & Hpassed & Hvf).
        exists d. split_and!; [by right | done | done | apply elem_of_app; by right].
    + run_monad. rewrite app_nil_r. intros ev addr Hin Hfetch.
      destruct (Hbody ev addr Hin Hfetch) as (-> & Hpassed & Hvf).
      exists device. split_and!; [left | done..].
Qed.

End Discover.

(** A range loop over two lists in a row. *)
Lemma range_loop_app {St A S R : Type} (body : A → S → M St (S + R))
    (l1 l2 : list A) (a : S) (s : St) :
  range_loop body (l1 ++ l2) a s =
  match range_loop body l1 a s with
  | Panic => Panic
  | Returned (inl a1) s1 evs1 =>
      match range_loop body l2 a1 s1 with
      | Panic => Panic
      | Returned r s2 evs2 => Returned r s2 (evs1 ++ evs2)
      end
  | Returned (inr r) s1 evs1 => Returned (inr r) s1 evs1
  end.
Proof.
  revert a s. induction l1 as [|x l1 IH]; intros a s.
  - cbn [app range_loop]. rewrite run_ret. by destruct (range_loop body l2 a s).
  - cbn [app range_loop]. rewrite !run_bind.
    destruct (body x a s) as [|[a1|r] s1 evs1]; [done| |].
    + rewrite IH. destruct (range_loop body l1 a1 s1) as [|[a2|r] s2 evs2]; [done| |done].
      destruct (range_loop body l2 a2 s2) as [|r s3 evs3]; [done|].
      by rewrite app_assoc.
    + by rewrite run_ret.
Qed.

Section DiscoverFailures.
Context {St Ctx Template : Type}.
Variables (consts : Consts) (h : hostManager St Ctx Template).

(** The round of a device that passed the filters and is a physical
    function, when the fetch of its part and serial number fails. *)
Lemma discoverDevice_serial_failure (device : PCIDevice)
    (devices : gmap string NicDeviceStatus) (s s1 s2 : St) (pn sn : string) (e : error) :
  passedFilters consts device →
  IsSriovVF (hostUtils h) (Address device) s = (false, s1) →
  GetPartAndSerialNumber (hostUtils h) (Address device) s1 = ((pn, sn, Some e), s2) →
  discoverDevice consts h device devices s
  = Returned (inr (None, Some e)) s2
      [EvIsSriovVF (Address device) false;
       EvGetPartAndSerialNumber (Address device) pn sn (Some e)].
Proof.
  intros [Hvendor Hclass] Hvf Hserial. unfold discoverDevice.
  rewrite Hvendor, String.eqb_refl, Hclass, Z.eqb_refl. run_monad.
  rewrite Hvf. run_monad. by rewrite Hserial.
Qed.

(** The same when its serial number is new and the fetch of the firmware
    version and PSID fails. *)
Lemma discoverDevice_firmware_failure (device : PCIDevice)
    (devices : gmap string NicDeviceStatus) (s s1 s2 s3 : St)
    (pn sn fw psid : string) (e : error) :
  passedFilters consts device →
  IsSriovVF (hostUtils h) (Address device) s = (false, s1) →
  GetPartAndSerialNumber (hostUtils h) (Address device) s1 = ((pn, sn, None), s2) →
  devices !! sn = None →
  GetFirmwareVersionAndPSID (hostUtils h) (Address device) s2 = ((fw, psid, Some e), s3) →
  discoverDevice consts h device devices s
  = Returned (inr (None, Some e)) s3
      [EvIsSriovVF (Address device) false;
       EvGetPartAndSerialNumber (Address device) pn sn None;
       EvGetFirmwareVersionAndPSID (Address device) fw psid (Some e)].
Proof.
  intros [Hvendor Hclass] Hvf Hserial Hnew Hfirmware. unfold discoverDevice.
  rewrite Hvendor, String.eqb_refl, Hclass, Z.eqb_refl. run_monad.
  rewrite Hvf. run_monad. rewrite Hserial. run_monad. rewrite Hnew. run_monad.
  by rewrite Hfirmware.
Qed.

End DiscoverFailures.

Section DiscoverResults.
Context {St Ctx Template : Type}.
Variables (consts : Consts) (h : hostManager St Ctx Template).

(** Discovery, once the PCI devices are listed, is its loop. *)
Lemma DiscoverNicDevices_listed (s s0 : St) (pciDevices : list PCIDevice) :
  GetPCIDevices (hostUtils h) s = ((pciDevices, None), s0) →
  DiscoverNicDevices consts h s =
  match range_loop (discoverDevice consts h) pciDevices ∅ s0 with
  | Panic => Panic
  | Returned r s' evs =>
      Returned match r with
               | inl devices => (Some devices, None)
               | inr result => result
               end s' (EvGetPCIDevices None :: evs)
  end.
Proof.
  intros Hlist. unfold DiscoverNicDevices. run_monad. rewrite Hlist. run_monad.
  destruct (range_loop _ _ _ s0) as [|[devices|result] s' evs]; run_monad;
    by rewrite ?app_nil_r.
Qed.

(** When the listing fails, discovery returns its error. *)
Lemma DiscoverNicDevices_unlisted (s s0 : St) (pciDevices : list PCIDevice) (e : error) :
  GetPCIDevices (hostUtils h) s = ((pciDevices, Some e), s0) →
  DiscoverNicDevices consts h s = Returned (None, Some e) s0 [EvGetPCIDevices (Some e)].
Proof. intros Hlist. unfold DiscoverNicDevices. run_monad. by rewrite Hlist. Qed.

(** C9: once the PCI devices are listed, a device whose class code does
    not parse is merely skipped (the loop runs as if the list did not
    have it); the part and serial number and the firmware version and
    PSID are fetched only for listed devices that passed the vendor,
    class and physical-function filters; discovery returns an error and
    no device map whenever one of these fetches fails, and only then.
    In particular, for a listed device that passed the vendor and class
    filters, that discovery reaches without error and that the host
    reports as a physical function: when the fetch of its part and
    serial number fails, or its serial number is new and the fetch of
    its firmware version and PSID fails, discovery returns no map and
    the error of that fetch, with the fetch as its last host call; and
    when an error stopped the loop before a device, discovery returns
    no map and an error as well. *)
Theorem DiscoverNicDevices_failure_policy (s s0 : St) (pciDevices : list PCIDevice) :
  GetPCIDevices (hostUtils h) s = ((pciDevices, None), s0) →
  (∀ before device after,
     pciDevices = before ++ device :: after →
     Strconv.ParseInt (Class_ID device) = None →
     range_loop (discoverDevice consts h) pciDevices ∅ s0
     = range_loop (discoverDevice consts h) (before ++ after) ∅ s0)
  ∧
  (∃ result err s' evs,
     DiscoverNicDevices consts h s = Returned (result, err) s' evs ∧
     (∀ ev addr, ev ∈ evs → identityFetch ev = Some addr →
        ∃ device, device ∈ pciDevices ∧ Address device = addr ∧
                  passedFilters consts device ∧ EvIsSriovVF addr false ∈ evs) ∧
     (∀ e, (∃ ev, ev ∈ evs ∧ identityFailure ev = Some e) →
           result = None ∧ err = Some e) ∧
     ((∀ ev, ev ∈ evs → identityFailure ev = None) →
      ∃ devices, result = Some devices ∧ err = None))
  ∧
  (∀ before device after devices1 s1 evs1 s2,
     pciDevices = before ++ device :: after →
     range_loop (discoverDevice consts h) before ∅ s0 = Returned (inl devices1) s1 evs1 →
     passedFilters consts device →
     IsSriovVF (hostUtils h) (Address device) s1 = (false, s2) →
     (∀ pn sn e s3,
        GetPartAndSerialNumber (hostUtils h) (Address device) s2
        = ((pn, sn, Some e), s3) →
        DiscoverNicDevices consts h s
        = Returned (None, Some e) s3
            (EvGetPCIDevices None :: evs1 ++
             [EvIsSriovVF (Address device) false;
              EvGetPartAndSerialNumber (Address device) pn sn (Some e)])) ∧
     (∀ pn sn s3 fw psid e s4,
        GetPartAndSerialNumber (hostUtils h) (Address device) s2
        = ((pn, sn, None), s3) →
        devices1 !! sn = None →
        GetFirmwareVersionAndPSID (hostUtils h) (Address device) s3
        = ((fw, psid, Some e), s4) →
        DiscoverNicDevices consts h s
        = Returned (None, Some e) s4
            (EvGetPCIDevices None :: evs1 ++
             [EvIsSriovVF (Address device) false;
              EvGetPartAndSerialNumber (Address device) pn sn None;
              EvGetFirmwareVersionAndPSID (Address device) fw psid (Some e)])))
  ∧
  (∀ before after result s1 evs1,
     pciDevices = before ++ after →
     range_loop (discoverDevice consts h) before ∅ s0 = Returned (inr result) s1 evs1 →
     ∃ e, DiscoverNicDevices consts h s
          = Returned (None, Some e) s1 (EvGetPCIDevices None :: evs1)).
Proof.
  intros Hlist. split_and!.
  { intros before device after -> Hparse. by apply discover_loop_skip. }
  { rewrite (DiscoverNicDevices_listed s s0 pciDevices Hlist).
    pose proof (discover_loop_fetches consts h pciDevices ∅ s0) as Hfetches.
    destruct (discover_loop_spec consts h pciDevices ∅ s0)
      as (r & s' & evs & Hrun & Hloop).
    rewrite Hrun in Hfetches |- *.
    assert (∀ ev addr, ev ∈ EvGetPCIDevices None :: evs → identityFetch ev = Some addr →
              ∃ device, device ∈ pciDevices ∧ Address device = addr ∧
                        passedFilters consts device ∧
                        EvIsSriovVF addr false ∈ EvGetPCIDevices None :: evs)
      as Hfetched.
    { intros ev addr [->|Hin]%elem_of_cons Hfetch; [done|].
      destruct (Hfetches ev addr Hin Hfetch) as (d & ? & ? & ? & ?).
      exists d. split_and!; [done..|by right]. }
    destruct r as [devices|result].
    - destruct Hloop as (Hquiet & _). do 4 eexists. split; [reflexivity|].
      split; [done|]. split.
      + intros e (ev & [->|Hin]%elem_of_cons & Hev); [done|].
        rewrite Forall_forall in Hquiet. rewrite (Hquiet ev Hin) in Hev. done.
      + intros _. by eexists.
    - destruct Hloop as (e & evs0 & ev & -> & -> & Hev & Hquiet).
      do 4 eexists. split; [reflexivity|]. split; [done|]. split.
      + intros e'
          (ev' & [->|[Hin|Hlast%list_elem_of_singleton]%elem_of_app]%elem_of_cons & Hev');
          [done | | by simplify_eq].
        rewrite Forall_forall in Hquiet. rewrite (Hquiet ev' Hin) in Hev'. done.
      + intros Hnone. specialize (Hnone ev). rewrite Hev in Hnone.
        discriminate Hnone. right. apply elem_of_app. right. by left. }
  { intros before device after devices1 s1 evs1 s2 -> Hbefore Hpassed Hvf.
    rewrite (DiscoverNicDevices_listed s s0 _ Hlist), range_loop_app, Hbefore.
    cbn [range_loop]. rewrite run_bind. split.
    - intros pn sn e s3 Hserial.
      by rewrite (discoverDevice_serial_failure consts h device devices1 s1 s2 s3 pn sn e
                    Hpassed Hvf Hserial), run_ret, app_nil_r.
    - intros pn sn s3 fw psid e s4 Hserial Hnew Hfirmware.
      by rewrite (discoverDevice_firmware_failure consts h device devices1 s1 s2 s3 s4
                    pn sn fw psid e Hpassed Hvf Hserial Hnew Hfirmware),
           run_ret, app_nil_r. }
  { intros before after result s1 evs1 -> Hbefore.
    rewrite (DiscoverNicDevices_listed s s0 _ Hlist), range_loop_app, Hbefore.
    destruct (discover_loop_spec consts h before ∅ s0) as (r & s' & evs & Hrun & Hloop).
    rewrite Hbefore in Hrun. injection Hrun as <- <- <-.
    destruct Hloop as (e & _ & _ & -> & _). by exists e. }
Qed.

(** C10: in a map that discovery returns without error, every entry sits
    under its own serial number, carries the node name of the manager,
    and has one port per retained PCI device whose serial number it is,
    in the order of discovery; so it has at least one port. *)
Theorem DiscoverNicDevices_entries (s s' : St)
    (devices : gmap string NicDeviceStatus) (evs : list Event) :
  DiscoverNicDevices consts h s = Returned (Some devices, None) s' evs →
  ∀ sn status,
    devices !! sn = Some status →
    SerialNumber status = sn ∧ Node status = nodeName h ∧ Ports status ≠ [] ∧
    PCI <$> Ports status = retainedAddresses sn evs.
Proof.
  intros Hrun sn status Hentry.
  destruct (GetPCIDevices (hostUtils h) s) as [[pciDevices [e|]] s0] eqn:Hlist.
  { rewrite (DiscoverNicDevices_unlisted s s0 pciDevices e Hlist) in Hrun.
    discriminate Hrun. }
  rewrite (DiscoverNicDevices_listed s s0 pciDevices Hlist) in Hrun.
  destruct (discover_loop_spec consts h pciDevices ∅ s0) as (r & s1 & evs1 & Hloop & Hspec).
  rewrite Hloop in Hrun. destruct r as [devices1|result].
  - injection Hrun as -> -> <-. destruct Hspec as (_ & Hinv).
    assert (discovered (nodeName h) ∅ [EvGetPCIDevices None]) as Hstart.
    { intros sn'. by rewrite lookup_empty. }
    specialize (Hinv _ Hstart sn). by rewrite Hentry in Hinv.
  - destruct Hspec as (e & _ & _ & -> & _). discriminate Hrun.
Qed.

(** Discovery never panics. *)
Lemma DiscoverNicDevices_returns (s : St) :
  ∃ r s' evs, DiscoverNicDevices consts h s = Returned r s' evs.
Proof.
  destruct (GetPCIDevices (hostUtils h) s) as [[pciDevices [e|]] s0] eqn:Hlist.
  - rewrite (DiscoverNicDevices_unlisted s s0 pciDevices e Hlist). by do 3 eexists.
  - rewrite (DiscoverNicDevices_listed s s0 pciDevices Hlist).
    destruct (discover_loop_spec consts h pciDevices ∅ s0) as (r & s' & evs & -> & _).
    by do 3 eexists.
Qed.

End DiscoverResults.

(** *** Discovery over a listing with pointers *)

(** Runs what is left of a round after the device was found to be a
    physical function, on both sides of an equation. *)
Ltac retained_paths :=
  repeat match goal with
         | |- context [GetPartAndSerialNumber ?hu ?a ?st] =>
             destruct (GetPartAndSerialNumber hu a st) as [[[? ?] [?|]] ?]; run_monad
         | |- context [match ?m !! ?k with Some _ => _ | None => _ end] =>
             destruct (m !! k); run_monad
         | |- context [GetFirmwareVersionAndPSID ?hu ?a ?st] =>
             destruct (GetFirmwareVersionAndPSID hu a st) as [[[? ?] [?|]] ?]; run_monad
         | |- context [GetInterfaceName ?hu ?a ?st] =>
             destruct (GetInterfaceName hu a st) as [? ?]; run_monad
         | |- context [GetRDMADeviceName ?hu ?a ?st] =>
             destruct (GetRDMADeviceName hu a st) as [? ?]; run_monad
         end;
  reflexivity.

Section ListedDiscovery.
Context {St Ctx Template : Type}.
Variables (consts : Consts) (h : hostManager St Ctx Template).

(** One round on a listed device either panics on a nil pointer or is
    the round of [discoverDevice] on the device with its pointers
    followed. *)
Lemma discoverListedDevice_refines (listed : option ListedDevice)
    (devices : gmap string NicDeviceStatus) (s : St) :
  discoverListedDevice consts h listed devices s = Panic ∨
  discoverListedDevice consts h listed devices s
  = discoverDevice consts h (dereferenced listed) devices s.
Proof.
  unfold discoverListedDevice, discoverDevice, deref.
  destruct listed as [[addr [vendor|] class product]|]; run_monad; [|by left..].
  destruct (negb (String.eqb vendor (MellanoxVendor consts))); [by right|].
  destruct class as [class|]; run_monad; [|by left].
  destruct (Strconv.ParseInt class) as [devClass|]; [|by right].
  destruct (negb (devClass =? NetClass consts)); [by right|]. run_monad.
  destruct (IsSriovVF (hostUtils h) addr s) as [[|] s1]; run_monad; [by right|].
  destruct product as [[id name]|]; run_monad; [|by left].
  right. retained_paths.
Qed.

(** It does not panic on a device whose pointers are all set. *)
Lemma discoverListedDevice_set (listed : option ListedDevice)
    (devices : gmap string NicDeviceStatus) (s : St) :
  pointersSet listed →
  discoverListedDevice consts h listed devices s
  = discoverDevice consts h (dereferenced listed) devices s.
Proof.
  intros (device & -> & [vendor Hvendor] & [class Hclass] & [[id name] Hproduct]).
  destruct device as [addr ? ? ?]. simpl in *. subst.
  unfold discoverListedDevice, discoverDevice, deref. run_monad.
  destruct (negb (String.eqb vendor (MellanoxVendor consts))); [done|].
  destruct (Strconv.ParseInt class) as [devClass|]; [|done].
  destruct (negb (devClass =? NetClass consts)); [done|]. run_monad.
  destruct (IsSriovVF (hostUtils h) addr s) as [[|] s1]; run_monad; [done|].
  retained_paths.
Qed.

Lemma discover_listed_loop_refines (listing : list (option ListedDevice))
    (devices : gmap string NicDeviceStatus) (s : St) :
  range_loop (discoverListedDevice consts h) listing devices s = Panic ∨
  range_loop (discoverListedDevice consts h) listing devices s
  = range_loop (discoverDevice consts h) (dereferenced <$> listing) devices s.
Proof.
  revert devices s. induction listing as [|listed listing IH]; intros devices s;
    [by right|].
  rewrite fmap_cons. cbn [range_loop]. rewrite !run_bind.
  destruct (discoverListedDevice_refines listed devices s) as [->| ->]; [by left|].
  destruct (discoverDevice consts h (dereferenced listed) devices s)
    as [|[devices1|result] s1 evs1]; [by right| |by right].
  destruct (IH devices1 s1) as [->| ->]; [by left|by right].
Qed.

Lemma discover_listed_loop_set (listing : list (option ListedDevice))
    (devices : gmap string NicDeviceStatus) (s : St) :
  Forall pointersSet listing →
  range_loop (discoverListedDevice consts h) listing devices s
  = range_loop (discoverDevice consts h) (dereferenced <$> listing) devices s.
Proof.
  intros Hset. revert devices s.
  induction Hset as [|listed listing Hlisted _ IH]; intros devices s; [done|].
  rewrite fmap_cons. cbn [range_loop]. rewrite !run_bind.
  rewrite (discoverListedDevice_set listed devices s Hlisted).
  destruct (discoverDevice consts h (dereferenced listed) devices s)
    as [|[devices1|result] s1 evs1]; [done| |done].
  by rewrite IH.
Qed.

(** Whenever discovery over a listing with pointers does not panic, it
    is [DiscoverNicDevices] on the host that lists the same devices with
    their pointers followed. *)
Lemma DiscoverListedDevices_refines
    (listing : St → (list (option ListedDevice) * option error) * St) (s : St) :
  GetPCIDevices (hostUtils h) s
  = ((dereferenced <$> (listing s).1.1, (listing s).1.2), (listing s).2) →
  DiscoverListedDevices consts h listing s = Panic ∨
  DiscoverListedDevices consts h listing s = DiscoverNicDevices consts h s.
Proof.
  intros Hsame. unfold DiscoverListedDevices, DiscoverNicDevices. run_monad.
  rewrite Hsame. destruct (listing s) as [[pciDevices [e|]] s0]; run_monad; [by right|].
  destruct (discover_listed_loop_refines pciDevices ∅ s0) as [->| ->];
    [by left|by right].
Qed.

(** Discovery does not panic on a listing whose pointers are all set. *)
Lemma DiscoverListedDevices_returns
    (listing : St → (list (option ListedDevice) * option error) * St) (s : St) :
  Forall pointersSet (listing s).1.1 →
  ∃ r s' evs, DiscoverListedDevices consts h listing s = Returned r s' evs.
Proof.
  intros Hset. unfold DiscoverListedDevices. run_monad.
  destruct (listing s) as [[pciDevices [e|]] s0]; run_monad; [by do 3 eexists|].
  simpl in Hset. rewrite (discover_listed_loop_set pciDevices ∅ s0 Hset).
  destruct (discover_loop_spec consts h (dereferenced <$> pciDevices) ∅ s0)
    as ([devices|result] & s' & evs & -> & _); run_monad; by do 3 eexists.
Qed.

End ListedDiscovery.

(** *** No panic on a device with a first port *)

Section NoPanic.
Context {St Ctx Template : Type}.
Variables (consts : Consts) (order : RangeOrder) (h : hostManager St Ctx Template).
Variables (ctx : Ctx) (device : NicDevice Template) (port0 : NicDevicePortSpec).

Hypothesis Hport : Ports (Status device) !! 0%nat = Some port0.

Lemma ValidateDeviceNvSpec_returns (s : St) :
  ∃ r s' evs, ValidateDeviceNvSpec order h ctx device s = Returned r s' evs.
Proof.
  unfold ValidateDeviceNvSpec. run_monad.
  destruct (QueryNvConfig (hostUtils h) ctx (PCI port0) s) as [[nv [e|]] s1];
    run_monad; [by do 3 eexists|].
  destruct (ResetToDefault _); run_monad; [by do 3 eexists|].
  destruct (ConstructNvParamMapFromTemplate _ _ _) as [desired [e|]];
    run_monad; [by do 3 eexists|].
  destruct (range_pure _ _ _) as [[u r]|e]; by do 3 eexists.
Qed.

Lemma queryNvConfigWithBootstrap_returns (s : St) :
  ∃ r s' evs,
    queryNvConfigWithBootstrap consts h ctx device (PCI port0) s = Returned r s' evs.
Proof.
  unfold queryNvConfigWithBootstrap. run_monad.
  destruct (QueryNvConfig (hostUtils h) ctx (PCI port0) s) as [[nv [e|]] s1];
    run_monad; [by do 3 eexists|].
  destruct (negb _); run_monad; [|by do 3 eexists].
  destruct (SetNvConfigParameter (hostUtils h) _ _ _ s1) as [[e|] s2];
    run_monad; [by do 3 eexists|].
  destruct (ResetNicFirmware (hostUtils h) ctx _ s2) as [[e|] s3];
    run_monad; [by do 3 eexists|].
  destruct (QueryNvConfig (hostUtils h) ctx (PCI port0) s3) as [[nv' [e|]] s4];
    run_monad; by do 3 eexists.
Qed.

Lemma ApplyDeviceNvSpec_returns (s : St) :
  ∃ r s' evs, ApplyDeviceNvSpec consts order h ctx device s = Returned r s' evs.
Proof.
  unfold ApplyDeviceNvSpec. run_monad.
  destruct (ResetToDefault _).
  - rewrite run_resetToDefault. cbv zeta.
    destruct (ResetNvConfig (hostUtils h) (PCI port0) s).1; by do 3 eexists.
  - destruct (queryNvConfigWithBootstrap_returns s) as ([nv|e] & s1 & evs1 & ->);
      run_monad; [|by do 3 eexists].
    destruct (ConstructNvParamMapFromTemplate _ _ _) as [desired [e|]];
      run_monad; [by do 3 eexists|].
    destruct (range_pure _ _ _) as [params|e]; run_monad; [|by do 3 eexists].
    destruct (apply_loop_returns h (PCI port0) (range_map order RangeApply params) s1)
      as ([[]|e] & s2 & evs2 & ->); by do 3 eexists.
Qed.

Lemma ApplyDeviceRuntimeSpec_returns (s : St) :
  ∃ r s' evs, ApplyDeviceRuntimeSpec h device s = Returned r s' evs.
Proof.
  unfold ApplyDeviceRuntimeSpec, applyMaxReadRequestSize, applyTrustAndPFC.
  run_monad.
  destruct (RuntimeConfigApplied _ device s) as [[[|] err] s0]; run_monad;
    [by do 3 eexists|].
  destruct (CalculateDesiredRuntimeConfig _ device) as [[size trust] pfc]. run_monad.
  destruct (Ports (Status device)) as [|p0 [|p1 [|p2 rest]]] eqn:Hports; [done|..];
    injection Hport as ->;
    destruct (negb (size =? 0)); run_monad;
    repeat match goal with
           | |- context [SetMaxReadRequestSize ?hu ?a ?z ?st] =>
               destruct (SetMaxReadRequestSize hu a z st) as [[?|] ?]; run_monad
           | |- context [SetTrustAndPFC ?hu ?a ?t ?p ?st] =>
               destruct (SetTrustAndPFC hu a t p st) as [[?|] ?]; run_monad
           end;
    by do 3 eexists.
Qed.

(** C6, as the code has it: on a device that has a first port, the
    validation, the NV apply and the runtime apply do not panic, and
    discovery does not panic on a listing in which no pointer is nil;
    each returns to its caller. *)
Theorem operations_return
    (listing : St → (list (option ListedDevice) * option error) * St) (s : St) :
  (Forall pointersSet (listing s).1.1 →
   ∃ r s' evs, DiscoverListedDevices consts h listing s = Returned r s' evs) ∧
  (∃ r s' evs, ValidateDeviceNvSpec order h ctx device s = Returned r s' evs) ∧
  (∃ r s' evs, ApplyDeviceNvSpec consts order h ctx device s = Returned r s' evs) ∧
  (∃ r s' evs, ApplyDeviceRuntimeSpec h device s = Returned r s' evs).
Proof.
  split_and!.
  - apply DiscoverListedDevices_returns.
  - apply ValidateDeviceNvSpec_returns.
  - apply ApplyDeviceNvSpec_returns.
  - apply ApplyDeviceRuntimeSpec_returns.
Qed.

End NoPanic.

(* ===================================================================== *)
(** ** The operations on the simulated host *)
(* ===================================================================== *)

(** The settled card validates to [(false, false)]. *)
Lemma ValidateDeviceNvSpec_settled_iff_witness :
  ∃ u r err,
    ValidateDeviceNvSpec Sim.order Sim.plain () Sim.onePort Sim.nvSettled
    = Returned (u, r, err) Sim.nvSettled [EvQueryNvConfig (PCI (Sim.port "0")) None]
    ∧ ((u, r, err) = (false, false, None) ↔
       ∀ p v, Sim.desired !! p = Some v →
              CurrentConfig Sim.nvSettled !! p = Some v ∧
              NextBootConfig Sim.nvSettled !! p = Some v).
Proof.
  apply (ValidateDeviceNvSpec_settled_iff Sim.order Sim.plain () Sim.onePort
           (Sim.port "0") Sim.nvSettled Sim.nvSettled Sim.nvSettled Sim.desired);
    reflexivity.
Defined.

(** C1 fails as stated: on the card whose current [P1] is already the
    desired 1 while 0 is staged for the next boot, every desired
    parameter's current value equals the desired one, and the validation
    returns [(true, true)]. *)
Lemma ValidateDeviceNvSpec_current_alone_counterexample :
  (∀ p v, Sim.desired !! p = Some v → CurrentConfig Sim.nvStale !! p = Some v) ∧
  ValidateDeviceNvSpec Sim.order Sim.plain () Sim.onePort Sim.nvStale
  = Returned (true, true, None) Sim.nvStale [EvQueryNvConfig "0000:03:00.0" None].
Proof.
  split; [|by vm_compute].
  intros p v Hp. unfold Sim.desired in Hp.
  apply lookup_singleton_Some in Hp as [<- <-]. by vm_compute.
Qed.

(** The stale card validates to [(true, true)]. *)
Lemma ValidateDeviceNvSpec_update_iff_witness :
  ∃ u r err,
    ValidateDeviceNvSpec Sim.order Sim.plain () Sim.onePort Sim.nvStale
    = Returned (u, r, err) Sim.nvStale [EvQueryNvConfig (PCI (Sim.port "0")) None]
    ∧ (err = None →
       ((u, r) = (true, true) ↔
        ∃ p v, Sim.desired !! p = Some v ∧ NextBootConfig Sim.nvStale !! p ≠ Some v)).
Proof.
  apply (ValidateDeviceNvSpec_update_iff Sim.order Sim.plain () Sim.onePort
           (Sim.port "0") Sim.nvStale Sim.nvStale Sim.nvStale Sim.desired);
    reflexivity.
Defined.

(** On the card that knows [P1] nowhere, validation and apply both fail
    with a spec error. *)
Lemma unsupported_parameter_is_spec_error_witness :
  (∃ e evs, ValidateDeviceNvSpec Sim.order Sim.plain () Sim.onePort Sim.nvUnknown
            = Returned (false, false, Some e) Sim.nvUnknown evs
            ∧ isIncorrectSpecError e = true
            ∧ Forall (λ ev, isSetNvConfigParameter ev = false) evs)
  ∧
  (∃ e evs, ApplyDeviceNvSpec Sim.consts Sim.order Sim.plain () Sim.onePort Sim.nvUnknown
            = Returned (false, Some e) Sim.nvUnknown evs
            ∧ isIncorrectSpecError e = true
            ∧ Forall (λ ev, isSetNvConfigParameter ev = false) evs).
Proof.
  destruct (unsupported_parameter_is_spec_error Sim.consts Sim.order Sim.plain ()
              Sim.onePort (Sim.port "0") Sim.nvUnknown Sim.nvUnknown Sim.nvUnknown
              Sim.desired eq_refl eq_refl eq_refl eq_refl eq_refl) as [Hvalidate Happly].
  split; [apply Hvalidate | apply Happly]; exists "P1", "1"; split; reflexivity.
Defined.

(** C3 fails as stated: on the card whose gate is on, whose current
    config does not show [P1] and whose next-boot config has it as 0, the
    apply returns no error and writes [P1]. *)
Lemma ApplyDeviceNvSpec_hidden_parameter_counterexample :
  AdvancedPCISettingsEnabled (configValidation_ Sim.plain) (CurrentConfig Sim.nvHidden)
  = true ∧
  Sim.desired !! "P1" = Some "1" ∧
  CurrentConfig Sim.nvHidden !! "P1" = None ∧
  ApplyDeviceNvSpec Sim.consts Sim.order Sim.plain () Sim.onePort Sim.nvHidden
  = Returned (true, None) (Sim.nvOf ∅ {[ "P1" := "1" ]})
      [EvQueryNvConfig "0000:03:00.0" None;
       EvSetNvConfigParameter "0000:03:00.0" "P1" "1" None].
Proof. split_and!; by vm_compute. Qed.

(** On the stale card the apply reaches its writes, writes [P1] and
    returns [(true, nil)]; on the pending card (current 0, staged 1) the
    write set is empty and it returns [(true, nil)] after the query
    alone. *)
Lemma ApplyDeviceNvSpec_reboot_after_writes_witness :
  ApplyDeviceNvSpec Sim.consts Sim.order Sim.plain () Sim.onePort Sim.nvStale
  = Returned (true, None) Sim.nvSettled
      [EvQueryNvConfig "0000:03:00.0" None;
       EvSetNvConfigParameter "0000:03:00.0" "P1" "1" None]
  ∧
  ApplyDeviceNvSpec Sim.consts Sim.order Sim.plain () Sim.onePort Sim.nvPending
  = Returned (true, None) Sim.nvPending [EvQueryNvConfig "0000:03:00.0" None].
Proof.
  split.
  - refine (proj1 (ApplyDeviceNvSpec_reboot_after_writes Sim.consts Sim.order Sim.plain ()
                     Sim.onePort (Sim.port "0") eq_refl Sim.nvStale Sim.nvStale
                     [EvQueryNvConfig "0000:03:00.0" None] Sim.nvStale Sim.desired
                     eq_refl eq_refl eq_refl _ _)).
    + intros p [v Hp]. unfold Sim.desired in Hp.
      apply lookup_singleton_Some in Hp as [<- <-]. exists "0". by vm_compute.
    + by vm_compute.
  - refine (proj2 (ApplyDeviceNvSpec_reboot_after_writes Sim.consts Sim.order Sim.plain ()
                     Sim.onePort (Sim.port "0") eq_refl Sim.nvPending Sim.nvPending
                     [EvQueryNvConfig "0000:03:00.0" None] Sim.nvPending Sim.desired
                     eq_refl eq_refl eq_refl _ _) _).
    + intros p [v Hp]. unfold Sim.desired in Hp.
      apply lookup_singleton_Some in Hp as [<- <-]. exists "1". by vm_compute.
    + by vm_compute.
    + intros p v Hp. unfold Sim.desired in Hp.
      apply lookup_singleton_Some in Hp as [<- <-]. by vm_compute.
Defined.

(** With reset-to-default requested the apply resets, turns the gate on
    and returns [(true, nil)]. *)
Lemma ApplyDeviceNvSpec_reset_to_default_witness :
  ApplyDeviceNvSpec Sim.consts Sim.order Sim.plain () Sim.toReset Sim.nvPending
  = Returned (true, None)
      (SetNvConfigParameter (hostUtils Sim.plain) "0000:03:00.0"
         "ADVANCED_PCI_SETTINGS" "1"
         (ResetNvConfig (hostUtils Sim.plain) "0000:03:00.0" Sim.nvPending).2).2
      [EvResetNvConfig "0000:03:00.0" None;
       EvSetNvConfigParameter "0000:03:00.0" "ADVANCED_PCI_SETTINGS" "1" None].
Proof.
  apply (ApplyDeviceNvSpec_reset_to_default Sim.consts Sim.order Sim.plain ()
           Sim.toReset (Sim.port "0") eq_refl Sim.nvPending
           (ResetNvConfig (hostUtils Sim.plain) "0000:03:00.0" Sim.nvPending).2);
    reflexivity.
Defined.

(** On the one-port device, and on the listing of the two-port card
    with every pointer set, every operation returns. *)
Lemma operations_return_witness :
  (∃ r s' evs, DiscoverListedDevices Sim.consts Sim.plain
                 (SimListed.listing SimListed.card) Sim.nvPending
               = Returned r s' evs) ∧
  (∃ r s' evs, ValidateDeviceNvSpec Sim.order Sim.plain () Sim.onePort Sim.nvPending
               = Returned r s' evs) ∧
  (∃ r s' evs, ApplyDeviceNvSpec Sim.consts Sim.order Sim.plain () Sim.onePort
                 Sim.nvPending = Returned r s' evs) ∧
  (∃ r s' evs, ApplyDeviceRuntimeSpec Sim.plain Sim.onePort Sim.nvPending
               = Returned r s' evs).
Proof.
  destruct (operations_return Sim.consts Sim.order Sim.plain () Sim.onePort
              (Sim.port "0") eq_refl (SimListed.listing SimListed.card) Sim.nvPending)
    as (Hdiscover & Hvalidate & Hnv & Hruntime).
  split_and!; [apply Hdiscover | done..].
  repeat constructor; eexists; (split; [reflexivity|]); split_and!; by eexists.
Defined.

(** C6 fails as stated: on a device whose list of ports is empty, the
    validation, the NV apply and the runtime apply panic; and discovery
    panics on a listing that holds a device whose [Vendor] is nil. *)
Lemma operations_can_panic :
  ValidateDeviceNvSpec Sim.order Sim.plain () Sim.noPorts Sim.nvPending = Panic ∧
  ApplyDeviceNvSpec Sim.consts Sim.order Sim.plain () Sim.noPorts Sim.nvPending = Panic ∧
  ApplyDeviceRuntimeSpec Sim.plain Sim.noPorts Sim.nvPending = Panic ∧
  DiscoverListedDevices Sim.consts Sim.plain
    (SimListed.listing (SimListed.card ++ [SimListed.nilVendor])) Sim.nvPending = Panic.
Proof. split_and!; by vm_compute. Qed.

(** C7 fails on the code: the runtime check fails with an error and
    reports "not applied"; the runtime apply goes on to apply the
    settings and returns nil, not the error. *)
Lemma ApplyDeviceRuntimeSpec_drops_verification_error :
  RuntimeConfigApplied
    (configValidation_
       (Sim.manager Sim.card (false, Some (HostError "cannot read trust")) Sim.sized))
    Sim.onePort Sim.nvPending
  = ((false, Some (HostError "cannot read trust")), Sim.nvPending) ∧
  ApplyDeviceRuntimeSpec
    (Sim.manager Sim.card (false, Some (HostError "cannot read trust")) Sim.sized)
    Sim.onePort Sim.nvPending
  = Returned None Sim.nvPending
      [EvSetMaxReadRequestSize "0000:03:00.0" 4096 None;
       EvSetTrustAndPFC "eth0" "dscp" "0,0,0,1,0,0,0,0" None].
Proof. split; by vm_compute. Qed.

(** On the two-port device with a non-zero desired size, both ports get
    the size, port 0 first. *)
Lemma ApplyDeviceRuntimeSpec_max_read_request_size_witness :
  ∃ r s' evs,
    ApplyDeviceRuntimeSpec Sim.plain Sim.twoPorts Sim.nvPending = Returned r s' evs ∧
    (4096 = 0 → List.filter isSetMaxReadRequestSize evs = []) ∧
    (4096 ≠ 0 →
     ∃ e0 more,
       List.filter isSetMaxReadRequestSize evs
       = EvSetMaxReadRequestSize (PCI (Sim.port "0")) 4096 e0 :: more ∧
       (more = [] ∨
        ∃ port1 e1, Ports (Status Sim.twoPorts) = [Sim.port "0"; port1] ∧ e0 = None ∧
                    more = [EvSetMaxReadRequestSize (PCI port1) 4096 e1]) ∧
       (e0 = None → length (Ports (Status Sim.twoPorts)) = 2%nat → more ≠ [])).
Proof.
  apply (ApplyDeviceRuntimeSpec_max_read_request_size Sim.plain Sim.twoPorts
           (Sim.port "0") Sim.nvPending Sim.nvPending None 4096
           "dscp" "0,0,0,1,0,0,0,0");
    reflexivity.
Defined.

(** C8 fails as stated: the runtime config is not applied, the desired
    size is zero, and [SetMaxReadRequestSize] is not called on port 0. *)
Lemma ApplyDeviceRuntimeSpec_zero_size_counterexample :
  RuntimeConfigApplied
    (configValidation_ (Sim.manager Sim.card (false, None) Sim.unsized))
    Sim.onePort Sim.nvPending
  = ((false, None), Sim.nvPending) ∧
  ApplyDeviceRuntimeSpec (Sim.manager Sim.card (false, None) Sim.unsized)
    Sim.onePort Sim.nvPending
  = Returned None Sim.nvPending [EvSetTrustAndPFC "eth0" "dscp" "0,0,0,1,0,0,0,0" None].
Proof. split; by vm_compute. Qed.

(** On the host where the part and serial number of the second port
    cannot be read, discovery returns that error after the fetch, the
    device with the class code that does not parse having been skipped;
    on the host where the firmware version cannot be read, it returns
    that error at the first port. *)
Lemma DiscoverNicDevices_failure_policy_witness :
  DiscoverNicDevices Sim.consts (Sim.manager SimListed.noSerial (false, None) Sim.sized)
    Sim.nvPending
  = Returned (None, Some (HostError "vpd failed")) Sim.nvPending
      [EvGetPCIDevices None;
       EvIsSriovVF "0000:03:00.0" false;
       EvGetPartAndSerialNumber "0000:03:00.0" "MCX623106AC-CDA" "MT2116X09299" None;
       EvGetFirmwareVersionAndPSID "0000:03:00.0" "22.31.1014" "MT_0000000436" None;
       EvGetInterfaceName "0000:03:00.0" "eth-0000:03:00.0";
       EvGetRDMADeviceName "0000:03:00.0" "mlx5-0000:03:00.0";
       EvIsSriovVF "0000:03:00.1" false;
       EvGetPartAndSerialNumber "0000:03:00.1" "" "" (Some (HostError "vpd failed"))]
  ∧
  DiscoverNicDevices Sim.consts (Sim.manager SimListed.noFirmware (false, None) Sim.sized)
    Sim.nvPending
  = Returned (None, Some (HostError "flint failed")) Sim.nvPending
      [EvGetPCIDevices None;
       EvIsSriovVF "0000:03:00.0" false;
       EvGetPartAndSerialNumber "0000:03:00.0" "MCX623106AC-CDA" "MT2116X09299" None;
       EvGetFirmwareVersionAndPSID "0000:03:00.0" "" "" (Some (HostError "flint failed"))].
Proof.
  split.
  - destruct (DiscoverNicDevices_failure_policy Sim.consts
                (Sim.manager SimListed.noSerial (false, None) Sim.sized)
                Sim.nvPending Sim.nvPending (Sim.pciDevices Sim.card) eq_refl)
      as (_ & _ & Hfailure & _).
    edestruct (Hfailure
                 [Sim.pci "0000:03:00.0" "15b3" "02"; Sim.pci "0000:05:00.0" "15b3" "0x02"]
                 (Sim.pci "0000:03:00.1" "15b3" "02")
                 [Sim.pci "0000:00:1f.6" "8086" "02"]) as [Hserial _];
      [reflexivity | reflexivity | split; reflexivity | reflexivity |].
    exact (Hserial "" "" (HostError "vpd failed") Sim.nvPending eq_refl).
  - destruct (DiscoverNicDevices_failure_policy Sim.consts
                (Sim.manager SimListed.noFirmware (false, None) Sim.sized)
                Sim.nvPending Sim.nvPending (Sim.pciDevices Sim.card) eq_refl)
      as (_ & _ & Hfailure & _).
    edestruct (Hfailure [] (Sim.pci "0000:03:00.0" "15b3" "02")
                 [Sim.pci "0000:05:00.0" "15b3" "0x02";
                  Sim.pci "0000:03:00.1" "15b3" "02";
                  Sim.pci "0000:00:1f.6" "8086" "02"]) as [_ Hfirmware];
      [reflexivity | reflexivity | split; reflexivity | reflexivity |].
    exact (Hfirmware "MCX623106AC-CDA" "MT2116X09299" Sim.nvPending "" ""
             (HostError "flint failed") Sim.nvPending eq_refl eq_refl eq_refl).
Defined.

(** The entry of the two-port card. *)
Lemma DiscoverNicDevices_entries_witness :
  ∃ devices s' evs,
    DiscoverNicDevices Sim.consts Sim.plain Sim.nvPending
    = Returned (Some devices, None) s' evs ∧
    ∀ sn status,
      devices !! sn = Some status →
      SerialNumber status = sn ∧ Node status = "node-1" ∧ Ports status ≠ [] ∧
      PCI <$> Ports status = retainedAddresses sn evs.
Proof.
  do 3 eexists.
  refine ((λ Hrun, conj Hrun
             (DiscoverNicDevices_entries Sim.consts Sim.plain _ _ _ _ Hrun)) _).
  reflexivity.
Defined.

(* ===================================================================== *)
(** ** Further properties of the four operations *)
(* ===================================================================== *)

(** *** ValidateDeviceNvSpec: every path *)

(** The loop of the validation over a desired config, in terms of the
    maps alone. *)
Lemma validate_range_spec (order : RangeOrder) (site : Site) (nv : NvConfigQuery)
    (adv : bool) (name : string) (desired : gmap string string) :
  match range_pure (validateParameter nv adv name) (range_map order site desired)
          (false, false) with
  | inr e =>
      adv = true ∧
      ∃ p v, desired !! p = Some v ∧ CurrentConfig nv !! p = None
             ∧ e = unsupportedParameter p name
  | inl (u, r) =>
      (adv = true → ∀ p v, desired !! p = Some v → CurrentConfig nv !! p ≠ None) ∧
      (u = true ↔ ∃ p v, desired !! p = Some v ∧ NextBootConfig nv !! p ≠ Some v) ∧
      (r = true ↔ ∃ p v, desired !! p = Some v ∧
                         (NextBootConfig nv !! p ≠ Some v ∨ CurrentConfig nv !! p ≠ Some v))
  end.
Proof.
  pose proof (validate_loop_spec nv adv name (range_map order site desired) false false)
    as Hloop.
  destruct (range_pure _ _ _) as [[u r]|e].
  - destruct Hloop as (Hall & Hu & Hr). split_and!.
    + intros Hadv p v Hp. apply (Hall Hadv p v). by apply elem_of_range_map.
    + rewrite Hu. split.
      * intros [?|(p & v & Hp%elem_of_range_map & ?)]; [done|eauto].
      * intros (p & v & Hp%(elem_of_range_map order site) & ?). right. eauto.
    + rewrite Hr. split.
      * intros [?|(p & v & Hp%elem_of_range_map & ?)]; [done|eauto].
      * intros (p & v & Hp%(elem_of_range_map order site) & ?). right. eauto.
  - destruct Hloop as (Hadv & p & v & Hp%elem_of_range_map & Hcur & ->). eauto 6.
Qed.

Section ValidatePaths.
Context {St Ctx Template : Type}.
Variables (h : hostManager St Ctx Template) (ctx : Ctx).
Variables (device : NicDevice Template) (port0 : NicDevicePortSpec).

Hypothesis Hport : Ports (Status device) !! 0%nat = Some port0.

Lemma ValidateDeviceNvSpec_query_failure (order : RangeOrder) (s s1 : St)
    (nvConfig : NvConfigQuery) (e : error) :
  QueryNvConfig (hostUtils h) ctx (PCI port0) s = ((nvConfig, Some e), s1) →
  ValidateDeviceNvSpec order h ctx device s
  = Returned (false, false, Some e) s1 [EvQueryNvConfig (PCI port0) (Some e)].
Proof. intros Hquery. unfold ValidateDeviceNvSpec. run_monad. by rewrite Hquery. Qed.

Lemma ValidateDeviceNvSpec_delegates_reset (order : RangeOrder) (s s1 : St)
    (nvConfig : NvConfigQuery) :
  QueryNvConfig (hostUtils h) ctx (PCI port0) s = ((nvConfig, None), s1) →
  ResetToDefault (Configuration device) = true →
  ValidateDeviceNvSpec order h ctx device s
  = Returned (ValidateResetToDefault (configValidation_ h) nvConfig) s1
      [EvQueryNvConfig (PCI port0) None].
Proof.
  intros Hquery Hreset. unfold ValidateDeviceNvSpec. run_monad.
  rewrite Hquery. simpl. by rewrite Hreset.
Qed.

Lemma ValidateDeviceNvSpec_construct_failure (order : RangeOrder) (s s1 : St)
    (nvConfig : NvConfigQuery) (desiredConfig : gmap string string) (e : error) :
  QueryNvConfig (hostUtils h) ctx (PCI port0) s = ((nvConfig, None), s1) →
  ResetToDefault (Configuration device) = false →
  ConstructNvParamMapFromTemplate (configValidation_ h) device (DefaultConfig nvConfig)
  = (desiredConfig, Some e) →
  ValidateDeviceNvSpec order h ctx device s
  = Returned (false, false, Some e) s1 [EvQueryNvConfig (PCI port0) None].
Proof.
  intros Hquery Hreset Hdesired. unfold ValidateDeviceNvSpec. run_monad.
  rewrite Hquery. simpl. by rewrite Hreset, Hdesired.
Qed.

(** X1: the validation is read-only.  On every path its one host call is
    the query of the NV config at the first port's address; when the
    query fails, its error is returned with both flags false. *)
Theorem ValidateDeviceNvSpec_read_only (order : RangeOrder) (s : St) :
  ∃ result,
    ValidateDeviceNvSpec order h ctx device s
    = Returned result (QueryNvConfig (hostUtils h) ctx (PCI port0) s).2
        [EvQueryNvConfig (PCI port0) (QueryNvConfig (hostUtils h) ctx (PCI port0) s).1.2]
    ∧ ∀ e, (QueryNvConfig (hostUtils h) ctx (PCI port0) s).1.2 = Some e →
           result = (false, false, Some e).
Proof.
  destruct (QueryNvConfig (hostUtils h) ctx (PCI port0) s) as [[nv [e|]] s1] eqn:Hquery.
  { rewrite (ValidateDeviceNvSpec_query_failure order s s1 nv e Hquery).
    eexists. split; [done|]. by intros ? [= <-]. }
  destruct (ResetToDefault (Configuration device)) eqn:Hreset.
  { rewrite (ValidateDeviceNvSpec_delegates_reset order s s1 nv Hquery Hreset).
    eexists. split; [done|]. done. }
  destruct (ConstructNvParamMapFromTemplate (configValidation_ h) device (DefaultConfig nv))
    as [desired [e|]] eqn:Hdesired.
  { rewrite (ValidateDeviceNvSpec_construct_failure order s s1 nv desired e
               Hquery Hreset Hdesired).
    eexists. split; [done|]. done. }
  rewrite (ValidateDeviceNvSpec_compare order h ctx device port0 s s1 nv desired
             Hport Hquery Hreset Hdesired).
  eexists. split; [done|]. done.
Qed.

(** X2: without reset-to-default, the validation never asks for an update
    without asking for a reboot, and never raises a flag together with an
    error. *)
Theorem ValidateDeviceNvSpec_flags (order : RangeOrder) (s : St) :
  ResetToDefault (Configuration device) = false →
  ∃ u r err s' evs,
    ValidateDeviceNvSpec order h ctx device s = Returned (u, r, err) s' evs ∧
    (u = true → r = true) ∧
    (err ≠ None → u = false ∧ r = false).
Proof.
  intros Hreset.
  destruct (QueryNvConfig (hostUtils h) ctx (PCI port0) s) as [[nv [e|]] s1] eqn:Hquery.
  { rewrite (ValidateDeviceNvSpec_query_failure order s s1 nv e Hquery).
    do 5 eexists. split; [done|]. done. }
  destruct (ConstructNvParamMapFromTemplate (configValidation_ h) device (DefaultConfig nv))
    as [desired [e|]] eqn:Hdesired.
  { rewrite (ValidateDeviceNvSpec_construct_failure order s s1 nv desired e
               Hquery Hreset Hdesired).
    do 5 eexists. split; [done|]. done. }
  rewrite (ValidateDeviceNvSpec_compare order h ctx device port0 s s1 nv desired
             Hport Hquery Hreset Hdesired).
  pose proof (validate_range_spec order RangeValidate nv
    (AdvancedPCISettingsEnabled (configValidation_ h) (CurrentConfig nv))
    (Name device) desired) as Hloop.
  destruct (range_pure _ _ _) as [[u r]|e]; do 5 eexists; (split; [done|]); [|done].
  destruct Hloop as (_ & Hu & Hr). split; [|done].
  intros (p & v & ? & ?)%Hu. apply Hr. eauto 6.
Qed.

(** X5: the order in which Go ranges over the desired config does not
    change the flags, the host state or the host calls of the validation;
    it can only change which unsupported parameter a spec error names. *)
Theorem ValidateDeviceNvSpec_order_independent (order1 order2 : RangeOrder) (s : St) :
  ∃ u r s' evs err1 err2,
    ValidateDeviceNvSpec order1 h ctx device s = Returned (u, r, err1) s' evs ∧
    ValidateDeviceNvSpec order2 h ctx device s = Returned (u, r, err2) s' evs ∧
    (err1 = err2 ∨
     ∃ p1 p2, err1 = Some (unsupportedParameter p1 (Name device)) ∧
              err2 = Some (unsupportedParameter p2 (Name device))).
Proof.
  destruct (QueryNvConfig (hostUtils h) ctx (PCI port0) s) as [[nv [e|]] s1] eqn:Hquery.
  { rewrite !(ValidateDeviceNvSpec_query_failure _ s s1 nv e Hquery).
    do 6 eexists. split_and!; [done..|by left]. }
  destruct (ResetToDefault (Configuration device)) eqn:Hreset.
  { rewrite !(ValidateDeviceNvSpec_delegates_reset _ s s1 nv Hquery Hreset).
    destruct (ValidateResetToDefault _ nv) as [[u r] err].
    do 6 eexists. split_and!; [done..|by left]. }
  destruct (ConstructNvParamMapFromTemplate (configValidation_ h) device (DefaultConfig nv))
    as [desired [e|]] eqn:Hdesired.
  { rewrite !(ValidateDeviceNvSpec_construct_failure _ s s1 nv desired e
                Hquery Hreset Hdesired).
    do 6 eexists. split_and!; [done..|by left]. }
  rewrite !(ValidateDeviceNvSpec_compare _ h ctx device port0 s s1 nv desired
              Hport Hquery Hreset Hdesired).
  pose proof (validate_range_spec order1 RangeValidate nv
    (AdvancedPCISettingsEnabled (configValidation_ h) (CurrentConfig nv))
    (Name device) desired) as Hloop1.
  pose proof (validate_range_spec order2 RangeValidate nv
    (AdvancedPCISettingsEnabled (configValidation_ h) (CurrentConfig nv))
    (Name device) desired) as Hloop2.
  destruct (range_pure _ (range_map order1 _ _) _) as [[u1 r1]|e1];
    destruct (range_pure _ (range_map order2 _ _) _) as [[u2 r2]|e2].
  - destruct Hloop1 as (_ & Hu1 & Hr1), Hloop2 as (_ & Hu2 & Hr2).
    assert (u1 = u2) as -> by (apply eq_true_iff_eq; by rewrite Hu1, Hu2).
    assert (r1 = r2) as -> by (apply eq_true_iff_eq; by rewrite Hr1, Hr2).
    do 6 eexists. split_and!; [done..|by left].
  - destruct Hloop1 as (Hall & _), Hloop2 as (Hadv & p & v & Hp & Hcur & _).
    by destruct (Hall Hadv p v Hp).
  - destruct Hloop2 as (Hall & _), Hloop1 as (Hadv & p & v & Hp & Hcur & _).
    by destruct (Hall Hadv p v Hp).
  - destruct Hloop1 as (_ & p1 & _ & _ & _ & ->), Hloop2 as (_ & p2 & _ & _ & _ & ->).
    do 6 eexists. split_and!; [done..|right; eauto].
Qed.

End ValidatePaths.

Section ValidateCompare.
Context {St Ctx Template : Type}.
Variables (order : RangeOrder) (h : hostManager St Ctx Template) (ctx : Ctx).
Variables (device : NicDevice Template) (port0 : NicDevicePortSpec).
Variables (s s1 : St) (nvConfig : NvConfigQuery) (desiredConfig : gmap string string).

Hypothesis Hport : Ports (Status device) !! 0%nat = Some port0.
Hypothesis Hquery :
  QueryNvConfig (hostUtils h) ctx (PCI port0) s = ((nvConfig, None), s1).
Hypothesis Hreset : ResetToDefault (Configuration device) = false.
Hypothesis Hdesired :
  ConstructNvParamMapFromTemplate (configValidation_ h) device (DefaultConfig nvConfig)
  = (desiredConfig, None).

Let gateOn := AdvancedPCISettingsEnabled (configValidation_ h) (CurrentConfig nvConfig).

(** X3: on the comparison path the validation returns [(false, true)]
    and no error (a staged change waits for a reboot) if and only if
    every desired parameter has its desired value in the next-boot
    config, some desired parameter does not have it in the current
    config, and, when the gate is on, the current config knows every
    desired parameter. *)
Theorem ValidateDeviceNvSpec_pending_iff :
  ∃ u r err,
    ValidateDeviceNvSpec order h ctx device s
    = Returned (u, r, err) s1 [EvQueryNvConfig (PCI port0) None]
    ∧ ((u, r, err) = (false, true, None) ↔
       (∀ p v, desiredConfig !! p = Some v → NextBootConfig nvConfig !! p = Some v) ∧
       (∃ p v, desiredConfig !! p = Some v ∧ CurrentConfig nvConfig !! p ≠ Some v) ∧
       (AdvancedPCISettingsEnabled (configValidation_ h) (CurrentConfig nvConfig) = true →
        ∀ p v, desiredConfig !! p = Some v → CurrentConfig nvConfig !! p ≠ None)).
Proof.
  rewrite (ValidateDeviceNvSpec_compare order h ctx device port0 s s1 nvConfig
             desiredConfig Hport Hquery Hreset Hdesired).
  pose proof (validate_range_spec order RangeValidate nvConfig gateOn
                (Name device) desiredConfig) as Hloop.
  fold gateOn. destruct (range_pure _ _ _) as [[u r]|e]; do 3 eexists; (split; [done|]).
  - destruct Hloop as (Hall & Hu & Hr). split.
    + intros [= -> ->]. split_and!; [| |done].
      * intros p v Hp. destruct (decide (NextBootConfig nvConfig !! p = Some v)); [done|].
        assert (false = true); [|done]. apply Hu. eauto.
      * destruct Hr as [Hr _]. destruct (Hr eq_refl) as (p & v & Hp & [Hn|Hc]); [|eauto].
        assert (false = true); [|done]. apply Hu. eauto.
    + intros (Hnext & (p & v & Hp & Hc) & _).
      assert (u = false) as ->.
      { destruct u; [|done]. destruct Hu as [Hu _].
        destruct (Hu eq_refl) as (q & w & Hq & Hn). by destruct (Hn (Hnext q w Hq)). }
      assert (r = true) as -> by (apply Hr; eauto 6). done.
  - destruct Hloop as (Hadv & p & v & Hp & Hcur & _). split; [done|].
    intros (_ & _ & Hall). by destruct (Hall Hadv p v Hp).
Qed.

(** X4: on the comparison path the validation returns an error if and
    only if the gate is on and the current config lacks a desired
    parameter; the error is then the spec error that names such a
    parameter and the device. *)
Theorem ValidateDeviceNvSpec_spec_error_iff :
  ∃ u r err,
    ValidateDeviceNvSpec order h ctx device s
    = Returned (u, r, err) s1 [EvQueryNvConfig (PCI port0) None]
    ∧ (err ≠ None ↔
       AdvancedPCISettingsEnabled (configValidation_ h) (CurrentConfig nvConfig) = true ∧
       ∃ p v, desiredConfig !! p = Some v ∧ CurrentConfig nvConfig !! p = None)
    ∧ (∀ e, err = Some e →
            ∃ p v, desiredConfig !! p = Some v ∧ CurrentConfig nvConfig !! p = None ∧
                   e = unsupportedParameter p (Name device)).
Proof.
  rewrite (ValidateDeviceNvSpec_compare order h ctx device port0 s s1 nvConfig
             desiredConfig Hport Hquery Hreset Hdesired).
  pose proof (validate_range_spec order RangeValidate nvConfig gateOn
                (Name device) desiredConfig) as Hloop.
  fold gateOn. destruct (range_pure _ _ _) as [[u r]|e]; do 3 eexists; (split; [done|]).
  - destruct Hloop as (Hall & _). split; [|done]. split; [done|].
    intros (Hadv & p & v & Hp & Hcur). by destruct (Hall Hadv p v Hp).
  - destruct Hloop as (Hadv & p & v & Hp & Hcur & ->). split.
    + split; [|done]. intros _. eauto.
    + intros ? [= <-]. eauto.
Qed.

End ValidateCompare.

(** *** ApplyDeviceNvSpec: every path *)

Lemma allSucceeded_app (evs1 evs2 : list Event) :
  allSucceeded evs1 → allSucceeded evs2 → allSucceeded (evs1 ++ evs2).
Proof. unfold allSucceeded. intros. by apply Forall_app. Qed.

Lemma failedLast_app (evs1 evs2 : list Event) (e : error) :
  allSucceeded evs1 → failedLast evs2 e → failedLast (evs1 ++ evs2) e.
Proof.
  intros Hok (before & ev & -> & Hbefore & Hev).
  exists (evs1 ++ before), ev. rewrite app_assoc.
  split_and!; [done | by apply allSucceeded_app | done].
Qed.

Lemma allSucceeded_writeEvents (pciAddr : string) (writes : list (string * string)) :
  allSucceeded (writeEvents pciAddr writes).
Proof.
  unfold allSucceeded, writeEvents. apply Forall_fmap, Forall_forall. by intros.
Qed.

Lemma writtenParameters_app (evs1 evs2 : list Event) :
  writtenParameters (evs1 ++ evs2) = writtenParameters evs1 ++ writtenParameters evs2.
Proof. apply omap_app. Qed.

Lemma writtenParameters_writeEvents (pciAddr : string) (writes : list (string * string)) :
  writtenParameters (writeEvents pciAddr writes)
  = (λ entry, (pciAddr, entry.1, entry.2)) <$> writes.
Proof.
  unfold writtenParameters, writeEvents.
  induction writes as [|[p v] writes IH]; csimpl; [done|]. by rewrite IH.
Qed.

(** A missing parameter ends the collection with the spec error that
    names a missing parameter. *)
Lemma collect_loop_error_names (nv : NvConfigQuery) (name : string)
    (l : list (string * string)) (acc : gmap string string) (p v : string) :
  (p, v) ∈ l → NextBootConfig nv !! p = None →
  ∃ q w, (q, w) ∈ l ∧ NextBootConfig nv !! q = None ∧
         range_pure (collectParameter nv name) l acc
         = inr (unsupportedParameter q name).
Proof.
  revert acc. induction l as [|[q w] l IH]; intros acc Hin Hnone.
  - by apply elem_of_nil in Hin.
  - cbn [range_pure]. rewrite collectParameter_spec.
    destruct (NextBootConfig nv !! q) as [n|] eqn:Hq.
    + apply elem_of_cons in Hin as [Heq|Hin]; [simplify_eq|].
      destruct (IH (if decide (n = w) then acc else <[q := w]> acc) Hin Hnone)
        as (q' & w' & Hin' & Hnone' & Hrun).
      exists q', w'. split_and!; [by right | done |]. by case_decide.
    + exists q, w. split_and!; [left | done | done].
Qed.

Section ApplyPaths.
Context {St Ctx Template : Type}.
Variables (consts : Consts) (order : RangeOrder) (h : hostManager St Ctx Template).
Variables (ctx : Ctx) (device : NicDevice Template) (port0 : NicDevicePortSpec).

Hypothesis Hport : Ports (Status device) !! 0%nat = Some port0.

(** The write loop on any list of writes: either every write succeeds,
    or the loop stops at the first write that fails, with the writes
    before it issued and none after it. *)
Lemma apply_loop_spec (pciAddr : string) (writes : list (string * string)) (s : St) :
  (writesSucceed (hostUtils h) pciAddr writes s ∧
   range_loop (applyParameter h pciAddr) writes () s
   = Returned (inl ()) (afterWrites (hostUtils h) pciAddr writes s)
       (writeEvents pciAddr writes))
  ∨
  (∃ done p v rest e s',
     writes = done ++ (p, v) :: rest ∧
     writesSucceed (hostUtils h) pciAddr done s ∧
     SetNvConfigParameter (hostUtils h) pciAddr p v
       (afterWrites (hostUtils h) pciAddr done s) = (Some e, s') ∧
     range_loop (applyParameter h pciAddr) writes () s
     = Returned (inr e) s'
         (writeEvents pciAddr done ++ [EvSetNvConfigParameter pciAddr p v (Some e)])).
Proof.
  revert s. induction writes as [|[p v] writes IH]; intros s; [by left|].
  cbn [range_loop]. rewrite run_bind, run_applyParameter.
  destruct (SetNvConfigParameter (hostUtils h) pciAddr p v s) as [[e|] s1] eqn:Hset;
    cbn [fst snd].
  - right. exists [], p, v, writes, e, s1. by rewrite run_ret.
  - destruct (IH s1) as [[Hok ->]|(done & q & w & rest & e & s' & -> & Hok & Hfail & ->)].
    + left. split; [|by cbn [afterWrites]; rewrite Hset].
      cbn [writesSucceed]. by rewrite Hset.
    + right. exists ((p, v) :: done), q, w, rest, e, s'.
      cbn [writesSucceed afterWrites]. rewrite Hset. by split_and!.
Qed.

(** The query with its bootstrap on any host: it returns a config only
    after calls that all succeeded, and an error only as the error of its
    last call. *)
Lemma queryNvConfigWithBootstrap_spec (s : St) :
  ∃ r s' evs,
    queryNvConfigWithBootstrap consts h ctx device (PCI port0) s = Returned r s' evs ∧
    match r with
    | inl _ => allSucceeded evs
    | inr e => failedLast evs e
    end.
Proof.
  unfold queryNvConfigWithBootstrap. run_monad.
  destruct (QueryNvConfig (hostUtils h) ctx (PCI port0) s) as [[nv [e|]] s1]; run_monad.
  { do 3 eexists. split; [done|]. exists [], (EvQueryNvConfig (PCI port0) (Some e)).
    by split_and!; [|constructor|]. }
  destruct (negb _); run_monad; [|do 3 eexists; split; [done|by repeat constructor]].
  destruct (SetNvConfigParameter (hostUtils h) _ _ _ s1) as [[e|] s2]; run_monad.
  { do 3 eexists. split; [done|].
    exists [EvQueryNvConfig (PCI port0) None],
      (EvSetNvConfigParameter (PCI port0) (AdvancedPCISettingsParam consts)
         (NvParamTrue consts) (Some e)).
    by split_and!; [|repeat constructor|]. }
  destruct (ResetNicFirmware (hostUtils h) ctx _ s2) as [[e|] s3]; run_monad.
  { do 3 eexists. split; [done|].
    exists [EvQueryNvConfig (PCI port0) None;
            EvSetNvConfigParameter (PCI port0) (AdvancedPCISettingsParam consts)
              (NvParamTrue consts) None],
      (EvResetNicFirmware (PCI port0) (Some e)).
    by split_and!; [|repeat constructor|]. }
  destruct (QueryNvConfig (hostUtils h) ctx (PCI port0) s3) as [[nv' [e|]] s4]; run_monad.
  { do 3 eexists. split; [done|].
    exists [EvQueryNvConfig (PCI port0) None;
            EvSetNvConfigParameter (PCI port0) (AdvancedPCISettingsParam consts)
              (NvParamTrue consts) None;
            EvResetNicFirmware (PCI port0) None],
      (EvQueryNvConfig (PCI port0) (Some e)).
    by split_and!; [|repeat constructor|]. }
  do 3 eexists. split; [done|]. by repeat constructor.
Qed.

(** The apply when the query or its bootstrap fails, and when the desired
    config cannot be built. *)
Lemma ApplyDeviceNvSpec_query_failure (s s1 : St) (evs1 : list Event) (e : error) :
  ResetToDefault (Configuration device) = false →
  queryNvConfigWithBootstrap consts h ctx device (PCI port0) s
  = Returned (inr e) s1 evs1 →
  ApplyDeviceNvSpec consts order h ctx device s = Returned (false, Some e) s1 evs1.
Proof.
  intros Hreset Hquery. unfold ApplyDeviceNvSpec. run_monad.
  rewrite Hreset, Hquery. run_monad. by rewrite app_nil_r.
Qed.

Lemma ApplyDeviceNvSpec_construct_failure (s s1 : St) (evs1 : list Event)
    (nvConfig : NvConfigQuery) (desiredConfig : gmap string string) (e : error) :
  ResetToDefault (Configuration device) = false →
  queryNvConfigWithBootstrap consts h ctx device (PCI port0) s
  = Returned (inl nvConfig) s1 evs1 →
  ConstructNvParamMapFromTemplate (configValidation_ h) device (DefaultConfig nvConfig)
  = (desiredConfig, Some e) →
  ApplyDeviceNvSpec consts order h ctx device s = Returned (false, Some e) s1 evs1.
Proof.
  intros Hreset Hquery Hdesired. unfold ApplyDeviceNvSpec. run_monad.
  rewrite Hreset, Hquery. run_monad. rewrite Hdesired. run_monad. by rewrite app_nil_r.
Qed.

(** What every run of the apply has in common. *)
Lemma ApplyDeviceNvSpec_outcome (s : St) :
  ∃ rebootNeeded err s' evs,
    ApplyDeviceNvSpec consts order h ctx device s = Returned (rebootNeeded, err) s' evs ∧
    (rebootNeeded = true ↔ err = None) ∧
    (allSucceeded evs ∨ ∃ e, failedLast evs e ∧ (rebootNeeded, err) = (false, Some e)).
Proof.
  destruct (ResetToDefault (Configuration device)) eqn:Hreset.
  { unfold ApplyDeviceNvSpec. run_monad. rewrite Hreset, run_resetToDefault. cbv zeta.
    destruct (ResetNvConfig (hostUtils h) (PCI port0) s) as [[e|] s1]; cbn [fst snd].
    { do 4 eexists. split; [done|]. split; [done|]. right. exists e. split; [|done].
      exists [], (EvResetNvConfig (PCI port0) (Some e)). by split_and!; [|constructor|]. }
    destruct (SetNvConfigParameter (hostUtils h) (PCI port0) _ _ s1) as [[e|] s2];
      cbn [fst snd].
    - do 4 eexists. split; [done|]. split; [done|]. right. exists e. split; [|done].
      exists [EvResetNvConfig (PCI port0) None],
        (EvSetNvConfigParameter (PCI port0) (AdvancedPCISettingsParam consts)
           (NvParamTrue consts) (Some e)).
      by split_and!; [|repeat constructor|].
    - do 4 eexists. split; [done|]. split; [done|]. left. by repeat constructor. }
  destruct (queryNvConfigWithBootstrap_spec s) as ([nv|e] & s1 & evs1 & Hquery & Hevs1);
    cycle 1.
  { rewrite (ApplyDeviceNvSpec_query_failure s s1 evs1 e Hreset Hquery).
    do 4 eexists. split; [done|]. split; [done|]. right. eauto. }
  destruct (ConstructNvParamMapFromTemplate (configValidation_ h) device (DefaultConfig nv))
    as [desired [e|]] eqn:Hdesired.
  { rewrite (ApplyDeviceNvSpec_construct_failure s s1 evs1 nv desired e
               Hreset Hquery Hdesired).
    do 4 eexists. split; [done|]. split; [done|]. by left. }
  rewrite (ApplyDeviceNvSpec_diff_and_write consts order h ctx device port0 Hport
             s s1 evs1 nv desired Hreset Hquery Hdesired).
  destruct (range_pure _ _ _) as [params|e].
  - destruct (apply_loop_spec (PCI port0) (range_map order RangeApply params) s1)
      as [[_ ->]|(done & p & v & rest & e & s' & _ & _ & _ & ->)].
    + do 4 eexists. split; [done|]. split; [done|]. left.
      apply allSucceeded_app; [done|apply allSucceeded_writeEvents].
    + do 4 eexists. split; [done|]. split; [done|]. right. exists e. split; [|done].
      apply failedLast_app; [done|]. eexists _, _.
      split_and!; [done | apply allSucceeded_writeEvents | done].
  - do 4 eexists. split; [done|]. split; [done|]. by left.
Qed.

(** X6: the apply reports a reboot exactly when it returns no error. *)
Theorem ApplyDeviceNvSpec_reboot_iff_no_error (s : St) :
  ∃ rebootNeeded err s' evs,
    ApplyDeviceNvSpec consts order h ctx device s = Returned (rebootNeeded, err) s' evs ∧
    (rebootNeeded = true ↔ err = None).
Proof.
  destruct (ApplyDeviceNvSpec_outcome s) as (rb & err & s' & evs & Hrun & Hiff & _).
  by exists rb, err, s', evs.
Qed.

(** X7: the apply makes no host call after a host call that failed, and
    returns the error of that call: either all its host calls succeeded,
    or the last one failed and its error is returned with no reboot
    asked. *)
Theorem ApplyDeviceNvSpec_stops_at_failure (s : St) :
  ∃ rebootNeeded err s' evs,
    ApplyDeviceNvSpec consts order h ctx device s = Returned (rebootNeeded, err) s' evs ∧
    (allSucceeded evs ∨ ∃ e, failedLast evs e ∧ (rebootNeeded, err) = (false, Some e)).
Proof.
  destruct (ApplyDeviceNvSpec_outcome s) as (rb & err & s' & evs & Hrun & _ & Hevs).
  by exists rb, err, s', evs.
Qed.

End ApplyPaths.

(** A collection that ends with a write set has met only parameters that
    the next-boot config knows. *)
Lemma collect_loop_known (nv : NvConfigQuery) (name : string)
    (l : list (string * string)) (acc m : gmap string string) :
  range_pure (collectParameter nv name) l acc = inl m →
  ∀ p v, (p, v) ∈ l → is_Some (NextBootConfig nv !! p).
Proof.
  intros Hrun p v Hin. destruct (NextBootConfig nv !! p) as [n|] eqn:Hn; [by eexists|].
  destruct (collect_loop_error nv name l acc p v Hin Hn) as (e & Herr & _).
  congruence.
Qed.

(** Once the write set of a config is staged, the write set is empty. *)
Lemma writeSet_staged (nv : NvConfigQuery) (desired : gmap string string) :
  writeSet (staged (writeSet nv desired) nv) desired = ∅.
Proof.
  apply writeSet_empty. intros p v Hp. cbn [staged NextBootConfig].
  destruct (decide (NextBootConfig nv !! p = Some v)) as [Hsame|Hdiff].
  - rewrite lookup_union_r; [done|]. unfold writeSet.
    apply map_lookup_filter_None. right. intros w Hw. simpl. intros Hne.
    rewrite Hp in Hw. injection Hw as <-. done.
  - apply lookup_union_Some_l. unfold writeSet. by apply map_lookup_filter_Some.
Qed.

Section ApplyReached.
Context {St Ctx Template : Type}.
Variables (consts : Consts) (order : RangeOrder) (h : hostManager St Ctx Template).
Variables (ctx : Ctx) (device : NicDevice Template) (port0 : NicDevicePortSpec).

Hypothesis Hport : Ports (Status device) !! 0%nat = Some port0.
Hypothesis Hreset : ResetToDefault (Configuration device) = false.

(** The write loop that meets a failing write after writes that succeed. *)
Lemma apply_loop_failure (pciAddr : string) (done rest : list (string * string))
    (p v : string) (e : error) (s s' : St) :
  writesSucceed (hostUtils h) pciAddr done s →
  SetNvConfigParameter (hostUtils h) pciAddr p v
    (afterWrites (hostUtils h) pciAddr done s) = (Some e, s') →
  range_loop (applyParameter h pciAddr) (done ++ (p, v) :: rest) () s
  = Returned (inr e) s'
      (writeEvents pciAddr done ++ [EvSetNvConfigParameter pciAddr p v (Some e)]).
Proof.
  revert s. induction done as [|[q w] done IH]; intros s Hok Hfail.
  - cbn [app range_loop afterWrites] in *.
    by rewrite run_bind, run_applyParameter, Hfail.
  - destruct Hok as [Hq Hok]. cbn [app range_loop afterWrites] in *.
    by rewrite run_bind, run_applyParameter, Hq, (IH _ Hok Hfail).
Qed.

(** The bootstrap when every call of it succeeds: query, gate on,
    firmware reset, query again. *)
Lemma run_query_bootstrap (s s1 s2 s3 s4 : St) (nv1 nv2 : NvConfigQuery) :
  QueryNvConfig (hostUtils h) ctx (PCI port0) s = ((nv1, None), s1) →
  AdvancedPCISettingsEnabled (configValidation_ h) (CurrentConfig nv1) = false →
  SetNvConfigParameter (hostUtils h) (PCI port0)
    (AdvancedPCISettingsParam consts) (NvParamTrue consts) s1 = (None, s2) →
  ResetNicFirmware (hostUtils h) ctx (PCI port0) s2 = (None, s3) →
  QueryNvConfig (hostUtils h) ctx (PCI port0) s3 = ((nv2, None), s4) →
  queryNvConfigWithBootstrap consts h ctx device (PCI port0) s
  = Returned (inl nv2) s4
      [EvQueryNvConfig (PCI port0) None;
       EvSetNvConfigParameter (PCI port0)
         (AdvancedPCISettingsParam consts) (NvParamTrue consts) None;
       EvResetNicFirmware (PCI port0) None;
       EvQueryNvConfig (PCI port0) None].
Proof.
  intros Hq1 Hgate Hset Hfw Hq2. unfold queryNvConfigWithBootstrap. run_monad.
  rewrite Hq1. run_monad. rewrite Hgate. run_monad. rewrite Hset. run_monad.
  rewrite Hfw. run_monad. by rewrite Hq2.
Qed.

(** X8: with the gate off in the current config, the apply turns the gate
    on, resets the firmware and queries again, and it is against this
    second config that it builds the desired config and computes its
    writes; when all of this succeeds it returns [(true, nil)]. *)
Theorem ApplyDeviceNvSpec_bootstrap (s s1 s2 s3 s4 : St) (nv1 nv2 : NvConfigQuery)
    (desiredConfig : gmap string string) :
  QueryNvConfig (hostUtils h) ctx (PCI port0) s = ((nv1, None), s1) →
  AdvancedPCISettingsEnabled (configValidation_ h) (CurrentConfig nv1) = false →
  SetNvConfigParameter (hostUtils h) (PCI port0)
    (AdvancedPCISettingsParam consts) (NvParamTrue consts) s1 = (None, s2) →
  ResetNicFirmware (hostUtils h) ctx (PCI port0) s2 = (None, s3) →
  QueryNvConfig (hostUtils h) ctx (PCI port0) s3 = ((nv2, None), s4) →
  ConstructNvParamMapFromTemplate (configValidation_ h) device (DefaultConfig nv2)
  = (desiredConfig, None) →
  (∀ p, is_Some (desiredConfig !! p) → is_Some (NextBootConfig nv2 !! p)) →
  let writes := range_map order RangeApply (writeSet nv2 desiredConfig) in
  writesSucceed (hostUtils h) (PCI port0) writes s4 →
  ApplyDeviceNvSpec consts order h ctx device s
  = Returned (true, None) (afterWrites (hostUtils h) (PCI port0) writes s4)
      ([EvQueryNvConfig (PCI port0) None;
        EvSetNvConfigParameter (PCI port0)
          (AdvancedPCISettingsParam consts) (NvParamTrue consts) None;
        EvResetNicFirmware (PCI port0) None;
        EvQueryNvConfig (PCI port0) None]
       ++ writeEvents (PCI port0) writes).
Proof.
  intros Hq1 Hgate Hset Hfw Hq2 Hdesired Hknown writes Hwrites.
  rewrite (ApplyDeviceNvSpec_diff_and_write consts order h ctx device port0 Hport
             s s4 _ nv2 desiredConfig Hreset
             (run_query_bootstrap s s1 s2 s3 s4 nv1 nv2 Hq1 Hgate Hset Hfw Hq2) Hdesired).
  rewrite (collect_desired order RangeDesired nv2 (Name device) desiredConfig Hknown).
  fold writes. by rewrite (apply_loop_ok h (PCI port0) writes s4 Hwrites).
Qed.

(** X12: the apply is idempotent against a host that stages what it is
    told.  When the host reports a config in which the write set of an
    earlier apply is staged for the next boot, the gate being on, the
    apply makes no write: it returns [(true, nil)] after the query
    alone. *)
Theorem ApplyDeviceNvSpec_after_staging (s s1 : St) (nvConfig : NvConfigQuery)
    (desiredConfig : gmap string string) :
  QueryNvConfig (hostUtils h) ctx (PCI port0) s
  = ((staged (writeSet nvConfig desiredConfig) nvConfig, None), s1) →
  AdvancedPCISettingsEnabled (configValidation_ h) (CurrentConfig nvConfig) = true →
  ConstructNvParamMapFromTemplate (configValidation_ h) device (DefaultConfig nvConfig)
  = (desiredConfig, None) →
  (∀ p, is_Some (desiredConfig !! p) → is_Some (NextBootConfig nvConfig !! p)) →
  ApplyDeviceNvSpec consts order h ctx device s
  = Returned (true, None) s1 [EvQueryNvConfig (PCI port0) None].
Proof.
  intros Hquery Hgate Hdesired Hknown.
  rewrite (ApplyDeviceNvSpec_diff_and_write consts order h ctx device port0 Hport
             s s1 _ (staged (writeSet nvConfig desiredConfig) nvConfig) desiredConfig
             Hreset (run_query_gate_on consts h ctx device port0 Hport s s1 _
                       Hquery Hgate) Hdesired).
  rewrite (collect_desired order RangeDesired _ (Name device) desiredConfig).
  - by rewrite writeSet_staged, range_map_empty.
  - intros p Hp. cbn [staged NextBootConfig]. apply lookup_union_is_Some. right.
    by apply Hknown.
Qed.

Variables (s s1 : St) (evs1 : list Event).
Variables (nvConfig : NvConfigQuery) (desiredConfig : gmap string string).

Hypothesis Hquery :
  queryNvConfigWithBootstrap consts h ctx device (PCI port0) s
  = Returned (inl nvConfig) s1 evs1.
Hypothesis Hdesired :
  ConstructNvParamMapFromTemplate (configValidation_ h) device (DefaultConfig nvConfig)
  = (desiredConfig, None).

(** X9: once the apply has the NV config and the desired config, every
    further host call is a parameter write to the first port's address,
    of a desired parameter with its desired value whose next-boot value
    differs, and no parameter is written twice. *)
Theorem ApplyDeviceNvSpec_writes_within_write_set :
  ∃ rebootNeeded err s' evsW,
    ApplyDeviceNvSpec consts order h ctx device s
    = Returned (rebootNeeded, err) s' (evs1 ++ evsW) ∧
    Forall (λ ev, isSetNvConfigParameter ev = true) evsW ∧
    (∀ addr p v, (addr, p, v) ∈ writtenParameters evsW →
       addr = PCI port0 ∧ desiredConfig !! p = Some v ∧
       NextBootConfig nvConfig !! p ≠ Some v) ∧
    NoDup ((λ w, w.1.2) <$> writtenParameters evsW).
Proof.
  rewrite (ApplyDeviceNvSpec_diff_and_write consts order h ctx device port0 Hport
             s s1 evs1 nvConfig desiredConfig Hreset Hquery Hdesired).
  destruct (range_pure _ _ _) as [params|e] eqn:Hcollect; cycle 1.
  { exists false, (Some e), s1, []. rewrite app_nil_r. split_and!; [done | constructor | |].
    - intros addr p v ?%elem_of_nil. done.
    - constructor. }
  assert (∀ p, is_Some (desiredConfig !! p) → is_Some (NextBootConfig nvConfig !! p))
    as Hknown.
  { intros p [v Hp]. eapply (collect_loop_known _ _ _ _ _ Hcollect p v).
    by apply elem_of_range_map. }
  rewrite (collect_desired order RangeDesired nvConfig (Name device) desiredConfig Hknown)
    in Hcollect. injection Hcollect as <-.
  set (writes := range_map order RangeApply (writeSet nvConfig desiredConfig)).
  assert (∀ written rest, writes = written ++ rest →
            (∀ addr p v, (addr, p, v) ∈ (λ entry, (PCI port0, entry.1, entry.2)) <$> written →
               addr = PCI port0 ∧ desiredConfig !! p = Some v ∧
               NextBootConfig nvConfig !! p ≠ Some v) ∧
            NoDup ((λ w, w.1.2) <$> ((λ entry : string * string,
                                        (PCI port0, entry.1, entry.2)) <$> written)))
    as Hwithin.
  { intros written rest Hsplit. split.
    - intros addr p v ([q w] & [= -> -> ->] & Hin)%list_elem_of_fmap.
      assert ((q, w) ∈ writes) as Hw by (rewrite Hsplit, elem_of_app; by left).
      apply elem_of_range_map in Hw. unfold writeSet in Hw.
      apply map_lookup_filter_Some in Hw as [? ?]. done.
    - rewrite <- list_fmap_compose.
      pose proof (NoDup_range_map_keys order RangeApply (writeSet nvConfig desiredConfig))
        as Hnd.
      fold writes in Hnd. rewrite Hsplit, fmap_app in Hnd.
      apply NoDup_app in Hnd as [Hnd _]. done. }
  destruct (apply_loop_spec h (PCI port0) writes s1)
    as [[_ ->]|(done & p & v & rest & e & s' & Hsplit & _ & _ & ->)].
  - exists true, None, (afterWrites (hostUtils h) (PCI port0) writes s1),
      (writeEvents (PCI port0) writes).
    destruct (Hwithin writes [] (eq_sym (app_nil_r writes))) as [Hin Hnd].
    rewrite writtenParameters_writeEvents. split_and!; [done | | done | done].
    unfold writeEvents. apply Forall_fmap, Forall_forall. by intros.
  - exists false, (Some e), s',
      (writeEvents (PCI port0) done ++ [EvSetNvConfigParameter (PCI port0) p v (Some e)]).
    destruct (Hwithin (done ++ [(p, v)]) rest) as [Hin Hnd].
    { by rewrite Hsplit, <- app_assoc. }
    rewrite writtenParameters_app, writtenParameters_writeEvents.
    rewrite fmap_app in Hin, Hnd. split_and!; [done | | done | done].
    apply Forall_app. split; [|by repeat constructor].
    unfold writeEvents. apply Forall_fmap, Forall_forall. by intros.
Qed.

(** X10: when the next-boot config lacks a desired parameter, the apply
    makes no further host call and returns, with no reboot asked, the
    spec error that names such a parameter and the device, whether or not
    the gate had to be turned on first. *)
Theorem ApplyDeviceNvSpec_unsupported_names :
  (∃ p v, desiredConfig !! p = Some v ∧ NextBootConfig nvConfig !! p = None) →
  ∃ p v, desiredConfig !! p = Some v ∧ NextBootConfig nvConfig !! p = None ∧
         ApplyDeviceNvSpec consts order h ctx device s
         = Returned (false, Some (unsupportedParameter p (Name device))) s1 evs1.
Proof.
  intros (p & v & Hp & Hnone).
  rewrite (ApplyDeviceNvSpec_diff_and_write consts order h ctx device port0 Hport
             s s1 evs1 nvConfig desiredConfig Hreset Hquery Hdesired).
  destruct (collect_loop_error_names nvConfig (Name device)
              (range_map order RangeDesired desiredConfig) ∅ p v)
    as (q & w & Hq%elem_of_range_map & Hqnone & ->); [by apply elem_of_range_map|done|].
  by exists q, w.
Qed.

(** X11: no rollback.  When a write of the write set fails after others
    succeeded, the apply returns the error of that write with no reboot
    asked; the earlier writes stay issued, the later ones are not
    attempted. *)
Theorem ApplyDeviceNvSpec_write_failure (done rest : list (string * string))
    (p v : string) (e : error) (s2 : St) :
  (∀ p, is_Some (desiredConfig !! p) → is_Some (NextBootConfig nvConfig !! p)) →
  range_map order RangeApply (writeSet nvConfig desiredConfig) = done ++ (p, v) :: rest →
  writesSucceed (hostUtils h) (PCI port0) done s1 →
  SetNvConfigParameter (hostUtils h) (PCI port0) p v
    (afterWrites (hostUtils h) (PCI port0) done s1) = (Some e, s2) →
  ApplyDeviceNvSpec consts order h ctx device s
  = Returned (false, Some e) s2
      (evs1 ++ writeEvents (PCI port0) done
            ++ [EvSetNvConfigParameter (PCI port0) p v (Some e)]).
Proof.
  intros Hknown Hsplit Hdone Hfail.
  rewrite (ApplyDeviceNvSpec_diff_and_write consts order h ctx device port0 Hport
             s s1 evs1 nvConfig desiredConfig Hreset Hquery Hdesired).
  rewrite (collect_desired order RangeDesired nvConfig (Name device) desiredConfig Hknown).
  by rewrite Hsplit, (apply_loop_failure (PCI port0) done rest p v e s1 s2 Hdone Hfail).
Qed.

End ApplyReached.

(** *** ApplyDeviceRuntimeSpec: every path *)

Lemma failedLast_singleton (ev : Event) (e : error) :
  eventError ev = Some e → failedLast [ev] e.
Proof. intros Hev. exists [], ev. by split_and!; [|constructor|]. Qed.

Lemma failedLast_cons (ev : Event) (evs : list Event) (e : error) :
  eventError ev = None → failedLast evs e → failedLast (ev :: evs) e.
Proof. intros Hev Hlast. apply (failedLast_app [ev]); [by repeat constructor|done]. Qed.

(** Runs the runtime apply of a device with a first port, whose runtime
    config is not applied, along each of its paths, down to the host
    calls of each. *)
Ltac runtime_paths device Hport Happlied Hdesired :=
  unfold ApplyDeviceRuntimeSpec, applyMaxReadRequestSize, applyTrustAndPFC;
  run_monad; rewrite Happlied; run_monad; rewrite Hdesired; run_monad;
  destruct (Ports (Status device)) as [|? [|? [|? ?]]] eqn:?; [done|..];
  injection Hport as ->;
  run_monad;
  repeat match goal with
         | |- context [Z.eqb ?a 0] => destruct (Z.eqb_spec a 0); run_monad
         | |- context [SetMaxReadRequestSize ?hu ?a ?z ?st] =>
             destruct (SetMaxReadRequestSize hu a z st) as [[?|] ?]; run_monad
         | |- context [SetTrustAndPFC ?hu ?a ?t ?p ?st] =>
             destruct (SetTrustAndPFC hu a t p st) as [[?|] ?]; run_monad
         end;
  do 3 eexists; (split; [reflexivity|]).

Section RuntimePaths.
Context {St Ctx Template : Type}.
Variables (h : hostManager St Ctx Template) (device : NicDevice Template).
Variable port0 : NicDevicePortSpec.

Hypothesis Hport : Ports (Status device) !! 0%nat = Some port0.

(** X13: the runtime apply makes no host call exactly when the runtime
    config is reported as applied; it then returns nil, whatever error
    came with the report. *)
Theorem ApplyDeviceRuntimeSpec_noop_iff_applied (s s0 : St) (applied : bool)
    (err0 : option error) :
  RuntimeConfigApplied (configValidation_ h) device s = ((applied, err0), s0) →
  ∃ r s' evs,
    ApplyDeviceRuntimeSpec h device s = Returned r s' evs ∧
    (evs = [] ↔ applied = true) ∧
    (applied = true → r = None ∧ s' = s0).
Proof.
  intros Happlied. destruct applied.
  - rewrite (ApplyDeviceRuntimeSpec_already_applied h device s s0 err0 Happlied).
    by do 3 eexists.
  - destruct (CalculateDesiredRuntimeConfig (configValidation_ h) device)
      as [[size trust] pfc] eqn:Hdesired.
    runtime_paths device Hport Happlied Hdesired; by split.
Qed.

(** X14: when the runtime config is not applied and no setting of the
    max read request size failed, [SetTrustAndPFC] is called with the
    desired trust and PFC on the first port's network interface, and then
    on the second port's exactly when the device has exactly two ports
    and the call for the first port succeeded; when a setting of the max
    read request size failed, it is not called at all. *)
Theorem ApplyDeviceRuntimeSpec_trust_and_pfc (s s0 : St) (err0 : option error)
    (size : Z) (trust pfc : string) :
  RuntimeConfigApplied (configValidation_ h) device s = ((false, err0), s0) →
  CalculateDesiredRuntimeConfig (configValidation_ h) device = (size, trust, pfc) →
  ∃ r s' evs,
    ApplyDeviceRuntimeSpec h device s = Returned r s' evs ∧
    (¬ allSucceeded (List.filter isSetMaxReadRequestSize evs) →
     List.filter isSetTrustAndPFC evs = []) ∧
    (allSucceeded (List.filter isSetMaxReadRequestSize evs) →
     ∃ e0 more,
       List.filter isSetTrustAndPFC evs
       = EvSetTrustAndPFC (NetworkInterface port0) trust pfc e0 :: more ∧
       (more = [] ∨
        ∃ port1 e1, Ports (Status device) = [port0; port1] ∧ e0 = None ∧
                    more = [EvSetTrustAndPFC (NetworkInterface port1) trust pfc e1]) ∧
       (e0 = None → length (Ports (Status device)) = 2%nat → more ≠ [])).
Proof.
  intros Happlied Hdesired.
  runtime_paths device Hport Happlied Hdesired; unfold allSucceeded; simpl;
    (split;
     [ intros Hfailed; try done; exfalso; apply Hfailed; by repeat constructor
     | intros Hok;
       repeat match goal with
              | H : Forall _ (_ :: _) |- _ => apply Forall_cons in H as [? H]
              end;
       try done;
       eexists _, _; (split; [reflexivity|]); (split; [|done]);
       first [ by left | right; eexists _, _; by split_and! ] ]).
Qed.

(** X15: the runtime apply makes no host call after a host call that
    failed, and returns the error of that call: either all its host calls
    succeeded and it returns nil, or the last one failed and it returns
    that error. *)
Theorem ApplyDeviceRuntimeSpec_stops_at_failure (s : St) :
  ∃ r s' evs,
    ApplyDeviceRuntimeSpec h device s = Returned r s' evs ∧
    ((r = None ∧ allSucceeded evs) ∨ (∃ e, r = Some e ∧ failedLast evs e)).
Proof.
  destruct (RuntimeConfigApplied (configValidation_ h) device s)
    as [[applied err0] s0] eqn:Happlied.
  destruct applied.
  { rewrite (ApplyDeviceRuntimeSpec_already_applied h device s s0 err0 Happlied).
    do 3 eexists. split; [done|]. left. by split; [|constructor]. }
  destruct (CalculateDesiredRuntimeConfig (configValidation_ h) device)
    as [[size trust] pfc] eqn:Hdesired.
  runtime_paths device Hport Happlied Hdesired;
    first [ left; split; [done|by repeat constructor]
          | right; eexists; split; [done|];
            by repeat first [ apply failedLast_singleton | apply failedLast_cons ] ].
Qed.

(** X16: the host calls of the runtime apply are settings of the max
    read request size followed by settings of trust and PFC, and nothing
    else: no port gets its trust and PFC before every port got its
    size. *)
Theorem ApplyDeviceRuntimeSpec_sizes_before_trust (s : St) :
  ∃ r s' evs,
    ApplyDeviceRuntimeSpec h device s = Returned r s' evs ∧
    evs = List.filter isSetMaxReadRequestSize evs ++ List.filter isSetTrustAndPFC evs.
Proof.
  destruct (RuntimeConfigApplied (configValidation_ h) device s)
    as [[applied err0] s0] eqn:Happlied.
  destruct applied.
  { rewrite (ApplyDeviceRuntimeSpec_already_applied h device s s0 err0 Happlied).
    by do 3 eexists. }
  destruct (CalculateDesiredRuntimeConfig (configValidation_ h) device)
    as [[size trust] pfc] eqn:Hdesired.
  runtime_paths device Hport Happlied Hdesired; reflexivity.
Qed.

End RuntimePaths.

(** *** DiscoverNicDevices: every path *)

(** Runs one round of the discovery loop along each of its paths. *)
Ltac discover_paths consts device :=
  unfold discoverDevice;
  destruct (String.eqb_spec (Vendor_ID device) (MellanoxVendor consts));
  cbn [negb];
  [ destruct (Strconv.ParseInt (Class_ID device)) as [?devClass|] eqn:?;
    [ match goal with
      | |- context [Z.eqb ?c (NetClass consts)] =>
          destruct (Z.eqb_spec c (NetClass consts)); cbn [negb]
      end;
      [ run_monad;
        repeat match goal with
               | |- context [IsSriovVF ?hu ?a ?st] =>
                   destruct (IsSriovVF hu a st) as [[|] ?]; run_monad
               | |- context [GetPartAndSerialNumber ?hu ?a ?st] =>
                   destruct (GetPartAndSerialNumber hu a st) as [[[? ?] [?|]] ?];
                   run_monad
               | |- context [match ?m !! ?k with Some _ => _ | None => _ end] =>
                   destruct (m !! k) eqn:?; run_monad
               | |- context [GetFirmwareVersionAndPSID ?hu ?a ?st] =>
                   destruct (GetFirmwareVersionAndPSID hu a st) as [[[? ?] [?|]] ?];
                   run_monad
               | |- context [GetInterfaceName ?hu ?a ?st] =>
                   destruct (GetInterfaceName hu a st) as [? ?]; run_monad
               | |- context [GetRDMADeviceName ?hu ?a ?st] =>
                   destruct (GetRDMADeviceName hu a st) as [? ?]; run_monad
               end
      | run_monad ]
    | run_monad ]
  | run_monad ].

Lemma elem_of_retainedAddresses (sn addr : string) (evs : list Event) :
  addr ∈ retainedAddresses sn evs ↔
  ∃ pn, EvGetPartAndSerialNumber addr pn sn None ∈ evs.
Proof.
  unfold retainedAddresses. rewrite list_elem_of_omap. split.
  - intros (ev & Hin & Hev). destruct ev; try done.
    destruct err; [done|]. case_decide; [|done]. simplify_eq. eauto.
  - intros (pn & Hin). eexists. split; [done|]. simpl. by rewrite decide_True.
Qed.

Lemma described_mono (seen seen' : list PCIDevice) (devices : gmap string NicDeviceStatus)
    (evs evs' : list Event) :
  described seen devices evs → described (seen ++ seen') devices (evs ++ evs').
Proof.
  intros Hdesc sn status Hentry.
  destruct (Hdesc sn status Hentry) as ((first & d & ? & ? & ? & ? & ? & ?) & Hports).
  split.
  - exists first, d. split_and!; try done; apply elem_of_app; by left.
  - intros port Hin. destruct (Hports port Hin). split; apply elem_of_app; by left.
Qed.

Section DiscoverPaths.
Context {St Ctx Template : Type}.
Variables (consts : Consts) (h : hostManager St Ctx Template).

(** The only calls of a round that can fail are the identity fetches. *)
Lemma discoverDevice_errors (device : PCIDevice)
    (devices : gmap string NicDeviceStatus) (s : St) :
  match discoverDevice consts h device devices s with
  | Panic => True
  | Returned _ _ evs => Forall (λ ev, eventError ev = identityFailure ev) evs
  end.
Proof. discover_paths consts device; by repeat constructor. Qed.

Lemma discover_loop_errors (pciDevices : list PCIDevice)
    (devices : gmap string NicDeviceStatus) (s : St) :
  match range_loop (discoverDevice consts h) pciDevices devices s with
  | Panic => True
  | Returned _ _ evs => Forall (λ ev, eventError ev = identityFailure ev) evs
  end.
Proof.
  revert devices s. induction pciDevices as [|device rest IH]; intros devices s.
  - constructor.
  - cbn [range_loop]. rewrite run_bind.
    pose proof (discoverDevice_errors device devices s) as Hbody.
    destruct (discoverDevice consts h device devices s) as [|[devices1|result] s1 evs1];
      [done| |].
    + specialize (IH devices1 s1).
      destruct (range_loop _ rest devices1 s1) as [|r s2 evs2]; [done|].
      by apply Forall_app.
    + run_monad. by rewrite app_nil_r.
Qed.

(** A device that fails the vendor or the class filter costs no host call
    and leaves the map as it is. *)
Lemma discoverDevice_filtered (device : PCIDevice)
    (devices : gmap string NicDeviceStatus) (s : St) :
  ¬ passedFilters consts device →
  discoverDevice consts h device devices s = Returned (inl devices) s [].
Proof.
  intros Hfiltered. unfold discoverDevice, passedFilters in *.
  destruct (String.eqb_spec (Vendor_ID device) (MellanoxVendor consts)); [|done].
  destruct (Strconv.ParseInt (Class_ID device)) as [devClass|]; [|done].
  destruct (Z.eqb_spec devClass (NetClass consts)); [|done].
  destruct Hfiltered. split; congruence.
Qed.

(** X19: a PCI device of another vendor, or whose class code does not
    parse or is not the network class, is skipped without any host call:
    the discovery loop runs as if the list did not have it. *)
Theorem discover_skips_filtered (before after : list PCIDevice) (device : PCIDevice)
    (devices : gmap string NicDeviceStatus) (s : St) :
  ¬ passedFilters consts device →
  range_loop (discoverDevice consts h) (before ++ device :: after) devices s
  = range_loop (discoverDevice consts h) (before ++ after) devices s.
Proof.
  intros Hfiltered. revert devices s.
  induction before as [|d before IH]; intros devices s; simpl.
  - rewrite run_bind, (discoverDevice_filtered device devices s Hfiltered).
    by destruct (range_loop _ after devices s).
  - rewrite !run_bind. destruct (discoverDevice consts h d devices s) as [|[d1|r] s1 evs1];
      [done | by rewrite IH | done].
Qed.

(** One round keeps [described] and adds one entry per firmware fetch. *)
Lemma discoverDevice_describes (device : PCIDevice) (seen : list PCIDevice)
    (devices : gmap string NicDeviceStatus) (evs0 : list Event) (s : St) :
  discovered (nodeName h) devices evs0 → described seen devices evs0 →
  match discoverDevice consts h device devices s with
  | Returned (inl devices') _ evs =>
      described (seen ++ [device]) devices' (evs0 ++ evs) ∧
      size devices'
      = (size devices + length (List.filter isGetFirmwareVersionAndPSID evs))%nat
  | _ => True
  end.
Proof.
  intros Hinv Hdesc.
  discover_paths consts device; try done;
    try (split; [by apply described_mono | simpl; lia]).
  - (* a further port of a known card *)
    match goal with H : devices !! ?k = Some ?st |- _ =>
      rename H into Hfound; pose proof (Hinv k) as Hhere; rewrite Hfound in Hhere;
      destruct Hhere as (Hsn & _ & Hports & _);
      destruct (Hdesc k st Hfound) as ((first & d & Hhead & Hps & Hfw & Hd & Haddr & Hty)
                                       & Hnames)
    end.
    rewrite Hsn. split; [|simpl; rewrite map_size_insert_Some by eauto; lia].
    intros sn status [[<- <-]|[Hne Hentry]]%lookup_insert_Some; simpl.
    + split.
      * exists first, d. destruct (Ports _) as [|? ?]; [done|]. simpl in *.
        split_and!; try done; apply elem_of_app; by left.
      * intros port [Hin|Hin%list_elem_of_singleton]%elem_of_app.
        -- destruct (Hnames port Hin). split; apply elem_of_app; by left.
        -- subst port. simpl. split; apply elem_of_app; right; repeat constructor.
    + by apply (described_mono seen [device] devices evs0).
  - (* the first port of a new card *)
    match goal with H : devices !! ?k = None |- _ => rename H into Hfresh end.
    split; [|simpl; rewrite insert_insert_eq, map_size_insert_None by done; lia].
    intros sn status [[<- <-]|[Hne Hentry]]%lookup_insert_Some; simpl.
    + split.
      * eexists _, device. simpl. split_and!; [done | | | | done | done].
        -- apply elem_of_app; right; repeat constructor.
        -- apply elem_of_app; right; repeat constructor.
        -- apply elem_of_app; right; repeat constructor.
      * intros port Hin%list_elem_of_singleton. subst port. simpl.
        split; apply elem_of_app; right; repeat constructor.
    + rewrite lookup_insert_ne in Hentry by done.
      by apply (described_mono seen [device] devices evs0).
Qed.

Lemma discover_loop_describes (pciDevices seen : list PCIDevice)
    (devices : gmap string NicDeviceStatus) (evs0 : list Event) (s : St) :
  discovered (nodeName h) devices evs0 → described seen devices evs0 →
  match range_loop (discoverDevice consts h) pciDevices devices s with
  | Returned (inl devices') _ evs =>
      described (seen ++ pciDevices) devices' (evs0 ++ evs) ∧
      size devices'
      = (size devices + length (List.filter isGetFirmwareVersionAndPSID evs))%nat
  | _ => True
  end.
Proof.
  revert seen devices evs0 s.
  induction pciDevices as [|device rest IH]; intros seen devices evs0 s Hinv Hdesc.
  - run_monad. rewrite !app_nil_r. split; [done|lia].
  - cbn [range_loop]. rewrite run_bind.
    pose proof (discoverDevice_describes device seen devices evs0 s Hinv Hdesc) as Hbody.
    destruct (discoverDevice_spec consts h device devices s)
      as (r & s1 & evs1 & Hrun & Hspec).
    rewrite Hrun in Hbody |- *. destruct r as [devices1|result]; [|done].
    destruct Hbody as [Hdesc1 Hsize1], Hspec as [_ Hinv1].
    specialize (IH (seen ++ [device]) devices1 (evs0 ++ evs1) s1 (Hinv1 _ Hinv) Hdesc1).
    destruct (range_loop _ rest devices1 s1) as [|[devices2|result] s2 evs2]; [done| |done].
    destruct IH as [Hdesc2 Hsize2].
    rewrite <- !app_assoc in Hdesc2. simpl in Hdesc2. split; [done|].
    rewrite List.filter_app, length_app. lia.
Qed.

End DiscoverPaths.

Section DiscoverOutcomes.
Context {St Ctx Template : Type}.
Variables (consts : Consts) (h : hostManager St Ctx Template).

(** A discovery that returns a map has listed the PCI devices and run
    its loop over them to the end. *)
Lemma DiscoverNicDevices_success (s s' : St) (devices : gmap string NicDeviceStatus)
    (evs : list Event) :
  DiscoverNicDevices consts h s = Returned (Some devices, None) s' evs →
  ∃ pciDevices s0 evsL,
    GetPCIDevices (hostUtils h) s = ((pciDevices, None), s0) ∧
    evs = EvGetPCIDevices None :: evsL ∧
    range_loop (discoverDevice consts h) pciDevices ∅ s0 = Returned (inl devices) s' evsL.
Proof.
  intros Hrun.
  destruct (GetPCIDevices (hostUtils h) s) as [[pciDevices [e|]] s0] eqn:Hlist.
  { by rewrite (DiscoverNicDevices_unlisted consts h s s0 pciDevices e Hlist) in Hrun. }
  rewrite (DiscoverNicDevices_listed consts h s s0 pciDevices Hlist) in Hrun.
  destruct (discover_loop_spec consts h pciDevices ∅ s0) as (r & s1 & evs1 & Hloop & Hspec).
  rewrite Hloop in Hrun. destruct r as [devices1|result].
  - injection Hrun as -> -> <-. by exists pciDevices, s0, evs1.
  - destruct Hspec as (e & _ & _ & -> & _). discriminate Hrun.
Qed.

Lemma DiscoverNicDevices_discovered (s s' : St) (devices : gmap string NicDeviceStatus)
    (evs : list Event) :
  DiscoverNicDevices consts h s = Returned (Some devices, None) s' evs →
  discovered (nodeName h) devices evs.
Proof.
  intros (pciDevices & s0 & evsL & _ & -> & Hloop)%DiscoverNicDevices_success.
  destruct (discover_loop_spec consts h pciDevices ∅ s0) as (r & s1 & evs1 & Hrun & Hspec).
  rewrite Hloop in Hrun. injection Hrun as <- <- <-. destruct Hspec as [_ Hinv].
  apply (Hinv [EvGetPCIDevices None]). intros sn. by rewrite lookup_empty.
Qed.

Lemma DiscoverNicDevices_described (s s' : St) (devices : gmap string NicDeviceStatus)
    (evs : list Event) :
  DiscoverNicDevices consts h s = Returned (Some devices, None) s' evs →
  described (GetPCIDevices (hostUtils h) s).1.1 devices evs ∧
  length (List.filter isGetFirmwareVersionAndPSID evs) = size devices.
Proof.
  intros (pciDevices & s0 & evsL & Hlist & -> & Hloop)%DiscoverNicDevices_success.
  rewrite Hlist. cbn [fst].
  pose proof (discover_loop_describes consts h pciDevices [] ∅ [EvGetPCIDevices None] s0)
    as Hdesc.
  rewrite Hloop in Hdesc. destruct Hdesc as [Hdesc Hsize].
  - intros sn. by rewrite lookup_empty.
  - intros sn status. by rewrite lookup_empty.
  - split; [done|]. rewrite map_size_empty in Hsize. simpl. lia.
Qed.

(** X17: discovery makes no host call after a host call that failed, and
    returns the error of that call with no map: either all its host calls
    succeeded and it returns a map and nil, or the last one failed and it
    returns no map and that error. *)
Theorem DiscoverNicDevices_stops_at_failure (s : St) :
  ∃ result err s' evs,
    DiscoverNicDevices consts h s = Returned (result, err) s' evs ∧
    ((allSucceeded evs ∧ err = None ∧ ∃ devices, result = Some devices) ∨
     (∃ e, failedLast evs e ∧ result = None ∧ err = Some e)).
Proof.
  destruct (GetPCIDevices (hostUtils h) s) as [[pciDevices [e|]] s0] eqn:Hlist.
  { rewrite (DiscoverNicDevices_unlisted consts h s s0 pciDevices e Hlist).
    do 4 eexists. split; [done|]. right. exists e. split; [|done].
    by apply failedLast_singleton. }
  rewrite (DiscoverNicDevices_listed consts h s s0 pciDevices Hlist).
  pose proof (discover_loop_errors consts h pciDevices ∅ s0) as Herrors.
  destruct (discover_loop_spec consts h pciDevices ∅ s0) as (r & s' & evs & Hrun & Hspec).
  rewrite Hrun in Herrors |- *. destruct r as [devices|result].
  - destruct Hspec as [Hquiet _]. do 4 eexists. split; [done|]. left.
    split; [|eauto]. constructor; [done|].
    rewrite Forall_forall in Herrors, Hquiet. apply Forall_forall. intros ev Hin.
    by rewrite (Herrors ev Hin), (Hquiet ev Hin).
  - destruct Hspec as (e & evs0 & ev & -> & -> & Hev & Hquiet).
    apply Forall_app in Herrors as [Herrors0 [Herror _]%Forall_cons].
    do 4 eexists. split; [done|]. right. exists e. split; [|done].
    exists (EvGetPCIDevices None :: evs0), ev. split_and!; [done| |congruence].
    constructor; [done|].
    rewrite Forall_forall in Herrors0, Hquiet. apply Forall_forall. intros ev' Hin.
    by rewrite (Herrors0 ev' Hin), (Hquiet ev' Hin).
Qed.

(** X18: in a successful discovery no retained device is lost: every
    device whose part and serial number were read is a port of the entry
    under that serial number, and the map has no other keys than the
    serial numbers read. *)
Theorem DiscoverNicDevices_complete (s s' : St)
    (devices : gmap string NicDeviceStatus) (evs : list Event) :
  DiscoverNicDevices consts h s = Returned (Some devices, None) s' evs →
  (∀ addr pn sn,
     EvGetPartAndSerialNumber addr pn sn None ∈ evs →
     ∃ status, devices !! sn = Some status ∧ addr ∈ PCI <$> Ports status) ∧
  (∀ sn, is_Some (devices !! sn) ↔
         ∃ addr pn, EvGetPartAndSerialNumber addr pn sn None ∈ evs).
Proof.
  intros Hinv%DiscoverNicDevices_discovered. split.
  - intros addr pn sn Hin. specialize (Hinv sn).
    assert (addr ∈ retainedAddresses sn evs) as Hretained
      by (apply elem_of_retainedAddresses; eauto).
    destruct (devices !! sn) as [status|].
    + destruct Hinv as (_ & _ & _ & Haddrs). exists status. split; [done|].
      by rewrite Haddrs.
    + rewrite Hinv in Hretained. by apply elem_of_nil in Hretained.
  - intros sn. specialize (Hinv sn). split.
    + intros [status Hentry]. rewrite Hentry in Hinv.
      destruct Hinv as (_ & _ & Hports & Haddrs).
      destruct (Ports status) as [|port ports]; [done|].
      assert (PCI port ∈ retainedAddresses sn evs) as Hin
        by (rewrite <- Haddrs; left).
      apply elem_of_retainedAddresses in Hin as [pn Hin]. eauto.
    + intros (addr & pn & Hin). destruct (devices !! sn); [done|].
      assert (addr ∈ retainedAddresses sn evs) as Hretained
        by (apply elem_of_retainedAddresses; eauto).
      rewrite Hinv in Hretained. by apply elem_of_nil in Hretained.
Qed.

(** X20: a successful discovery fetches the firmware version and PSID
    once per card: as many times as the map has entries. *)
Theorem DiscoverNicDevices_firmware_once (s s' : St)
    (devices : gmap string NicDeviceStatus) (evs : list Event) :
  DiscoverNicDevices consts h s = Returned (Some devices, None) s' evs →
  length (List.filter isGetFirmwareVersionAndPSID evs) = size devices.
Proof. by intros [_ ?]%DiscoverNicDevices_described. Qed.

(** X21: in a successful discovery the identity of an entry is the one
    read for its first port: its part number comes from the fetch at the
    first port's address, its firmware version and PSID from the
    firmware fetch there, and its type is the product id of the listed
    PCI device at that address. *)
Theorem DiscoverNicDevices_identity_of_first_port (s s' : St)
    (devices : gmap string NicDeviceStatus) (evs : list Event) :
  DiscoverNicDevices consts h s = Returned (Some devices, None) s' evs →
  ∀ sn status,
    devices !! sn = Some status →
    ∃ first pciDevice,
      head (Ports status) = Some first ∧
      EvGetPartAndSerialNumber (PCI first) (PartNumber status) sn None ∈ evs ∧
      EvGetFirmwareVersionAndPSID (PCI first) (FirmwareVersion status) (PSID status) None
        ∈ evs ∧
      pciDevice ∈ (GetPCIDevices (hostUtils h) s).1.1 ∧
      Address pciDevice = PCI first ∧
      Type_ status = Product_ID pciDevice.
Proof.
  intros [Hdesc _]%DiscoverNicDevices_described sn status Hentry.
  by destruct (Hdesc sn status Hentry) as [? _].
Qed.

(** X22: in a successful discovery the network and RDMA interface names
    of every port are the ones the host returned for the port's PCI
    address. *)
Theorem DiscoverNicDevices_port_names (s s' : St)
    (devices : gmap string NicDeviceStatus) (evs : list Event) :
  DiscoverNicDevices consts h s = Returned (Some devices, None) s' evs →
  ∀ sn status port,
    devices !! sn = Some status → port ∈ Ports status →
    EvGetInterfaceName (PCI port) (NetworkInterface port) ∈ evs ∧
    EvGetRDMADeviceName (PCI port) (RdmaInterface port) ∈ evs.
Proof.
  intros [Hdesc _]%DiscoverNicDevices_described sn status port Hentry Hin.
  destruct (Hdesc sn status Hentry) as [_ Hnames]. by apply Hnames.
Qed.

(** X23: every port that a successful discovery reports is a listed PCI
    device of the Mellanox vendor and of the network class that the host
    reported as a physical function. *)
Theorem DiscoverNicDevices_ports_are_physical (s s' : St)
    (devices : gmap string NicDeviceStatus) (evs : list Event) :
  DiscoverNicDevices consts h s = Returned (Some devices, None) s' evs →
  ∀ sn status port,
    devices !! sn = Some status → port ∈ Ports status →
    ∃ pciDevice,
      pciDevice ∈ (GetPCIDevices (hostUtils h) s).1.1 ∧
      Address pciDevice = PCI port ∧ passedFilters consts pciDevice ∧
      EvIsSriovVF (PCI port) false ∈ evs.
Proof.
  intros Hrun sn status port Hentry Hin.
  pose proof (DiscoverNicDevices_discovered s s' devices evs Hrun sn) as Hinv.
  rewrite Hentry in Hinv. destruct Hinv as (_ & _ & _ & Haddrs).
  assert (PCI port ∈ retainedAddresses sn evs) as Hretained.
  { rewrite <- Haddrs. apply list_elem_of_fmap. eauto. }
  apply elem_of_retainedAddresses in Hretained as [pn Hfetch].
  destruct (DiscoverNicDevices_success s s' devices evs Hrun)
    as (pciDevices & s0 & evsL & Hlist & -> & Hloop).
  rewrite Hlist. cbn [fst].
  pose proof (discover_loop_fetches consts h pciDevices ∅ s0) as Hfetches.
  rewrite Hloop in Hfetches.
  apply elem_of_cons in Hfetch as [?|Hfetch]; [done|].
  destruct (Hfetches _ (PCI port) Hfetch eq_refl) as (d & ? & ? & ? & ?).
  exists d. split_and!; [done..|by right].
Qed.

End DiscoverOutcomes.

(* ===================================================================== *)
(** ** The further properties on the simulated hosts *)
(* ===================================================================== *)

Lemma ValidateDeviceNvSpec_read_only_witness :
  ∃ result,
    ValidateDeviceNvSpec Sim.order Sim.plain () Sim.onePort Sim.nvPending
    = Returned result Sim.nvPending [EvQueryNvConfig "0000:03:00.0" None]
    ∧ ∀ e, (None : option error) = Some e → result = (false, false, Some e).
Proof.
  exact (ValidateDeviceNvSpec_read_only Sim.plain () Sim.onePort (Sim.port "0") eq_refl
           Sim.order Sim.nvPending).
Defined.

Lemma ValidateDeviceNvSpec_flags_witness :
  ∃ u r err s' evs,
    ValidateDeviceNvSpec Sim.order Sim.plain () Sim.onePort Sim.nvStale
    = Returned (u, r, err) s' evs ∧
    (u = true → r = true) ∧ (err ≠ None → u = false ∧ r = false).
Proof.
  exact (ValidateDeviceNvSpec_flags Sim.plain () Sim.onePort (Sim.port "0") eq_refl
           Sim.order Sim.nvStale eq_refl).
Defined.

(** The pending card (current 0, staged 1) validates to [(false, true)]. *)
Lemma ValidateDeviceNvSpec_pending_iff_witness :
  ValidateDeviceNvSpec Sim.order Sim.plain () Sim.onePort Sim.nvPending
  = Returned (false, true, None) Sim.nvPending [EvQueryNvConfig "0000:03:00.0" None]
  ∧ ∃ u r err,
      ValidateDeviceNvSpec Sim.order Sim.plain () Sim.onePort Sim.nvPending
      = Returned (u, r, err) Sim.nvPending [EvQueryNvConfig (PCI (Sim.port "0")) None]
      ∧ ((u, r, err) = (false, true, None) ↔
         (∀ p v, Sim.desired !! p = Some v →
                 NextBootConfig Sim.nvPending !! p = Some v) ∧
         (∃ p v, Sim.desired !! p = Some v ∧ CurrentConfig Sim.nvPending !! p ≠ Some v) ∧
         (AdvancedPCISettingsEnabled (configValidation_ Sim.plain)
            (CurrentConfig Sim.nvPending) = true →
          ∀ p v, Sim.desired !! p = Some v → CurrentConfig Sim.nvPending !! p ≠ None)).
Proof.
  split; [by vm_compute|].
  exact (ValidateDeviceNvSpec_pending_iff Sim.order Sim.plain () Sim.onePort
           (Sim.port "0") Sim.nvPending Sim.nvPending Sim.nvPending Sim.desired
           eq_refl eq_refl eq_refl eq_refl).
Defined.

Lemma ValidateDeviceNvSpec_spec_error_iff_witness :
  ∃ u r err,
    ValidateDeviceNvSpec Sim.order Sim.plain () Sim.onePort Sim.nvUnknown
    = Returned (u, r, err) Sim.nvUnknown [EvQueryNvConfig (PCI (Sim.port "0")) None]
    ∧ (err ≠ None ↔
       AdvancedPCISettingsEnabled (configValidation_ Sim.plain)
         (CurrentConfig Sim.nvUnknown) = true ∧
       ∃ p v, Sim.desired !! p = Some v ∧ CurrentConfig Sim.nvUnknown !! p = None)
    ∧ (∀ e, err = Some e →
            ∃ p v, Sim.desired !! p = Some v ∧ CurrentConfig Sim.nvUnknown !! p = None ∧
                   e = unsupportedParameter p (Name Sim.onePort)).
Proof.
  exact (ValidateDeviceNvSpec_spec_error_iff Sim.order Sim.plain () Sim.onePort
           (Sim.port "0") Sim.nvUnknown Sim.nvUnknown Sim.nvUnknown Sim.desired
           eq_refl eq_refl eq_refl eq_refl).
Defined.

(** Two range orders on a card that knows neither of two desired
    parameters: the spec error names [P1] in one and [P2] in the other. *)
Lemma ValidateDeviceNvSpec_order_independent_witness :
  (ValidateDeviceNvSpec Sim.order Sim.plain () SimMore.twoParams Sim.nvUnknown
   = Returned (false, false, Some (unsupportedParameter "P1" "nic")) Sim.nvUnknown
       [EvQueryNvConfig "0000:03:00.0" None] ∧
   ValidateDeviceNvSpec SimMore.reversed Sim.plain () SimMore.twoParams Sim.nvUnknown
   = Returned (false, false, Some (unsupportedParameter "P2" "nic")) Sim.nvUnknown
       [EvQueryNvConfig "0000:03:00.0" None])
  ∧ ∃ u r s' evs err1 err2,
      ValidateDeviceNvSpec Sim.order Sim.plain () SimMore.twoParams Sim.nvUnknown
      = Returned (u, r, err1) s' evs ∧
      ValidateDeviceNvSpec SimMore.reversed Sim.plain () SimMore.twoParams Sim.nvUnknown
      = Returned (u, r, err2) s' evs ∧
      (err1 = err2 ∨
       ∃ p1 p2, err1 = Some (unsupportedParameter p1 (Name SimMore.twoParams)) ∧
                err2 = Some (unsupportedParameter p2 (Name SimMore.twoParams))).
Proof.
  split; [split; by vm_compute|].
  exact (ValidateDeviceNvSpec_order_independent Sim.plain () SimMore.twoParams
           (Sim.port "0") eq_refl Sim.order SimMore.reversed Sim.nvUnknown).
Defined.

Lemma ApplyDeviceNvSpec_reboot_iff_no_error_witness :
  ∃ rebootNeeded err s' evs,
    ApplyDeviceNvSpec Sim.consts Sim.order Sim.plain () Sim.onePort Sim.nvUnknown
    = Returned (rebootNeeded, err) s' evs ∧
    (rebootNeeded = true ↔ err = None).
Proof.
  exact (ApplyDeviceNvSpec_reboot_iff_no_error Sim.consts Sim.order Sim.plain ()
           Sim.onePort (Sim.port "0") eq_refl Sim.nvUnknown).
Defined.

Lemma ApplyDeviceNvSpec_stops_at_failure_witness :
  ∃ rebootNeeded err s' evs,
    ApplyDeviceNvSpec Sim.consts Sim.order (SimMore.faulty "P2") () SimMore.twoParams
      SimMore.nvTwo
    = Returned (rebootNeeded, err) s' evs ∧
    (allSucceeded evs ∨ ∃ e, failedLast evs e ∧ (rebootNeeded, err) = (false, Some e)).
Proof.
  exact (ApplyDeviceNvSpec_stops_at_failure Sim.consts Sim.order (SimMore.faulty "P2") ()
           SimMore.twoParams (Sim.port "0") eq_refl SimMore.nvTwo).
Defined.

(** On the card whose gate is off the apply turns the gate on, resets the
    firmware, queries again and writes [P1]. *)
Lemma ApplyDeviceNvSpec_bootstrap_witness :
  ∃ s',
    ApplyDeviceNvSpec Sim.consts Sim.order Sim.plain () Sim.onePort SimMore.nvGateOff
    = Returned (true, None) s'
        [EvQueryNvConfig "0000:03:00.0" None;
         EvSetNvConfigParameter "0000:03:00.0" "ADVANCED_PCI_SETTINGS" "1" None;
         EvResetNicFirmware "0000:03:00.0" None;
         EvQueryNvConfig "0000:03:00.0" None;
         EvSetNvConfigParameter "0000:03:00.0" "P1" "1" None].
Proof.
  eexists.
  pose (s2 := (SetNvConfigParameter (hostUtils Sim.plain) "0000:03:00.0"
                 "ADVANCED_PCI_SETTINGS" "1" SimMore.nvGateOff).2).
  pose (s3 := (ResetNicFirmware (hostUtils Sim.plain) () "0000:03:00.0" s2).2).
  refine (ApplyDeviceNvSpec_bootstrap Sim.consts Sim.order Sim.plain () Sim.onePort
            (Sim.port "0") eq_refl eq_refl SimMore.nvGateOff SimMore.nvGateOff s2 s3 s3
            SimMore.nvGateOff s3 Sim.desired eq_refl eq_refl eq_refl eq_refl eq_refl
            eq_refl _ _).
  - intros p [v Hp]. unfold Sim.desired in Hp.
    apply lookup_singleton_Some in Hp as [<- <-]. exists "0". by vm_compute.
  - by vm_compute.
Defined.

Lemma ApplyDeviceNvSpec_writes_within_write_set_witness :
  ∃ rebootNeeded err s' evsW,
    ApplyDeviceNvSpec Sim.consts Sim.order Sim.plain () SimMore.twoParams SimMore.nvTwo
    = Returned (rebootNeeded, err) s' ([EvQueryNvConfig "0000:03:00.0" None] ++ evsW) ∧
    Forall (λ ev, isSetNvConfigParameter ev = true) evsW ∧
    (∀ addr p v, (addr, p, v) ∈ writtenParameters evsW →
       addr = PCI (Sim.port "0") ∧ SimMore.desiredTwo !! p = Some v ∧
       NextBootConfig SimMore.nvTwo !! p ≠ Some v) ∧
    NoDup ((λ w, w.1.2) <$> writtenParameters evsW).
Proof.
  exact (ApplyDeviceNvSpec_writes_within_write_set Sim.consts Sim.order Sim.plain ()
           SimMore.twoParams (Sim.port "0") eq_refl eq_refl SimMore.nvTwo SimMore.nvTwo
           [EvQueryNvConfig "0000:03:00.0" None] SimMore.nvTwo SimMore.desiredTwo
           eq_refl eq_refl).
Defined.

Lemma ApplyDeviceNvSpec_unsupported_names_witness :
  ∃ p v, Sim.desired !! p = Some v ∧ NextBootConfig Sim.nvUnknown !! p = None ∧
         ApplyDeviceNvSpec Sim.consts Sim.order Sim.plain () Sim.onePort Sim.nvUnknown
         = Returned (false, Some (unsupportedParameter p (Name Sim.onePort)))
             Sim.nvUnknown [EvQueryNvConfig "0000:03:00.0" None].
Proof.
  apply (ApplyDeviceNvSpec_unsupported_names Sim.consts Sim.order Sim.plain ()
           Sim.onePort (Sim.port "0") eq_refl eq_refl Sim.nvUnknown Sim.nvUnknown
           [EvQueryNvConfig "0000:03:00.0" None] Sim.nvUnknown Sim.desired
           eq_refl eq_refl).
  exists "P1", "1". split; reflexivity.
Defined.

(** On the host where writes of [P2] fail, the write of [P1] stays
    issued and the error of the write of [P2] is returned. *)
Lemma ApplyDeviceNvSpec_write_failure_witness :
  ∃ s2,
    ApplyDeviceNvSpec Sim.consts Sim.order (SimMore.faulty "P2") () SimMore.twoParams
      SimMore.nvTwo
    = Returned (false, Some (HostError "write failed")) s2
        [EvQueryNvConfig "0000:03:00.0" None;
         EvSetNvConfigParameter "0000:03:00.0" "P1" "1" None;
         EvSetNvConfigParameter "0000:03:00.0" "P2" "8" (Some (HostError "write failed"))].
Proof.
  eexists.
  refine (ApplyDeviceNvSpec_write_failure Sim.consts Sim.order (SimMore.faulty "P2") ()
            SimMore.twoParams (Sim.port "0") eq_refl eq_refl SimMore.nvTwo SimMore.nvTwo
            [EvQueryNvConfig "0000:03:00.0" None] SimMore.nvTwo SimMore.desiredTwo
            eq_refl eq_refl [("P1", "1")] [] "P2" "8" (HostError "write failed") _
            _ _ _ eq_refl).
  - intros p [v Hp]. unfold SimMore.desiredTwo in Hp.
    apply lookup_insert_Some in Hp as [[<- <-]|[_ Hp]];
      [|apply lookup_singleton_Some in Hp as [<- <-]]; exists "0"; by vm_compute.
  - by vm_compute.
  - by vm_compute.
Defined.

(** After the write set of the stale card is staged, the apply writes
    nothing. *)
Lemma ApplyDeviceNvSpec_after_staging_witness :
  ApplyDeviceNvSpec Sim.consts Sim.order Sim.plain () Sim.onePort
    (staged (writeSet Sim.nvStale Sim.desired) Sim.nvStale)
  = Returned (true, None) (staged (writeSet Sim.nvStale Sim.desired) Sim.nvStale)
      [EvQueryNvConfig "0000:03:00.0" None].
Proof.
  refine (ApplyDeviceNvSpec_after_staging Sim.consts Sim.order Sim.plain () Sim.onePort
            (Sim.port "0") eq_refl eq_refl _ _ Sim.nvStale Sim.desired
            eq_refl _ eq_refl _).
  - by vm_compute.
  - intros p [v Hp]. unfold Sim.desired in Hp.
    apply lookup_singleton_Some in Hp as [<- <-]. exists "0". by vm_compute.
Defined.

Lemma ApplyDeviceRuntimeSpec_noop_iff_applied_witness :
  ∃ r s' evs,
    ApplyDeviceRuntimeSpec
      (Sim.manager Sim.card (true, Some (HostError "cannot read trust")) Sim.sized)
      Sim.onePort Sim.nvPending
    = Returned r s' evs ∧
    (evs = [] ↔ true = true) ∧
    (true = true → r = None ∧ s' = Sim.nvPending).
Proof.
  exact (ApplyDeviceRuntimeSpec_noop_iff_applied
           (Sim.manager Sim.card (true, Some (HostError "cannot read trust")) Sim.sized)
           Sim.onePort (Sim.port "0") eq_refl Sim.nvPending Sim.nvPending true
           (Some (HostError "cannot read trust")) eq_refl).
Defined.

Lemma ApplyDeviceRuntimeSpec_trust_and_pfc_witness :
  ∃ r s' evs,
    ApplyDeviceRuntimeSpec Sim.plain Sim.twoPorts Sim.nvPending = Returned r s' evs ∧
    (¬ allSucceeded (List.filter isSetMaxReadRequestSize evs) →
     List.filter isSetTrustAndPFC evs = []) ∧
    (allSucceeded (List.filter isSetMaxReadRequestSize evs) →
     ∃ e0 more,
       List.filter isSetTrustAndPFC evs
       = EvSetTrustAndPFC (NetworkInterface (Sim.port "0")) "dscp" "0,0,0,1,0,0,0,0" e0
         :: more ∧
       (more = [] ∨
        ∃ port1 e1, Ports (Status Sim.twoPorts) = [Sim.port "0"; port1] ∧ e0 = None ∧
                    more = [EvSetTrustAndPFC (NetworkInterface port1) "dscp"
                              "0,0,0,1,0,0,0,0" e1]) ∧
       (e0 = None → length (Ports (Status Sim.twoPorts)) = 2%nat → more ≠ [])).
Proof.
  exact (ApplyDeviceRuntimeSpec_trust_and_pfc Sim.plain Sim.twoPorts (Sim.port "0")
           eq_refl Sim.nvPending Sim.nvPending None 4096 "dscp" "0,0,0,1,0,0,0,0"
           eq_refl eq_refl).
Defined.

Lemma ApplyDeviceRuntimeSpec_stops_at_failure_witness :
  ∃ r s' evs,
    ApplyDeviceRuntimeSpec Sim.plain Sim.twoPorts Sim.nvPending = Returned r s' evs ∧
    ((r = None ∧ allSucceeded evs) ∨ (∃ e, r = Some e ∧ failedLast evs e)).
Proof.
  exact (ApplyDeviceRuntimeSpec_stops_at_failure Sim.plain Sim.twoPorts (Sim.port "0")
           eq_refl Sim.nvPending).
Defined.

Lemma ApplyDeviceRuntimeSpec_sizes_before_trust_witness :
  ∃ r s' evs,
    ApplyDeviceRuntimeSpec Sim.plain Sim.twoPorts Sim.nvPending = Returned r s' evs ∧
    evs = List.filter isSetMaxReadRequestSize evs ++ List.filter isSetTrustAndPFC evs.
Proof.
  exact (ApplyDeviceRuntimeSpec_sizes_before_trust Sim.plain Sim.twoPorts (Sim.port "0")
           eq_refl Sim.nvPending).
Defined.

(** The device of another vendor at the end of the listing is skipped. *)
Lemma discover_skips_filtered_witness :
  range_loop (discoverDevice Sim.consts Sim.plain) (Sim.pciDevices Sim.card) ∅
    Sim.nvPending
  = range_loop (discoverDevice Sim.consts Sim.plain)
      [ Sim.pci "0000:03:00.0" "15b3" "02"; Sim.pci "0000:05:00.0" "15b3" "0x02";
        Sim.pci "0000:03:00.1" "15b3" "02" ] ∅ Sim.nvPending.
Proof.
  refine (discover_skips_filtered Sim.consts Sim.plain
            [ Sim.pci "0000:03:00.0" "15b3" "02"; Sim.pci "0000:05:00.0" "15b3" "0x02";
              Sim.pci "0000:03:00.1" "15b3" "02" ] []
            (Sim.pci "0000:00:1f.6" "8086" "02") ∅ Sim.nvPending _).
  intros [Hvendor _]. discriminate Hvendor.
Defined.

Lemma DiscoverNicDevices_complete_witness :
  ∃ devices s' evs,
    DiscoverNicDevices Sim.consts Sim.plain Sim.nvPending
    = Returned (Some devices, None) s' evs ∧
    (∀ addr pn sn,
       EvGetPartAndSerialNumber addr pn sn None ∈ evs →
       ∃ status, devices !! sn = Some status ∧ addr ∈ PCI <$> Ports status) ∧
    (∀ sn, is_Some (devices !! sn) ↔
           ∃ addr pn, EvGetPartAndSerialNumber addr pn sn None ∈ evs).
Proof.
  do 3 eexists.
  refine ((λ Hrun, conj Hrun
             (DiscoverNicDevices_complete Sim.consts Sim.plain _ _ _ _ Hrun)) _).
  reflexivity.
Defined.

Lemma DiscoverNicDevices_firmware_once_witness :
  ∃ devices s' evs,
    DiscoverNicDevices Sim.consts Sim.plain Sim.nvPending
    = Returned (Some devices, None) s' evs ∧
    length (List.filter isGetFirmwareVersionAndPSID evs) = size devices.
Proof.
  do 3 eexists.
  refine ((λ Hrun, conj Hrun
             (DiscoverNicDevices_firmware_once Sim.consts Sim.plain _ _ _ _ Hrun)) _).
  reflexivity.
Defined.

Lemma DiscoverNicDevices_identity_of_first_port_witness :
  ∃ devices s' evs,
    DiscoverNicDevices Sim.consts Sim.plain Sim.nvPending
    = Returned (Some devices, None) s' evs ∧
    ∀ sn status,
      devices !! sn = Some status →
      ∃ first pciDevice,
        head (Ports status) = Some first ∧
        EvGetPartAndSerialNumber (PCI first) (PartNumber status) sn None ∈ evs ∧
        EvGetFirmwareVersionAndPSID (PCI first) (FirmwareVersion status) (PSID status)
          None ∈ evs ∧
        pciDevice ∈ Sim.pciDevices Sim.card ∧
        Address pciDevice = PCI first ∧
        Type_ status = Product_ID pciDevice.
Proof.
  do 3 eexists.
  refine ((λ Hrun, conj Hrun
             (DiscoverNicDevices_identity_of_first_port Sim.consts Sim.plain
                _ _ _ _ Hrun)) _).
  reflexivity.
Defined.

Lemma DiscoverNicDevices_port_names_witness :
  ∃ devices s' evs,
    DiscoverNicDevices Sim.consts Sim.plain Sim.nvPending
    = Returned (Some devices, None) s' evs ∧
    ∀ sn status port,
      devices !! sn = Some status → port ∈ Ports status →
      EvGetInterfaceName (PCI port) (NetworkInterface port) ∈ evs ∧
      EvGetRDMADeviceName (PCI port) (RdmaInterface port) ∈ evs.
Proof.
  do 3 eexists.
  refine ((λ Hrun, conj Hrun
             (DiscoverNicDevices_port_names Sim.consts Sim.plain _ _ _ _ Hrun)) _).
  reflexivity.
Defined.

Lemma DiscoverNicDevices_ports_are_physical_witness :
  ∃ devices s' evs,
    DiscoverNicDevices Sim.consts Sim.plain Sim.nvPending
    = Returned (Some devices, None) s' evs ∧
    ∀ sn status port,
      devices !! sn = Some status → port ∈ Ports status →
      ∃ pciDevice,
        pciDevice ∈ Sim.pciDevices Sim.card ∧
        Address pciDevice = PCI port ∧ passedFilters Sim.consts pciDevice ∧
        EvIsSriovVF (PCI port) false ∈ evs.
Proof.
  do 3 eexists.
  refine ((λ Hrun, conj Hrun
             (DiscoverNicDevices_ports_are_physical Sim.consts Sim.plain
                _ _ _ _ Hrun)) _).
  reflexivity.
Defined.
